(** * Pulse Studio: the AI command routing pipeline

    A shallow embedding of the request/response glue of the DAW assistant:
    - [lib/ai/backboard.ts] in its two revisions: the SDK-backed one with task
      classification, context-hash cache and retry loop (the listing that
      follows FIX_EXTEND_TRACK.md), and the earlier mock-only one
      (src/lib/ai/backboard.ts),
    - the [handleSend] callback of [components/panels/ChatPanel.tsx],
    - the resolution of symbolic ids by the batch executor, which the
      sources at hand only describe.

    JavaScript strings are modelled as [string] (sequences of 8-bit code
    units, read as the Latin-1 range U+0000..U+00FF of UTF-16); numbers that
    the code only ever builds from integer literals and [parseInt] are exact. *)

From Stdlib Require Import Bool Arith NArith ZArith QArith Lia List Ascii String Setoid.
Import ListNotations.

Set Implicit Arguments.

(* ===================================================================== *)
(** ** JavaScript string primitives used by the sources *)
(* ===================================================================== *)

Module JsString.

Local Open Scope N_scope.

(** [charCodeAt] of a single code unit. *)
Definition code (c : ascii) : N := N_of_ascii c.

Definition in_range (lo hi : N) (c : ascii) : bool :=
  (lo <=? code c) && (code c <=? hi).

(** The class [\d]. *)
Definition is_digit (c : ascii) : bool := in_range 48 57 c.

Definition is_upper (c : ascii) : bool := in_range 65 90 c.
Definition is_lower (c : ascii) : bool := in_range 97 122 c.

(** The class [\w] = [[A-Za-z0-9_]]. *)
Definition is_word (c : ascii) : bool :=
  is_upper c || is_lower c || is_digit c || (code c =? 95).

(** The class [\s] restricted to the code units below U+0100:
    TAB, LF, VT, FF, CR, SPACE and NO-BREAK SPACE. *)
Definition is_space (c : ascii) : bool :=
  in_range 9 13 c || (code c =? 32) || (code c =? 160).

(** Letters with a lower-case partner 32 code points above them:
    [A-Z], and U+00C0..U+00DE without the multiplication sign U+00D7. *)
Definition has_lower_partner (c : ascii) : bool :=
  is_upper c || in_range 192 214 c || in_range 216 222 c.

Definition lower_char (c : ascii) : ascii :=
  if has_lower_partner c then ascii_of_N (code c + 32) else c.

Definition upper_char (c : ascii) : ascii :=
  if is_lower c then ascii_of_N (code c - 32) else c.

Fixpoint map_chars (f : ascii -> ascii) (s : string) : string :=
  match s with
  | EmptyString => EmptyString
  | String c t => String (f c) (map_chars f t)
  end.

(** [s.toLowerCase()] *)
Definition toLowerCase (s : string) : string := map_chars lower_char s.

(** [s.toUpperCase()] (only ever applied to a single ASCII letter). *)
Definition toUpperCase (s : string) : string := map_chars upper_char s.

(** [s.includes(sub)] *)
Fixpoint includes (sub s : string) : bool :=
  String.prefix sub s ||
  match s with
  | EmptyString => false
  | String _ t => includes sub t
  end.

(** [s.charAt(0)] and [s.slice(1)] *)
Definition charAt0 (s : string) : string :=
  match s with
  | EmptyString => EmptyString
  | String c _ => String c EmptyString
  end.

Definition slice1 (s : string) : string :=
  match s with
  | EmptyString => EmptyString
  | String _ t => t
  end.

(** [s.split(sep)] for a one-character separator: always at least one piece. *)
Fixpoint split_on (sep : ascii) (s : string) : list string :=
  match s with
  | EmptyString => [EmptyString]
  | String c t =>
      if Ascii.eqb c sep then EmptyString :: split_on sep t
      else match split_on sep t with
           | [] => [String c EmptyString]
           | p :: ps => String c p :: ps
           end
  end.

(** [s.trim()] *)
Fixpoint trimStart (s : string) : string :=
  match s with
  | EmptyString => EmptyString
  | String c t => if is_space c then trimStart t else s
  end.

Fixpoint trimEnd (s : string) : string :=
  match s with
  | EmptyString => EmptyString
  | String c t =>
      match trimEnd t with
      | EmptyString => if is_space c then EmptyString else String c EmptyString
      | t' => String c t'
      end
  end.

Definition trim (s : string) : string := trimEnd (trimStart s).

(** The longest run of digits at the head of [s], and what follows it. *)
Fixpoint span_digits (s : string) : string * string :=
  match s with
  | EmptyString => (EmptyString, EmptyString)
  | String c t =>
      if is_digit c then let (d, r) := span_digits t in (String c d, r)
      else (EmptyString, s)
  end.

(** [s.match(/\d+/)]: the leftmost, longest run of digits, if any. *)
Fixpoint match_digits (s : string) : option string :=
  match s with
  | EmptyString => None
  | String c t =>
      if is_digit c then Some (fst (span_digits s)) else match_digits t
  end.

(** [parseInt] of a non-empty run of decimal digits. *)
Definition digit_value (c : ascii) : Z := Z.of_N (code c - 48).

Fixpoint parse_digits (acc : Z) (s : string) : Z :=
  match s with
  | EmptyString => acc
  | String c t => parse_digits (10 * acc + digit_value c)%Z t
  end.

Definition parseInt (s : string) : Z := parse_digits 0%Z s.

(** Decimal rendering of an integer, as a template literal prints it. *)
Fixpoint pos_digits (fuel : nat) (n : N) (acc : string) : string :=
  match fuel with
  | O => acc
  | S fuel' =>
      let acc' := String (ascii_of_N (48 + n mod 10)) acc in
      if n / 10 =? 0 then acc' else pos_digits fuel' (n / 10) acc'
  end.

Definition string_of_N (n : N) : string :=
  pos_digits (S (N.to_nat (N.log2 n))) n EmptyString.

Definition string_of_Z (z : Z) : string :=
  match z with
  | Zneg p => String "-"%char (string_of_N (Npos p))
  | _ => string_of_N (Z.to_N z)
  end.

(** Some string contains a digit. *)
Fixpoint has_digit (s : string) : bool :=
  match s with
  | EmptyString => false
  | String c t => is_digit c || has_digit t
  end.

End JsString.

(* ===================================================================== *)
(** ** Regular expressions: the fragment of the RegExp literals in use *)
(* ===================================================================== *)

(** None of the patterns in the sources uses back-references or look-around,
    so [RegExp.prototype.test] decides membership in a regular language:
    some substring (or, with anchors, a prefix, a suffix or the whole input)
    belongs to the language of the pattern body. *)

Module Regex.

Inductive regex : Type :=
| Void                              (* matches nothing *)
| Eps                               (* the empty match *)
| Class (p : ascii -> bool)         (* one code unit of a class *)
| Seq (r s : regex)                 (* r s *)
| Alt (r s : regex)                 (* r|s *)
| Star (r : regex).                 (* r* *)

(** Declarative meaning: the words of a pattern body. *)
Inductive Matches : regex -> list ascii -> Prop :=
| MEps : Matches Eps []
| MClass p c : p c = true -> Matches (Class p) [c]
| MSeq r s u v : Matches r u -> Matches s v -> Matches (Seq r s) (u ++ v)
| MAltL r s u : Matches r u -> Matches (Alt r s) u
| MAltR r s u : Matches s u -> Matches (Alt r s) u
| MStarNil r : Matches (Star r) []
| MStarApp r u v : Matches r u -> Matches (Star r) v -> Matches (Star r) (u ++ v).

#[local] Hint Constructors Matches : core.

(** Executable matcher: Brzozowski derivatives with light simplification. *)
Fixpoint nullable (r : regex) : bool :=
  match r with
  | Void => false
  | Eps => true
  | Class _ => false
  | Seq r s => nullable r && nullable s
  | Alt r s => nullable r || nullable s
  | Star _ => true
  end.

Definition mkSeq (r s : regex) : regex :=
  match r with
  | Void => Void
  | Eps => s
  | _ => match s with Void => Void | _ => Seq r s end
  end.

Definition mkAlt (r s : regex) : regex :=
  match r with
  | Void => s
  | _ => match s with Void => r | _ => Alt r s end
  end.

Fixpoint deriv (c : ascii) (r : regex) : regex :=
  match r with
  | Void => Void
  | Eps => Void
  | Class p => if p c then Eps else Void
  | Seq r s =>
      if nullable r then mkAlt (mkSeq (deriv c r) s) (deriv c s)
      else mkSeq (deriv c r) s
  | Alt r s => mkAlt (deriv c r) (deriv c s)
  | Star r => mkSeq (deriv c r) (Star r)
  end.

Fixpoint accepts (r : regex) (w : list ascii) : bool :=
  match w with
  | [] => nullable r
  | c :: w' => accepts (deriv c r) w'
  end.

(** *** Surface syntax *)

Definition chr (c : ascii) : regex := Class (Ascii.eqb c).
Definition any : regex := Class (fun _ => true).
Definition digit : regex := Class JsString.is_digit.      (* \d *)
Definition word : regex := Class JsString.is_word.        (* \w *)
Definition space : regex := Class JsString.is_space.      (* \s *)
Definition plus (r : regex) : regex := Seq r (Star r).    (* r+ *)
Definition opt (r : regex) : regex := Alt r Eps.          (* r? *)

Fixpoint lit (s : string) : regex :=
  match s with
  | EmptyString => Eps
  | String c t => Seq (chr c) (lit t)
  end.

Fixpoint seqs (rs : list regex) : regex :=
  match rs with
  | [] => Eps
  | [r] => r
  | r :: rs' => Seq r (seqs rs')
  end.

Fixpoint alts (rs : list regex) : regex :=
  match rs with
  | [] => Void
  | [r] => r
  | r :: rs' => Alt r (alts rs')
  end.

(** One of several literal words: [(beat|melody|chord)]. *)
Definition oneof (ws : list string) : regex := alts (map lit ws).

(** A RegExp literal without flags: optional [^], a body, optional [$]. *)
Record pattern : Type := Pattern {
  anchored_start : bool;
  body : regex;
  anchored_end : bool
}.

Definition re (r : regex) : pattern := Pattern false r false.
Definition re_from_start (r : regex) : pattern := Pattern true r false.
Definition re_whole (r : regex) : pattern := Pattern true r true.

Definition search_regex (p : pattern) : regex :=
  Seq (if anchored_start p then Eps else Star any)
      (Seq (body p) (if anchored_end p then Eps else Star any)).

(** [p.test(s)] *)
Definition test (p : pattern) (s : string) : bool :=
  accepts (search_regex p) (list_ascii_of_string s).

End Regex.

(* ===================================================================== *)
(** ** JavaScript values as they travel in responses *)
(* ===================================================================== *)

Module Json.

#[local] Unset Elimination Schemes.

Inductive value : Type :=
| Undefined
| Null
| Bool (b : bool)
| Num (q : Q)
| Str (s : string)
| Arr (items : list value)
| Obj (fields : list (string * value)).

#[local] Set Elimination Schemes.

Definition int (z : Z) : value := Num (inject_Z z).

(** ToBoolean (no NaN arises from the literals and integers in use). *)
Definition truthy (v : value) : bool :=
  match v with
  | Undefined | Null => false
  | Bool b => b
  | Num q => negb (Qeq_bool q 0)
  | Str s => negb (String.eqb s "")
  | Arr _ | Obj _ => true
  end.

(** [a || b] *)
Definition or_else (a b : value) : value := if truthy a then a else b.

Fixpoint lookup (key : string) (fields : list (string * value)) : value :=
  match fields with
  | [] => Undefined
  | (k, v) :: rest => if String.eqb k key then v else lookup key rest
  end.

(** [v.key]: a TypeError ([None]) on [null] and [undefined]; own properties of
    an object; [undefined] on the other values for the keys read here. *)
Definition get (v : value) (key : string) : option value :=
  match v with
  | Undefined | Null => None
  | Obj fields => Some (lookup key fields)
  | _ => Some Undefined
  end.

(** [Array.isArray(v)] *)
Definition isArray (v : value) : bool :=
  match v with Arr _ => true | _ => false end.

End Json.

(* ===================================================================== *)
(** ** lib/ai/backboard.ts, SDK revision: routing, cache, retry *)
(* ===================================================================== *)

Module Backboard.

Import Regex.
Local Open Scope string_scope.

Definition MAX_RETRIES : nat := 2.
Definition RETRY_DELAY_MS : Z := 1000.
Definition USE_MOCK : bool := false.

(** *** Model provider configuration *)

Inductive ModelProvider : Type := openai | google | anthropic | cohere | xai.

Record ModelConfig : Type := {
  provider : ModelProvider;
  modelName : string;
  description : string
}.

Inductive TaskType : Type := creative | technical | analytical | fallback.

(** The string a [TaskType] is at run time, the key into [MODEL_CONFIGS]. *)
Definition task_key (t : TaskType) : string :=
  match t with
  | creative => "creative"
  | technical => "technical"
  | analytical => "analytical"
  | fallback => "fallback"
  end.

Definition MODEL_CONFIGS : list (string * ModelConfig) :=
  [ ("creative",
     {| provider := google; modelName := "gemini-2.5-flash";
        description := "Google Gemini 2.5 Flash - Creative & musical tasks" |});
    ("technical",
     {| provider := openai; modelName := "gpt-4o";
        description := "OpenAI GPT-4o - Technical & precise tasks" |});
    ("analytical",
     {| provider := anthropic; modelName := "claude-sonnet-4-20250514";
        description := "Anthropic Claude Sonnet 4 - Analysis & explanations" |});
    ("fallback",
     {| provider := openai; modelName := "gpt-4o-mini";
        description := "OpenAI GPT-4o Mini - Fast fallback" |}) ].

Fixpoint config_lookup (key : string) (table : list (string * ModelConfig))
  : option ModelConfig :=
  match table with
  | [] => None
  | (k, c) :: rest => if String.eqb k key then Some c else config_lookup key rest
  end.

(** *** classifyTask *)

Definition ws1 : regex := plus space.     (* \s+ *)
Definition ws0 : regex := Star space.     (* \s* *)
Definition digits1 : regex := plus digit. (* \d+ *)

(** [verb\s+(the\s+)?(obj1|obj2|...)] *)
Definition verb_the (verbs objs : list string) : regex :=
  seqs [oneof verbs; ws1; opt (Seq (lit "the") ws1); oneof objs].

(** [verb\s+(a\s+)?(\w+\s+)?] as a prefix of the creation patterns *)
Definition verb_a_word (verb : string) : regex :=
  seqs [lit verb; ws1; opt (Seq (lit "a") ws1); opt (Seq (plus word) ws1)].

Definition analyticalPatterns : list pattern :=
  [ re (lit "explain");
    re (seqs [lit "what"; ws1; oneof ["is"; "are"; "does"]]);
    re (seqs [lit "how"; ws1; oneof ["do"; "does"; "can"; "should"]]);
    re (seqs [lit "why"; ws1; oneof ["is"; "are"; "does"; "do"]]);
    re (seqs [lit "tell"; ws1; lit "me"; ws1; lit "about"]);
    re (lit "analyze");
    re (lit "analyse");
    re (lit "feedback");
    re (lit "review");
    re (lit "critique");
    re (lit "improve");
    re (lit "better");
    re (lit "theory");
    re (lit "teach");
    re (lit "learn");
    re (lit "understand");
    re (seqs [lit "difference"; ws1; lit "between"]);
    re (lit "compare");
    re (seqs [lit "help"; ws1; lit "me"; ws1; lit "understand"]) ].

Definition creativePatterns : list pattern :=
  [ re (Seq (verb_a_word "make")
            (oneof ["beat"; "melody"; "chord"; "bass"; "pattern"; "music"; "song"; "track"]));
    re (Seq (verb_a_word "create")
            (oneof ["beat"; "melody"; "chord"; "bass"; "pattern"; "music"; "song"; "track"]));
    re (Seq (verb_a_word "generate") (oneof ["beat"; "melody"; "music"; "pattern"]));
    re (Seq (verb_a_word "write") (oneof ["melody"; "chord"; "bass"; "song"]));
    re (Seq (verb_a_word "compose") (opt (oneof ["melody"; "beat"; "song"; "piece"])));
    re (Seq (verb_a_word "add")
            (oneof ["melody"; "chord"; "piano"; "bass"; "lead"; "pad"; "synth"]));
    re (alts [seqs [lit "hip"; ws0; lit "hop"]; lit "trap"; lit "house"; lit "edm";
              lit "jazz"; lit "funk"; lit "rock"; lit "pop"; lit "lofi"; lit "rap"]);
    re (alts [seqs [lit "boom"; ws0; lit "bap"]; lit "drill"; lit "phonk";
              lit "reggaeton"; lit "r&b"; lit "soul"]);
    re (oneof ["catchy"; "groovy"; "chill"; "energetic"; "dark"; "bright"; "sad";
               "happy"; "upbeat"]);
    re (lit "suggest");
    re (oneof ["improvise"; "freestyle"; "jam"]);
    re (seqs [lit "piano"; ws1; oneof ["melody"; "part"; "line"]]);
    re (seqs [lit "drum"; ws1; oneof ["beat"; "pattern"; "loop"]]);
    re (seqs [lit "bass"; ws1; oneof ["line"; "pattern"; "groove"]]) ].

Definition technicalPatterns : list pattern :=
  [ re (verb_the ["set"; "change"; "adjust"; "make"] ["bpm"; "tempo"]);
    re (seqs [lit "bpm"; ws1; oneof ["to"; "="]; ws0; digits1]);
    re (seqs [lit "tempo"; ws1; oneof ["to"; "="]; ws0; digits1]);
    re (seqs [digits1; ws0; lit "bpm"]);
    re (verb_the ["increase"; "decrease"; "raise"; "lower"; "bump"]
                 ["bpm"; "tempo"; "volume"; "pan"]);
    re (seqs [oneof ["bpm"; "tempo"; "volume"; "pan"]; ws1; oneof ["up"; "down"]]);
    re (seqs [lit "by"; ws1; digits1; ws0; opt (lit "bpm")]);
    re (seqs [oneof ["faster"; "slower"]; ws0; opt (oneof ["tempo"; "bpm"])]);
    re (seqs [lit "speed"; ws1; oneof ["up"; "down"]]);
    re (verb_the ["double"; "half"; "halve"] ["tempo"; "bpm"; "speed"]);
    re_whole (oneof ["play"; "stop"; "pause"; "record"]);
    re_whole (lit "play");
    re_whole (lit "stop");
    re (oneof ["mute"; "solo"; "unmute"]);
    re (seqs [lit "volume"; ws1; oneof ["to"; "up"; "down"]]);
    re (seqs [lit "pan"; ws1; oneof ["to"; "left"; "right"]]);
    re (verb_the ["delete"] ["pattern"; "note"; "clip"; "track"; "channel"]);
    re (verb_the ["remove"] ["pattern"; "note"; "clip"; "track"; "channel"]);
    re (verb_the ["move"] ["clip"; "pattern"; "note"]);
    re (verb_the ["copy"] ["clip"; "pattern"; "note"]);
    re (lit "duplicate");
    re (lit "resize");
    re (verb_the ["extend"] ["melody"; "pattern"; "clip"; "beat"; "track"]);
    re (verb_the ["shorten"] ["melody"; "pattern"; "clip"; "beat"; "track"]);
    re (seqs [lit "make"; ws1;
              Alt (lit "it") (seqs [lit "the"; ws1; plus word]); ws1;
              oneof ["longer"; "shorter"]]);
    re (seqs [digits1; ws0; lit "bar"; opt (lit "s"); ws0; oneof ["longer"; "shorter"]]);
    re (seqs [oneof ["longer"; "shorter"]; ws0; lit "by"; ws0; digits1]);
    re (verb_the ["set"] ["loop"; "position"; "start"; "end"]);
    re (seqs [lit "loop"; ws1; oneof ["from"; "to"; "at"]]);
    re (verb_the ["change"] ["volume"; "pan"; "pitch"; "key"; "scale"]);
    re (verb_the ["adjust"] ["volume"; "pan"; "pitch"; "key"; "scale"]);
    re (lit "modify");
    re (lit "edit");
    re (lit "update");
    re (lit "toggle");
    re (verb_the ["clear"] ["pattern"; "clip"; "track"; "all"]);
    re (oneof ["undo"; "redo"]);
    re (lit "export");
    re (oneof ["save"; "load"]);
    re (lit "rename");
    re (lit "quantize");
    re (lit "snap") ].

(** [/\d+/] and [/(bpm|tempo|volume|pan|by|to|=)/] *)
Definition anyNumber : pattern := re digits1.
Definition parameterWord : pattern :=
  re (oneof ["bpm"; "tempo"; "volume"; "pan"; "by"; "to"; "="]).

(** [for (const pattern of ps) if (pattern.test(input)) return ...] *)
Definition some_pattern_matches (ps : list pattern) (input : string) : bool :=
  existsb (fun p => test p input) ps.

Definition classifyTask (userInput : string) : TaskType :=
  let input := JsString.toLowerCase userInput in
  if test anyNumber input then technical
  else if some_pattern_matches analyticalPatterns input then analytical
  else if some_pattern_matches creativePatterns input then creative
  else if some_pattern_matches technicalPatterns input then technical
  else if test anyNumber input && test parameterWord input then technical
  else if (List.length (JsString.split_on " "%char input) <=? 3)%nat then technical
  else creative.

Definition getModelForTask (taskType : TaskType) : ModelConfig :=
  match config_lookup (task_key taskType) MODEL_CONFIGS with
  | Some config => config
  | None =>
      {| provider := openai; modelName := "gpt-4o-mini";
         description := "OpenAI GPT-4o Mini - Fast fallback" |}
  end.

(** *** hashContext *)

(** ToInt32: what [<<] and [&] leave of an integer. *)
Definition to_int32 (z : Z) : Z := ((z + 2 ^ 31) mod 2 ^ 32 - 2 ^ 31)%Z.

(** One round of the loop body:
    [hash = (hash << 5) - hash + char; hash = hash & hash]. *)
Definition hash_step (hash : Z) (c : ascii) : Z :=
  let hash1 := (to_int32 (Z.shiftl hash 5) - hash + Z.of_N (JsString.code c))%Z in
  to_int32 (Z.land hash1 hash1).

Fixpoint hash_loop (hash : Z) (context : string) : Z :=
  match context with
  | EmptyString => hash
  | String c t => hash_loop (hash_step hash c) t
  end.

Definition hex_digit (n : N) : ascii :=
  if (n <? 10)%N then ascii_of_N (48 + n) else ascii_of_N (87 + n).

Fixpoint hex_digits (fuel : nat) (n : N) (acc : string) : string :=
  match fuel with
  | O => acc
  | S fuel' =>
      let acc' := String (hex_digit (n mod 16)) acc in
      if (n / 16 =? 0)%N then acc' else hex_digits fuel' (n / 16) acc'
  end.

(** [n.toString(16)] of an integer: a sign and the digits of the magnitude. *)
Definition toString16 (z : Z) : string :=
  let digits := hex_digits (S (N.to_nat (N.log2 (Z.abs_N z)))) (Z.abs_N z) "" in
  if (z <? 0)%Z then String "-"%char digits else digits.

Definition hashContext (context : string) : string :=
  toString16 (hash_loop 0 context).

(** *** Responses *)

Record BackboardResponse : Type := {
  action : Json.value;
  parameters : Json.value;
  confidence : Json.value;
  reasoning : Json.value
}.

Definition action_object (name : Json.value) (params : Json.value) : Json.value :=
  Json.Obj [("action", name); ("parameters", params)].

(** The helper [wrapInBatch] of the mock. *)
Definition wrapInBatch (name : string) (params : Json.value) (conf : Q)
    (reason : string) : BackboardResponse :=
  {| action := Json.Str "__batch__";
     parameters := Json.Obj [("actions", Json.Arr [action_object (Json.Str name) params])];
     confidence := Json.Num conf;
     reasoning := Json.Str reason |}.

(** *** Scanning the system prompt (mock, ghost-preview branch) *)

Definition dquote : ascii := "034"%char.
Definition quoted (s : string) : string := String dquote (s ++ String dquote "").

Fixpoint strip_prefix (fold : ascii -> ascii) (p s : string) : option string :=
  match p, s with
  | EmptyString, _ => Some s
  | String a p', String b s' =>
      if Ascii.eqb (fold a) (fold b) then strip_prefix fold p' s' else None
  | String _ _, EmptyString => None
  end.

Definition exact : ascii -> ascii := fun c => c.

(** The longest prefix of [s] inside a class, and the rest. *)
Fixpoint span (cls : ascii -> bool) (s : string) : string * string :=
  match s with
  | EmptyString => (EmptyString, EmptyString)
  | String c t =>
      if cls c then let (d, r) := span cls t in (String c d, r)
      else (EmptyString, s)
  end.

(** A non-empty run [cls+], greedy. *)
Definition span1 (cls : ascii -> bool) (s : string) : option (string * string) :=
  match span cls s with
  | (EmptyString, _) => None
  | (d, r) => Some (d, r)
  end.

(** The leftmost position at which [f] succeeds. *)
Fixpoint first_match (A : Type) (f : string -> option A) (s : string) : option A :=
  match f s with
  | Some a => Some a
  | None =>
      match s with
      | EmptyString => None
      | String _ t => first_match f t
      end
  end.

(** [/track (\d+)/i] at the head of [s]: the captured digits. *)
Definition track_at (s : string) : option string :=
  match strip_prefix JsString.lower_char "track " s with
  | Some r => option_map fst (span1 JsString.is_digit r)
  | None => None
  end.

Definition tick_separator (c : ascii) : bool :=
  Ascii.eqb c dquote || JsString.is_space c || Ascii.eqb c ":"%char.

(** The pattern [startTick], one or more of double quote, white space or
    colon, then [(\d+)], at the head of [s]: the captured digits. *)
Definition tick_at (s : string) : option string :=
  match strip_prefix exact "startTick" s with
  | Some r =>
      match span1 tick_separator r with
      | Some (_, r') => option_map fst (span1 JsString.is_digit r')
      | None => None
      end
  | None => None
  end.

Definition id_char (c : ascii) : bool :=
  JsString.is_lower c || JsString.is_upper c || JsString.is_digit c || Ascii.eqb c "-"%char.

(** The pattern for one listed pattern entry at the head of [s]: a name of
    one or more characters between double quotes, then
    [ \((\d+) bars, ID: ([a-zA-Z0-9-]+)\)]; the result is the length of the match.  Each greedy run is followed by a character
    outside its class, so no shorter run can match. *)
Definition pattern_entry_at (s : string) : option nat :=
  match strip_prefix exact (String dquote "") s with
  | None => None
  | Some r1 =>
      match span1 (fun c => negb (Ascii.eqb c dquote)) r1 with
      | None => None
      | Some (_, r2) =>
          match strip_prefix exact (String dquote " (") r2 with
          | None => None
          | Some r3 =>
              match span1 JsString.is_digit r3 with
              | None => None
              | Some (_, r4) =>
                  match strip_prefix exact " bars, ID: " r4 with
                  | None => None
                  | Some r5 =>
                      match span1 id_char r5 with
                      | None => None
                      | Some (_, r6) =>
                          match strip_prefix exact ")" r6 with
                          | None => None
                          | Some r7 => Some (String.length s - String.length r7)%nat
                          end
                      end
                  end
              end
          end
      end
  end.

(** The [while ((match = patternRegex.exec(systemPrompt)) !== null)] loop:
    the number of entries pushed.  [skip] counts the characters still
    covered by the previous match. *)
Fixpoint count_pattern_entries (skip : nat) (s : string) : nat :=
  match s with
  | EmptyString => O
  | String _ t =>
      match skip with
      | S k => count_pattern_entries k t
      | O =>
          match pattern_entry_at s with
          | Some n => S (count_pattern_entries (n - 1) t)
          | None => count_pattern_entries O t
          end
      end
  end.

(** *** mockBackboardResponse *)

Definition note (pitch startTick durationTick velocity : Z) : Json.value :=
  Json.Obj [("pitch", Json.int pitch); ("startTick", Json.int startTick);
            ("durationTick", Json.int durationTick); ("velocity", Json.int velocity)].

Definition noteVariations : list (list Json.value) :=
  [ [ note 36 0 96 100; note 36 192 48 80; note 38 288 48 90;
      note 41 384 96 100; note 36 576 48 85; note 43 672 96 95 ];
    [ note 60 0 48 90; note 62 96 48 85; note 64 192 96 100;
      note 62 384 48 80; note 60 480 48 85; note 57 576 96 95 ];
    [ note 48 0 24 100; note 48 96 24 70; note 48 192 24 100; note 48 288 24 70;
      note 48 384 24 100; note 48 480 24 70; note 48 576 24 100; note 48 672 24 70 ] ].

(** U+1F3B5 lies outside the modelled code-unit range; it is kept as the
    four bytes of its UTF-8 form. *)
Definition MUSICAL_NOTE : string :=
  String "240"%char (String "159"%char (String "142"%char (String "181"%char ""))).

Definition suggestResponse (systemPrompt : option string) : BackboardResponse :=
  let prompt :=
    match systemPrompt with
    | Some p => if String.eqb p "" then None else Some p
    | None => None
    end in
  let trackIndex : Z :=
    match prompt with
    | Some p =>
        match first_match track_at p with
        | Some d => (JsString.parseInt d - 1)%Z
        | None => 0%Z
        end
    | None => 0%Z
    end in
  let startTick : Z :=
    match prompt with
    | Some p =>
        match first_match tick_at p with
        | Some d => JsString.parseInt d
        | None => 384%Z
        end
    | None => 384%Z
    end in
  let availablePatterns : nat :=
    match prompt with
    | Some p => count_pattern_entries O p
    | None => O
    end in
  let newPatternName := "AI Generated Beat" in
  let durationBars := 2%Z in
  let ticksPerBar := 384%Z in
  let variationIndex := (availablePatterns mod List.length noteVariations)%nat in
  let generatedNotes := nth variationIndex noteVariations [] in
  {| action := Json.Str "__batch__";
     parameters :=
       Json.Obj [("actions", Json.Arr
         [ action_object (Json.Str "addPattern")
             (Json.Obj [("name", Json.Str newPatternName);
                        ("lengthInSteps", Json.int (durationBars * 16))]);
           action_object (Json.Str "addNoteSequence")
             (Json.Obj [("patternId", Json.Str "__NEW_PATTERN__");
                        ("notes", Json.Arr generatedNotes)]);
           action_object (Json.Str "addClip")
             (Json.Obj [("patternId", Json.Str "__NEW_PATTERN__");
                        ("trackIndex", Json.int trackIndex);
                        ("startTick", Json.int startTick);
                        ("durationTick", Json.int (durationBars * ticksPerBar))]) ])];
     confidence := Json.Num (9 # 10);
     reasoning :=
       Json.Str ("Creating " ++ quoted newPatternName
                 ++ " with fresh notes just for you! " ++ MUSICAL_NOTE) |}.

Definition sampleAt (subcategory : string) (trackIndex tick : Z) : Json.value :=
  action_object (Json.Str "addAudioSample")
    (Json.Obj [("category", Json.Str "drums"); ("subcategory", Json.Str subcategory);
               ("trackIndex", Json.int trackIndex); ("startTick", Json.int tick)]).

Definition kickTicks : list Z := [0; 144; 384; 528; 768; 912; 1152; 1296]%Z.
Definition snareTicks : list Z := [96; 288; 480; 672; 864; 1056; 1248; 1440]%Z.

(** [for (let tick = 0; tick < 1536; tick += 48)]: the 32 ticks 0, 48, ..., 1488. *)
Definition hihatTicks : list Z := map (fun i => (48 * Z.of_nat i)%Z) (seq 0 32).

Definition beatResponse : BackboardResponse :=
  let actions :=
    ([ action_object (Json.Str "setBpm") (Json.Obj [("bpm", Json.int 90)]) ]
     ++ map (sampleAt "kick" 0) kickTicks
     ++ map (sampleAt "snare" 1) snareTicks
     ++ map (sampleAt "hihat" 2) hihatTicks)%list in
  {| action := Json.Str "__batch__";
     parameters := Json.Obj [("actions", Json.Arr actions)];
     confidence := Json.Num (9 # 10);
     reasoning := Json.Str "Creating a 4-bar boom-bap beat: kicks on 1 and 2-and, snares on 2 and 4, 8th note hi-hats throughout" |}.

Definition instruments : list string :=
  ["kick"; "snare"; "hihat"; "clap"; "tom"; "cymbal"].

(** [found.charAt(0).toUpperCase() + found.slice(1)] *)
Definition capitalise (found : string) : string :=
  JsString.toUpperCase (JsString.charAt0 found) ++ JsString.slice1 found.

Definition patternParameters (found : option string) : Json.value :=
  Json.Obj [("name", Json.Str match found with
                              | Some f => capitalise f ++ " Pattern"
                              | None => "New Pattern"
                              end);
            ("lengthInSteps", Json.int 16)].

Definition patternReasoning (found : option string) : string :=
  "Creating a new pattern" ++ match found with Some f => " for " ++ f | None => "" end.

Definition noteParameters : Json.value :=
  Json.Obj [("patternId", Json.Str "current"); ("pitch", Json.int 60);
            ("startTick", Json.int 0); ("durationTick", Json.int 96);
            ("velocity", Json.int 100)].

(** [text.match(/\d+/)] and [parseInt(match[0])], 120 without a number.
    Integers are exact here; the source rounds beyond 2^53. *)
Definition bpmOf (text : string) : Z :=
  match JsString.match_digits text with
  | Some d => JsString.parseInt d
  | None => 120%Z
  end.

Definition startsWithPlay : pattern := re_from_start (oneof ["play"; "start"]).
Definition startsWithStop : pattern := re_from_start (lit "stop").

Definition clarificationParameters (text : string) : Json.value :=
  Json.Obj
    [("message", Json.Str
        ("I understand you want to " ++ quoted text
         ++ ", but I'm not sure how to help with that. Try commands like "
         ++ quoted "make a beat" ++ ", " ++ quoted "add a kick pattern" ++ ", "
         ++ quoted "set BPM to 128" ++ ", or " ++ quoted "play" ++ "."));
     ("suggestedOptions", Json.Arr [Json.Str "Make a beat"; Json.Str "Add a pattern";
                                    Json.Str "Set BPM"; Json.Str "Play/Stop"])].

(** The guards of the two branches that only this revision has: the ghost
    preview ([suggest] with [clip] or [next]) and the beat ([beat] with
    [make] or [create]). *)
Definition ghostPreviewBranch (lowerText : string) : bool :=
  JsString.includes "suggest" lowerText
  && (JsString.includes "clip" lowerText || JsString.includes "next" lowerText).

Definition makeBeatBranch (lowerText : string) : bool :=
  JsString.includes "beat" lowerText
  && (JsString.includes "make" lowerText || JsString.includes "create" lowerText).

(** The [model] argument only reaches [console.log]. *)
Definition mockBackboardResponse (text model : string) (systemPrompt : option string)
  : BackboardResponse :=
  let lowerText := JsString.toLowerCase text in
  let has := fun w => JsString.includes w lowerText in
  if ghostPreviewBranch lowerText then suggestResponse systemPrompt
  else if makeBeatBranch lowerText then beatResponse
  else if has "pattern" && (has "add" || has "create") then
    let found := find (fun inst => JsString.includes inst lowerText) instruments in
    wrapInBatch "addPattern" (patternParameters found) (9 # 10) (patternReasoning found)
  else if has "bpm" || has "tempo" then
    let bpm := bpmOf text in
    wrapInBatch "setBpm" (Json.Obj [("bpm", Json.int bpm)]) (95 # 100)
      ("Setting tempo to " ++ JsString.string_of_Z bpm ++ " BPM")
  else if test startsWithPlay lowerText || has "play it" then
    wrapInBatch "play" (Json.Obj []) 1 "Starting playback"
  else if test startsWithStop lowerText then
    wrapInBatch "stop" (Json.Obj []) 1 "Stopping playback"
  else if has "note" then
    wrapInBatch "addNote" noteParameters (7 # 10) "Adding a note to the current pattern"
  else
    wrapInBatch "clarificationNeeded" (clarificationParameters text) (1 # 10)
      "Command not recognized".

(** *** The default system prompt *)

Definition nl : string := String "010"%char "".
Definition dq : string := String dquote "".

(** The template literal, one list entry per source line. *)
Definition DEFAULT_SYSTEM_PROMPT : string :=
  String.concat nl
  [ "You are a DAW (Digital Audio Workstation) assistant for Pulse Studio. Convert natural language commands into structured JSON actions.";
    "";
    "IMPORTANT: Always respond with ONLY valid JSON, no markdown, no explanation.";
    "";
    "TIMING REFERENCE (PPQ = 96 ticks per beat):";
    "- 1 bar = 384 ticks, 4 bars = 1536 ticks";
    "- Quarter note = 96 ticks, 8th = 48, 16th = 24";
    "- Beat 1 = 0, Beat 2 = 96, Beat 3 = 192, Beat 4 = 288";
    "";
    "Response format (always use actions array):";
    "{{";
    "  " ++ dq ++ "actions" ++ dq ++ ": [";
    "    {{ " ++ dq ++ "action" ++ dq ++ ": " ++ dq ++ "commandName" ++ dq ++ ", " ++ dq ++ "parameters" ++ dq ++ ": {{ ... }} }}";
    "  ],";
    "  " ++ dq ++ "confidence" ++ dq ++ ": 0.0-1.0,";
    "  " ++ dq ++ "reasoning" ++ dq ++ ": " ++ dq ++ "brief explanation" ++ dq;
    "}}";
    "";
    "Available actions:";
    "- addPattern: Create a new pattern. Parameters: {{{{ name?: string, lengthInSteps?: number }}}}";
    "- addNote: Add a note. Parameters: {{{{ patternId: string, pitch: number, startTick: number, durationTick: number, velocity?: number }}}}";
    "- setBpm: Set tempo. Parameters: {{{{ bpm: number }}}}";
    "- play, stop, pause: Control playback (no parameters)";
    "- addChannel: Add instrument. Parameters: {{{{ name?: string, type: " ++ dq ++ "synth" ++ dq ++ "|" ++ dq ++ "sampler" ++ dq ++ ", preset?: string }}}}";
    "- addClip: Add clip to playlist. Parameters: {{{{ patternId: string, trackIndex: number, startTick: number }}}}";
    "- setTrackEffect: Set mixer effect. Parameters: {{{{ trackId: string, effectKey: string, value: number }}}}";
    "  Valid effectKey: " ++ dq ++ "volume" ++ dq ++ " (0-1), " ++ dq ++ "pan" ++ dq ++ " (-1 to 1), " ++ dq ++ "eqLow" ++ dq ++ ", " ++ dq ++ "eqMid" ++ dq ++ ", " ++ dq ++ "eqHigh" ++ dq ++ " (-12 to 12), " ++ dq ++ "compThreshold" ++ dq ++ " (-60 to 0), " ++ dq ++ "compRatio" ++ dq ++ " (1-20), " ++ dq ++ "reverbWet" ++ dq ++ " (0-1 for reverb)";
    "- addAudioSample: Add sample. Parameters: {{{{ category: string, subcategory: string, trackIndex?: number, startTick?: number }}}}";
    "- clarificationNeeded: When unclear. Parameters: {{{{ message: string, suggestedOptions?: string[] }}}}";
    "";
    "BEAT CREATION: For " ++ dq ++ "make a beat" ++ dq ++ " requests, create full 4-bar patterns with 30-50+ sample placements.";
    "Example tick positions for a 4-bar boom-bap:";
    "- Kicks: 0, 144, 384, 528, 768, 912, 1152, 1296";
    "- Snares: 96, 288, 480, 672, 864, 1056, 1248, 1440  ";
    "- Hi-hats: 0, 48, 96, 144... every 48 ticks for 8th notes";
    "";
    "For unclear commands use action " ++ dq ++ "clarificationNeeded" ++ dq ++ " with a message explaining what you need." ].

(** *** Cleaning and reading the model's answer *)

(** [content.replace(/LIT\n?/g, '')] for a non-empty literal [LIT]: every
    occurrence, scanning left to right, together with one line feed after
    it.  [skip] counts the characters of the current occurrence still to be
    dropped; [eat_nl] says that an occurrence has just ended. *)
Fixpoint remove_fence (fence : string) (skip : nat) (eat_nl : bool) (s : string)
  : string :=
  match s with
  | EmptyString => EmptyString
  | String c t =>
      match skip with
      | S k => remove_fence fence k true t
      | O =>
          if eat_nl && Ascii.eqb c "010"%char then remove_fence fence O false t
          else if String.prefix fence s
               then remove_fence fence (String.length fence - 1) true t
               else String c (remove_fence fence O false t)
      end
  end.

Definition FENCE : string := "```".
Definition FENCE_JSON : string := "```json".

(** [content.replace(/```json\n?/g, '').replace(/```\n?/g, '').trim()] *)
Definition stripCodeFences (content : string) : string :=
  JsString.trim (remove_fence FENCE O false (remove_fence FENCE_JSON O false content)).

(** The answer of the inner [catch (parseError)]. *)
Definition unknownResponse (text content : string) : BackboardResponse :=
  {| action := Json.Str "__batch__";
     parameters :=
       Json.Obj [("actions", Json.Arr
         [ action_object (Json.Str "unknown")
             (Json.Obj [("originalText", Json.Str text);
                        ("reason", Json.Str "Failed to parse AI response");
                        ("rawResponse", Json.Str content)]) ])];
     confidence := Json.Undefined;
     reasoning := Json.Undefined |}.

(** A property of a value already known to be neither [null] nor [undefined]. *)
Definition prop (v : Json.value) (key : string) : Json.value :=
  match Json.get v key with Some x => x | None => Json.Undefined end.

Section ParseResponse.

(** [JSON.parse], [None] standing for its SyntaxError. *)
Variable JSON_parse : string -> option Json.value.

(** The inner [try { ... } catch (parseError) { ... }] of [sendToModel]. *)
Definition parseResponse (text content : string) : BackboardResponse :=
  let content := stripCodeFences content in
  match JSON_parse content with
  | None => unknownResponse text content
  | Some parsed =>
      match Json.get parsed "actions" with
      | None => unknownResponse text content
      | Some actions =>
          if Json.truthy actions && Json.isArray actions then
            {| action := Json.Str "__batch__";
               parameters := Json.Obj [("actions", actions);
                                       ("sampleChoices", prop parsed "sampleChoices")];
               confidence := prop parsed "confidence";
               reasoning := prop parsed "reasoning" |}
          else
            {| action := Json.Str "__batch__";
               parameters :=
                 Json.Obj [("actions", Json.Arr
                   [ action_object
                       (Json.or_else (prop parsed "action") (Json.Str "unknown"))
                       (Json.or_else (prop parsed "parameters") (Json.Obj [])) ])];
               confidence := prop parsed "confidence";
               reasoning := prop parsed "reasoning" |}
      end
  end.

End ParseResponse.

(** *** The world around [sendToModel] *)

(** What a [throw] carries: an [Error] with its message, or another value. *)
Inductive JsThrown : Type :=
| JsError (message : string)
| JsOther.

Record MessageRequest : Type := {
  req_content : string;
  llm_provider : ModelProvider;
  model_name : string;
  stream : bool
}.

Record SdkResponse : Type := {
  status : string;
  content : option string
}.

(** The SDK client.  The first argument is the number of SDK calls made so
    far, so that the same request may fail once and succeed later. *)
Record Sdk : Type := {
  createAssistant : nat -> string -> string -> JsThrown + string;
  createThread : nat -> string -> JsThrown + string;
  addMessage : nat -> string -> MessageRequest -> JsThrown + SdkResponse
}.

Record Env : Type := {
  BACKBOARD_API_KEY : option string;
  sdk : Sdk;
  JSON_parse : string -> option Json.value
}.

(** The module-level [let] variables. *)
Record Cache : Type := {
  client : bool;
  cachedAssistantId : option string;
  cachedThreadId : option string;
  cachedContextHash : option string
}.

Definition emptyCache : Cache :=
  {| client := false; cachedAssistantId := None; cachedThreadId := None;
     cachedContextHash := None |}.

(** What a run leaves behind.  An SDK call is logged with its number, the
    argument at which the client was asked. *)
Inductive Event : Type :=
| EvCreateAssistant (call : nat) (name description : string)
| EvCreateThread (call : nat) (assistantId : string)
| EvAddMessage (call : nat) (threadId : string) (request : MessageRequest)
| EvSleep (ms : Z)
| EvAttempt (attempt : nat)                       (* entry into the loop body *)
| EvAttemptFailed (n : nat) (error : JsThrown).   (* the console.error of the catch *)

Record World : Type := {
  cache : Cache;
  calls : nat;
  trace : list Event
}.

Definition initialWorld : World := {| cache := emptyCache; calls := O; trace := [] |}.

Inductive Result (A : Type) : Type :=
| Ok (a : A)
| Thrown (e : JsThrown).

Arguments Ok {A} a.
Arguments Thrown {A} e.

(** Computations that read and write the world and may throw.  Composed
    with [bind], a call runs from its start to its end with nothing in
    between: this is the run of a call that no other call overlaps.  The
    suspensions at [await], where another call may run, are the matter of
    [BackboardAsync] below. *)
Definition M (A : Type) : Type := World -> Result A * World.

Definition ret (A : Type) (a : A) : M A := fun w => (Ok a, w).

Definition throw (A : Type) (e : JsThrown) : M A := fun w => (Thrown e, w).

Definition bind (A B : Type) (m : M A) (k : A -> M B) : M B :=
  fun w =>
    match m w with
    | (Ok a, w') => k a w'
    | (Thrown e, w') => (Thrown e, w')
    end.

Definition try_catch (A : Type) (m : M A) (handler : JsThrown -> M A) : M A :=
  fun w =>
    match m w with
    | (Ok a, w') => (Ok a, w')
    | (Thrown e, w') => handler e w'
    end.

Arguments ret {A} a.
Arguments throw {A} e.
Arguments bind {A B} m k.
Arguments try_catch {A} m handler.

Definition emit (e : Event) : M unit :=
  fun w => (Ok tt, {| cache := cache w; calls := calls w; trace := trace w ++ [e] |}).

Definition getCache : M Cache := fun w => (Ok (cache w), w).

Definition setCache (c : Cache) : M unit :=
  fun w => (Ok tt, {| cache := c; calls := calls w; trace := trace w |}).

(** One SDK call: it is logged, counted, and answered by the client. *)
Definition sdkCall (A : Type) (e : nat -> Event) (answer : nat -> JsThrown + A) : M A :=
  fun w =>
    let w' := {| cache := cache w; calls := S (calls w);
                 trace := trace w ++ [e (calls w)] |} in
    match answer (calls w) with
    | inl err => (Thrown err, w')
    | inr a => (Ok a, w')
    end.

Arguments sdkCall {A} e answer.

Declare Scope js_scope.
Delimit Scope js_scope with js.
Notation "x <- m ;; k" := (bind m (fun x => k))
  (at level 61, m at next level, right associativity) : js_scope.
Notation "m ;; k" := (bind m (fun _ => k))
  (at level 61, right associativity) : js_scope.

(** [await sleep(ms)] *)
Definition sleep (ms : Z) : M unit := emit (EvSleep ms).

(** Truthiness of [string | null | undefined]. *)
Definition given (s : option string) : bool :=
  match s with
  | Some v => negb (String.eqb v "")
  | None => false
  end.

(** The value of a variable just tested to be truthy. *)
Definition unwrap (s : option string) : string :=
  match s with
  | Some v => v
  | None => ""
  end.

Definition ASSISTANT_NAME : string := "Pulse Studio Music Copilot".

(** [cached === contextHash] *)
Definition same_hash (a : option string) (b : string) : bool :=
  match a with
  | Some v => String.eqb v b
  | None => false
  end.

Section WithEnv.

Variable env : Env.

Local Open Scope js_scope.

Definition getClient : M unit :=
  c <- getCache ;;
  if client c then ret tt
  else if given (BACKBOARD_API_KEY env) then
    setCache {| client := true; cachedAssistantId := cachedAssistantId c;
                cachedThreadId := cachedThreadId c;
                cachedContextHash := cachedContextHash c |}
  else throw (JsError "Backboard API key not configured").

Definition getAssistant (systemPrompt : string) : M string :=
  let contextHash := hashContext systemPrompt in
  c <- getCache ;;
  (if given (cachedAssistantId c) && negb (same_hash (cachedContextHash c) contextHash)
   then setCache {| client := client c; cachedAssistantId := None;
                    cachedThreadId := None;
                    cachedContextHash := cachedContextHash c |}
   else ret tt) ;;
  c <- getCache ;;
  if given (cachedAssistantId c) then ret (unwrap (cachedAssistantId c))
  else
    getClient ;;
    id <- sdkCall (fun n => EvCreateAssistant n ASSISTANT_NAME systemPrompt)
            (fun n => createAssistant (sdk env) n ASSISTANT_NAME systemPrompt) ;;
    c <- getCache ;;
    setCache {| client := client c; cachedAssistantId := Some id;
                cachedThreadId := cachedThreadId c;
                cachedContextHash := Some contextHash |} ;;
    ret id.

Definition getThread (assistantId : string) : M string :=
  c <- getCache ;;
  if given (cachedThreadId c) then ret (unwrap (cachedThreadId c))
  else
    getClient ;;
    id <- sdkCall (fun n => EvCreateThread n assistantId)
            (fun n => createThread (sdk env) n assistantId) ;;
    c <- getCache ;;
    setCache {| client := client c; cachedAssistantId := cachedAssistantId c;
                cachedThreadId := Some id;
                cachedContextHash := cachedContextHash c |} ;;
    ret id.

(** [`${content}`] of a possibly missing string. *)
Definition template (content : option string) : string :=
  match content with
  | Some c => c
  | None => "undefined"
  end.

(** The body of the outer [try]: one request through the SDK. *)
Definition attemptRequest (text effectiveSystemPrompt : string) : M BackboardResponse :=
  assistantId <- getAssistant effectiveSystemPrompt ;;
  threadId <- getThread assistantId ;;
  let taskType := classifyTask text in
  let modelConfig := getModelForTask taskType in
  let llmProvider := provider modelConfig in
  let modelName := modelName modelConfig in
  getClient ;;
  let request := {| req_content := text; llm_provider := llmProvider;
                    model_name := modelName; stream := false |} in
  response <- sdkCall (fun n => EvAddMessage n threadId request)
                (fun n => addMessage (sdk env) n threadId request) ;;
  if String.eqb (status response) "FAILED" then
    throw (JsError ("Backboard response failed: " ++ template (content response)))
  else
    ret (parseResponse (JSON_parse env) text (unwrap (content response))).

Definition INVALID_KEY : string := "Invalid Backboard API key".
Definition RATE_LIMIT : string := "Rate limit exceeded. Please try again later.".

(** The outer [catch (error)]. *)
Definition onAttemptError (attempt : nat) (error : JsThrown) : M unit :=
  emit (EvAttemptFailed (attempt + 1) error) ;;
  match error with
  | JsError message =>
      if JsString.includes "401" message || JsString.includes "403" message
      then throw (JsError INVALID_KEY)
      else if JsString.includes "429" message
      then throw (JsError RATE_LIMIT)
      else ret tt
  | JsOther => ret tt
  end ;;
  if (attempt <? MAX_RETRIES)%nat
  then sleep (RETRY_DELAY_MS * (Z.of_nat attempt + 1))
  else ret tt.

(** [for (let attempt = 0; attempt <= MAX_RETRIES; attempt++)], with
    [remaining = MAX_RETRIES + 1 - attempt] rounds still to go, followed by
    the fall-back to the mock once the loop is left. *)
Fixpoint retryLoop (text model effectiveSystemPrompt : string)
    (remaining attempt : nat) : M BackboardResponse :=
  match remaining with
  | O => ret (mockBackboardResponse text model (Some effectiveSystemPrompt))
  | S remaining' =>
      emit (EvAttempt attempt) ;;
      returned <- try_catch
                    (response <- attemptRequest text effectiveSystemPrompt ;;
                     ret (Some response))
                    (fun error => onAttemptError attempt error ;; ret None) ;;
      match returned with
      | Some response => ret response
      | None => retryLoop text model effectiveSystemPrompt remaining' (S attempt)
      end
  end.

(** [systemPrompt || DEFAULT_SYSTEM_PROMPT] *)
Definition effectiveSystemPrompt (systemPrompt : option string) : string :=
  if given systemPrompt then unwrap systemPrompt else DEFAULT_SYSTEM_PROMPT.

(** [model] is ['gemini'] or ['fallback']; the conversation history is not read. *)
Definition sendToModel (text model : string)
    (_conversationHistory : option (list (string * string)))
    (systemPrompt : option string) : M BackboardResponse :=
  let effective := effectiveSystemPrompt systemPrompt in
  if USE_MOCK then
    sleep 300 ;;
    ret (mockBackboardResponse text model (Some effective))
  else if negb (given (BACKBOARD_API_KEY env)) then
    throw (JsError "Backboard API key not configured")
  else
    retryLoop text model effective (S MAX_RETRIES) O.

End WithEnv.

End Backboard.

(* ===================================================================== *)
(** ** lib/ai/backboard.ts, mock-only revision *)
(* ===================================================================== *)

Module BackboardLegacy.

Import Regex.
Import Backboard.
Local Open Scope string_scope.

(** Here a response names its single action directly. *)
Definition mockBackboardResponse (text model : string) : BackboardResponse :=
  let lowerText := JsString.toLowerCase text in
  if JsString.includes "pattern" lowerText
     && (JsString.includes "add" lowerText || JsString.includes "create" lowerText)
  then
    let found :=
      find (fun inst => JsString.includes inst lowerText)
           ["kick"; "snare"; "hihat"; "clap"; "tom"; "cymbal"] in
    {| action := Json.Str "addPattern";
       parameters :=
         Json.Obj [("name", Json.Str
                      match found with
                      | Some f =>
                          (JsString.toUpperCase (JsString.charAt0 f) ++ JsString.slice1 f)
                          ++ " Pattern"
                      | None => "New Pattern"
                      end);
                   ("lengthInSteps", Json.int 16)];
       confidence := Json.Num (9 # 10);
       reasoning := Json.Str ("Creating a new pattern"
                              ++ match found with
                                 | Some f => " for " ++ f
                                 | None => ""
                                 end) |}
  else if JsString.includes "bpm" lowerText || JsString.includes "tempo" lowerText then
    let bpm :=
      match JsString.match_digits text with
      | Some d => JsString.parseInt d
      | None => 120%Z
      end in
    {| action := Json.Str "setBpm";
       parameters := Json.Obj [("bpm", Json.int bpm)];
       confidence := Json.Num (95 # 100);
       reasoning := Json.Str ("Setting tempo to " ++ JsString.string_of_Z bpm ++ " BPM") |}
  else if test (re_from_start (oneof ["play"; "start"])) lowerText
          || JsString.includes "play it" lowerText then
    {| action := Json.Str "play";
       parameters := Json.Obj [];
       confidence := Json.Num 1;
       reasoning := Json.Str "Starting playback" |}
  else if test (re_from_start (lit "stop")) lowerText then
    {| action := Json.Str "stop";
       parameters := Json.Obj [];
       confidence := Json.Num 1;
       reasoning := Json.Str "Stopping playback" |}
  else if JsString.includes "note" lowerText then
    {| action := Json.Str "addNote";
       parameters :=
         Json.Obj [("patternId", Json.Str "current"); ("pitch", Json.int 60);
                   ("startTick", Json.int 0); ("durationTick", Json.int 96);
                   ("velocity", Json.int 100)];
       confidence := Json.Num (7 # 10);
       reasoning := Json.Str "Adding a note to the current pattern" |}
  else
    {| action := Json.Str "clarificationNeeded";
       parameters :=
         Json.Obj
           [("message", Json.Str
               ("I understand you want to " ++ quoted text
                ++ ", but I'm not sure how to help with that. Try commands like "
                ++ quoted "add a kick pattern" ++ ", " ++ quoted "set BPM to 128"
                ++ ", or " ++ quoted "play" ++ "."));
            ("suggestedOptions",
             Json.Arr [Json.Str "Add a pattern"; Json.Str "Set BPM";
                       Json.Str "Play/Stop"; Json.Str "Add a note"])];
       confidence := Json.Num (1 # 10);
       reasoning := Json.Str "Command not recognized" |}.

(** *** The request path of this revision *)

Definition MAX_RETRIES : nat := 2.
Definition RETRY_DELAY_MS : Z := 1000.
Definition USE_MOCK : bool := true.

Local Open Scope js_scope.

(** This revision has no context hash: that field of the cache stays as it is. *)
Definition getAssistant : M string :=
  c <- getCache ;;
  if given (cachedAssistantId c) then ret (unwrap (cachedAssistantId c))
  else
    setCache {| client := client c; cachedAssistantId := Some "mock-assistant-id";
                cachedThreadId := cachedThreadId c;
                cachedContextHash := cachedContextHash c |} ;;
    ret "mock-assistant-id".

Definition getThread (assistantId : string) : M string :=
  c <- getCache ;;
  if given (cachedThreadId c) then ret (unwrap (cachedThreadId c))
  else
    setCache {| client := client c; cachedAssistantId := cachedAssistantId c;
                cachedThreadId := Some "mock-thread-id";
                cachedContextHash := cachedContextHash c |} ;;
    ret "mock-thread-id".

(** The [catch (error)] of the loop, word for word that of the later revision. *)
Definition onAttemptError (attempt : nat) (error : JsThrown) : M unit :=
  emit (EvAttemptFailed (attempt + 1) error) ;;
  match error with
  | JsError message =>
      if JsString.includes "401" message || JsString.includes "403" message
      then throw (JsError "Invalid Backboard API key")
      else if JsString.includes "429" message
      then throw (JsError "Rate limit exceeded. Please try again later.")
      else ret tt
  | JsOther => ret tt
  end ;;
  if (attempt <? MAX_RETRIES)%nat
  then sleep (RETRY_DELAY_MS * (Z.of_nat attempt + 1))
  else ret tt.

(** [lastError?.message] in the final template literal. *)
Definition lastMessage (lastError : option JsThrown) : string :=
  match lastError with
  | Some (JsError message) => message
  | _ => "undefined"
  end.

(** The loop and the [throw] that follows it; [lastError] is the error of
    the latest failed round. *)
Fixpoint retryLoop (text model : string) (lastError : option JsThrown)
    (remaining attempt : nat) : M BackboardResponse :=
  match remaining with
  | O =>
      throw (JsError ("Failed to connect to Backboard after "
                      ++ JsString.string_of_Z (Z.of_nat (MAX_RETRIES + 1))
                      ++ " attempts: " ++ lastMessage lastError))
  | S remaining' =>
      emit (EvAttempt attempt) ;;
      returned <- try_catch
                    (assistantId <- getAssistant ;;
                     threadId <- getThread assistantId ;;
                     ret (inr (mockBackboardResponse text model)))
                    (fun error => onAttemptError attempt error ;; ret (inl error)) ;;
      match returned with
      | inr response => ret response
      | inl error => retryLoop text model (Some error) remaining' (S attempt)
      end
  end.

Definition sendToModel (BACKBOARD_API_KEY : option string) (text model : string)
    (conversationHistory : option (list (string * string)))
  : M BackboardResponse :=
  if USE_MOCK then
    sleep 300 ;;
    ret (mockBackboardResponse text model)
  else if negb (given BACKBOARD_API_KEY) then
    throw (JsError "Backboard API key not configured")
  else
    retryLoop text model None (S MAX_RETRIES) O.

End BackboardLegacy.

(* ===================================================================== *)
(** ** components/panels/ChatPanel.tsx: handleSend *)
(* ===================================================================== *)

Module ChatPanel.

Import Backboard.
Local Open Scope string_scope.

Inductive Sender : Type := user | agent.
Inductive MessageStatus : Type := sending | sent | error.

(** What a [catch] receives: an [Error] (possibly a [TypeError]) or another value. *)
Inductive Thrown : Type :=
| ErrorObj (isTypeError : bool) (message : string)
| OtherValue.

(** The fields of the batch executor's result that [handleSend] reads. *)
Record BatchResult : Type := {
  success : bool;
  message : string;
  undoGroupId : option string;
  successCount : nat
}.

(** The fields of a single command's result that [handleSend] reads;
    [commandId] stands for [result.data?.commandId]. *)
Record CommandResult : Type := {
  cmd_success : bool;
  cmd_message : string;
  commandId : option string
}.

Record BackboardBatchResponse : Type := {
  actions : Json.value;
  sampleChoices : Json.value;
  batch_confidence : Json.value;
  batch_reasoning : Json.value
}.

(** [apiResponse.data] *)
Record ApiData : Type := {
  commandResult : option BackboardResponse;
  data_message : option string
}.

Record ApiResponse : Type := {
  api_success : bool;
  api_error : option string;
  data : option ApiData
}.

(** The last [n] elements: [messages.slice(-n)]. *)
Definition lastn (A : Type) (n : nat) (l : list A) : list A :=
  skipn (List.length l - n) l.

Section HandleSend.

(** Types declared in modules outside the sources at hand. *)
Variables Project SampleLibrary DAWContext Command ChatMessage : Type.

(** [lib/ai/contextBuilder.ts] *)
Variable buildDAWContext : Project -> SampleLibrary -> DAWContext.
Variable generateSystemPrompt : DAWContext -> string.

(** The body of the POST to [/api/chat]. *)
Record ChatRequest : Type := {
  req_text : string;
  req_model : string;
  conversationHistory : list ChatMessage;
  systemPrompt : string
}.

(** The [Response] of [fetch]; [json] is what [response.json()] settles to. *)
Record HttpResponse : Type := {
  ok : bool;
  http_status : Z;
  json : Thrown + ApiResponse
}.

(** The asynchronous collaborators, each with the outcome of its call. *)
Record Externals : Type := {
  loadSampleLibrary : Thrown + SampleLibrary;
  fetch : ChatRequest -> Thrown + HttpResponse;
  executeBatch : BackboardBatchResponse -> SampleLibrary -> Thrown + BatchResult;
  parseAIResponse : BackboardResponse -> Thrown + Command;
  executeCommand : Command -> Thrown + CommandResult
}.

(** What the component holds when the callback runs. *)
Record PanelState : Type := {
  inputText : string;
  messages : list ChatMessage;
  isPending : bool;
  selectedModel : string
}.

(** The calls [handleSend] makes on the chat store, the component state,
    the network and the page. *)
Inductive Effect : Type :=
| SetInputText (s : string)
| SetTextareaRows (n : nat)
| AddMessage (from : Sender) (text : string) (status : MessageStatus)
| SetPending (b : bool)
| SetLastCommand (id : string)
| PostChat (request : ChatRequest)
| ShowErrorToast (message : string).

(** Effects performed so far, and the exception that cut them short, if any. *)
Definition Run : Type := (list Effect * option Thrown)%type.

Definition done (effects : list Effect) : Run := (effects, None).
Definition raised (effects : list Effect) (e : Thrown) : Run := (effects, Some e).

Definition after (effects : list Effect) (r : Run) : Run :=
  (effects ++ fst r, snd r)%list.

(** [try { body } catch (e) { handler(e) }] *)
Definition catching (body : Run) (handler : Thrown -> list Effect) : list Effect :=
  match snd body with
  | None => fst body
  | Some e => (fst body ++ handler e)%list
  end.

(** [a || b] on strings that may be missing. *)
Definition or_default (a : option string) (b : string) : string :=
  if given a then unwrap a else b.

Definition isBatch (r : BackboardResponse) : bool :=
  match action r with
  | Json.Str a =>
      String.eqb a "__batch__"
      && match Json.get (parameters r) "actions" with
         | Some v => Json.truthy v
         | None => false
         end
  | _ => false
  end.

(** The [batchData] object built from a batch response. *)
Definition batchDataOf (backboardResponse : BackboardResponse) : BackboardBatchResponse :=
  {| actions := prop (parameters backboardResponse) "actions";
     sampleChoices := prop (parameters backboardResponse) "sampleChoices";
     batch_confidence := confidence backboardResponse;
     batch_reasoning := reasoning backboardResponse |}.

(** The object given to [JSON.stringify] for the request body. *)
Definition requestBody (st : PanelState) (userMessage systemPrompt : string)
  : ChatRequest :=
  {| req_text := userMessage;
     req_model := selectedModel st;
     conversationHistory := lastn 5 (messages st);
     systemPrompt := systemPrompt |}.

Variable ext : Externals.

(** The inner [try] block: run what the model asked for. *)
Definition runCommandResult (sampleLibrary : SampleLibrary)
    (backboardResponse : BackboardResponse) : Run :=
  if isBatch backboardResponse then
    let batchData := batchDataOf backboardResponse in
    match executeBatch ext batchData sampleLibrary with
    | inl e => raised [] e
    | inr batchResult =>
        if success batchResult then
          done (AddMessage agent (message batchResult) sent
                :: if given (undoGroupId batchResult)
                   then [SetLastCommand (unwrap (undoGroupId batchResult))]
                   else [])
        else
          done [AddMessage agent (message batchResult)
                  (if (0 <? successCount batchResult)%nat then sent else error)]
    end
  else
    match parseAIResponse ext backboardResponse with
    | inl e => raised [] e
    | inr command =>
        match executeCommand ext command with
        | inl e => raised [] e
        | inr result =>
            if cmd_success result then
              done (AddMessage agent (cmd_message result) sent
                    :: if given (commandId result)
                       then [SetLastCommand (unwrap (commandId result))]
                       else [])
            else
              done [AddMessage agent ("Error: " ++ cmd_message result) error]
        end
    end.

(** The inner [catch (parseError)]. *)
Definition onCommandError (parseError : Thrown) : list Effect :=
  [AddMessage agent
     ("Failed to execute command: "
      ++ match parseError with
         | ErrorObj _ m => m
         | OtherValue => "Unknown error"
         end)
     error].

(** The outer [try] block, from the context build to the last message. *)
Definition requestAndRun (st : PanelState) (project : Project) (userMessage : string)
  : Run :=
  match loadSampleLibrary ext with
  | inl e => raised [] e
  | inr sampleLibrary =>
      let dawContext := buildDAWContext project sampleLibrary in
      let systemPrompt := generateSystemPrompt dawContext in
      let request := requestBody st userMessage systemPrompt in
      after [PostChat request]
        match fetch ext request with
        | inl e => raised [] e
        | inr response =>
            if negb (ok response) then
              let errorData_error :=
                match json response with
                | inr body => api_error body
                | inl _ => None
                end in
              raised [] (ErrorObj false
                           (or_default errorData_error
                              ("API error: " ++ JsString.string_of_Z (http_status response))))
            else
              match json response with
              | inl e => raised [] e
              | inr apiResponse =>
                  if negb (api_success apiResponse) then
                    raised [] (ErrorObj false
                                 (or_default (api_error apiResponse) "Unknown API error"))
                  else
                    match option_map commandResult (data apiResponse) with
                    | Some (Some backboardResponse) =>
                        done (catching (runCommandResult sampleLibrary backboardResponse)
                                       onCommandError)
                    | _ =>
                        let msg :=
                          match data apiResponse with
                          | Some d => data_message d
                          | None => None
                          end in
                        if given msg then done [AddMessage agent (unwrap msg) sent]
                        else done [AddMessage agent
                                     "Received response but no actionable command." sent]
                    end
              end
        end
  end.

(** The outer [catch (error)]. *)
Definition onRequestError (e : Thrown) : list Effect :=
  let errorMessage :=
    match e with
    | ErrorObj _ m => m
    | OtherValue => "Network error occurred"
    end in
  [ AddMessage agent ("Failed to process your request: " ++ errorMessage) error;
    match e with
    | ErrorObj true m =>
        if JsString.includes "fetch" m
        then ShowErrorToast "Network error - please check your connection"
        else ShowErrorToast errorMessage
    | _ => ShowErrorToast errorMessage
    end ].

(** [project] is [useStore.getState().project] as read when the callback runs. *)
Definition handleSend (st : PanelState) (project : Project) : list Effect :=
  if String.eqb (JsString.trim (inputText st)) "" || isPending st then []
  else
    let userMessage := JsString.trim (inputText st) in
    ([ SetInputText ""; SetTextareaRows 1;
       AddMessage user userMessage sent;
       SetPending true ]
     ++ catching (requestAndRun st project userMessage) onRequestError
     ++ [ SetPending false ])%list.

(** *** Vocabulary for statements about [handleSend] *)

(** The request went out and the API delivered the command result
    [backboardResponse], with [sampleLibrary] loaded on the way. *)
Definition delivered (st : PanelState) (project : Project)
    (sampleLibrary : SampleLibrary) (backboardResponse : BackboardResponse) : Prop :=
  String.eqb (JsString.trim (inputText st)) "" = false /\
  isPending st = false /\
  loadSampleLibrary ext = inr sampleLibrary /\
  exists response apiResponse d,
    fetch ext (requestBody st (JsString.trim (inputText st))
                 (generateSystemPrompt (buildDAWContext project sampleLibrary)))
      = inr response /\
    ok response = true /\
    json response = inr apiResponse /\
    api_success apiResponse = true /\
    data apiResponse = Some d /\
    commandResult d = Some backboardResponse.

(** What [handleSend] does before the command result is looked at. *)
Definition preamble (st : PanelState) (project : Project)
    (sampleLibrary : SampleLibrary) : list Effect :=
  [ SetInputText ""; SetTextareaRows 1;
    AddMessage user (JsString.trim (inputText st)) sent;
    SetPending true;
    PostChat (requestBody st (JsString.trim (inputText st))
                (generateSystemPrompt (buildDAWContext project sampleLibrary))) ].

End HandleSend.

Arguments SetInputText {ChatMessage} s.
Arguments SetTextareaRows {ChatMessage} n.
Arguments AddMessage {ChatMessage} from text status.
Arguments SetPending {ChatMessage} b.
Arguments SetLastCommand {ChatMessage} id.
Arguments ShowErrorToast {ChatMessage} message.
Arguments onCommandError {ChatMessage} parseError.
Arguments onRequestError {ChatMessage} e.

End ChatPanel.

(* ===================================================================== *)
(** ** Resolution of symbolic references (lib/ai/batchExecutor.ts) *)
(* ===================================================================== *)

Module BatchExecutor.

Local Open Scope string_scope.

(** Modelled from the spec: the identifiers of the entities of the project a
    command may point at, oldest first.  The project store is not among the
    sources at hand. *)
Record ProjectIds : Type := {
  patternIds : list string;
  clipIds : list string
}.

(** Modelled from the spec: the kinds of entity a parameter can reference. *)
Inductive EntityKind : Type := pattern | clip.

(** Modelled from the spec: which parameter names which kind of entity
    ([patternId] in [addNote], [clipId] in [resizeClip]). *)
Definition referenceKind (key : string) : option EntityKind :=
  if String.eqb key "patternId" then Some pattern
  else if String.eqb key "clipId" then Some clip
  else None.

(** Modelled from the spec: the entities of a kind, oldest first. *)
Definition idsOf (p : ProjectIds) (kind : EntityKind) : list string :=
  match kind with
  | pattern => patternIds p
  | clip => clipIds p
  end.

(** Modelled from the spec: the most recent entity of a kind, if there is one. *)
Definition mostRecent (p : ProjectIds) (kind : EntityKind) : option string :=
  last (map Some (idsOf p kind)) None.

(** Modelled from the spec: the batch executor, missing from the sources,
    replaces the symbolic id ['current'] by the id of the most recent entity
    of the referenced kind.  Where the project has no entity of that kind the
    spec names nothing to resolve to: the reference does not resolve
    ([None]). *)
Definition resolveValue (p : ProjectIds) (kind : EntityKind) (v : Json.value)
  : option Json.value :=
  match v with
  | Json.Str id =>
      if String.eqb id "current" then option_map Json.Str (mostRecent p kind)
      else Some v
  | _ => Some v
  end.

(** Modelled from the spec: resolution of every parameter of one command
    (the missing executor's pass over [parameters]), keys and order kept;
    it fails when a reference does not resolve. *)
Fixpoint resolveParameters (p : ProjectIds) (fields : list (string * Json.value))
  : option (list (string * Json.value)) :=
  match fields with
  | [] => Some []
  | (key, v) :: rest =>
      match
        match referenceKind key with
        | Some kind => resolveValue p kind v
        | None => Some v
        end,
        resolveParameters p rest
      with
      | Some v', Some rest' => Some ((key, v') :: rest')
      | _, _ => None
      end
  end.

(** Modelled from the spec: a mutation as it reaches the DAW controller,
    missing from the sources: the command name and its final parameters. *)
Record Mutation : Type := {
  command : Json.value;
  arguments : list (string * Json.value)
}.

(** Modelled from the spec: what the missing executor hands to the DAW for
    one entry of [actions]; an entry without a parameter object passes
    through with no parameters, and an entry with a reference that does not
    resolve gives no mutation. *)
Definition mutationOf (p : ProjectIds) (entry : Json.value) : option Mutation :=
  match Backboard.prop entry "parameters" with
  | Json.Obj fields =>
      option_map (fun resolved => {| command := Backboard.prop entry "action";
                                     arguments := resolved |})
                 (resolveParameters p fields)
  | _ => Some {| command := Backboard.prop entry "action"; arguments := [] |}
  end.

(** Modelled from the spec: the mutations of a batch, in order (sequential
    execution of the missing executor, against one project snapshot). *)
Definition mutationsOf (p : ProjectIds) (r : Backboard.BackboardResponse)
  : list (option Mutation) :=
  match Backboard.prop (Backboard.parameters r) "actions" with
  | Json.Arr entries => map (mutationOf p) entries
  | _ => []
  end.


End BatchExecutor.

(* ===================================================================== *)
(** ** Vocabulary for statements about runs of [sendToModel] *)
(* ===================================================================== *)

Module Runs.

Import Backboard.
Local Open Scope string_scope.

(** The world after one more logged event. *)
Definition log (e : Event) (w : World) : World :=
  {| cache := cache w; calls := calls w; trace := (trace w ++ [e])%list |}.

(** The errors after which the outer [catch] throws instead of retrying,
    with the message it throws. *)
Definition fatal (error : JsThrown) : option string :=
  match error with
  | JsError message =>
      if JsString.includes "401" message || JsString.includes "403" message
      then Some INVALID_KEY
      else if JsString.includes "429" message then Some RATE_LIMIT
      else None
  | JsOther => None
  end.

Definition is_sdk_event (e : Event) : bool :=
  match e with
  | EvCreateAssistant _ _ _ | EvCreateThread _ _ | EvAddMessage _ _ _ => true
  | _ => false
  end.

Definition is_add_message (e : Event) : bool :=
  match e with
  | EvAddMessage _ _ _ => true
  | _ => false
  end.

(** Attempts and pauses, in order. *)
Definition is_schedule_event (e : Event) : bool :=
  match e with
  | EvAttempt _ | EvSleep _ => true
  | _ => false
  end.

Definition schedule (l : list Event) : list Event := filter is_schedule_event l.


(** The shape of the loop events of a run that starts round [attempt] with
    [remaining] rounds to go, together with its result. *)
Inductive Rounds : nat -> nat -> Result BackboardResponse -> list Event -> Prop :=
| RoundsExhausted attempt response :
    Rounds attempt O (Ok response) []
| RoundsReturned attempt remaining response :
    Rounds attempt (S remaining) (Ok response) [EvAttempt attempt]
| RoundsFatal attempt remaining error message :
    fatal error = Some message ->
    Rounds attempt (S remaining) (Thrown (JsError message))
           [EvAttempt attempt; EvAttemptFailed (attempt + 1) error]
| RoundsRetry attempt remaining error result rest :
    fatal error = None ->
    (attempt < MAX_RETRIES)%nat ->
    Rounds (S attempt) remaining result rest ->
    Rounds attempt (S remaining) result
           (EvAttempt attempt :: EvAttemptFailed (attempt + 1) error
            :: EvSleep (RETRY_DELAY_MS * (Z.of_nat attempt + 1)) :: rest)
| RoundsLast attempt remaining error result rest :
    fatal error = None ->
    ~ (attempt < MAX_RETRIES)%nat ->
    Rounds (S attempt) remaining result rest ->
    Rounds attempt (S remaining) result
           (EvAttempt attempt :: EvAttemptFailed (attempt + 1) error :: rest).

(** A computation that only appends events of one sort to the trace. *)
Definition emits (E : Event -> Prop) (A : Type) (m : M A) : Prop :=
  forall w, exists l, trace (snd (m w)) = (trace w ++ l)%list /\ Forall E l.

(** A cached thread id is never without a cached assistant id; cached, as
    the code tests it ([if (cachedThreadId)]): a string that is not empty. *)
Definition cache_consistent (c : Cache) : Prop :=
  given (cachedThreadId c) = true -> given (cachedAssistantId c) = true.

(** A cached thread id sits beside a cached assistant id whose recorded
    hash is that of [systemPrompt]. *)
Definition paired_with (systemPrompt : string) (c : Cache) : Prop :=
  given (cachedThreadId c) = true ->
  given (cachedAssistantId c) = true /\
  cachedContextHash c = Some (hashContext systemPrompt).

(** An assistant is cached, under the hash of [systemPrompt]. *)
Definition recorded_under (systemPrompt : string) (c : Cache) : Prop :=
  given (cachedAssistantId c) = true /\
  cachedContextHash c = Some (hashContext systemPrompt).

(** The service never answers the creation of an assistant with an empty id. *)
Definition nonempty_ids (service : Sdk) : Prop :=
  forall n name description, createAssistant service n name description <> inr "".

End Runs.

(* ===================================================================== *)
(** ** Concrete surroundings for examples *)
(* ===================================================================== *)

Module Scenarios.

Import Backboard.
Local Open Scope string_scope.

(** A reader that knows two documents, enough to tell parsing from failing. *)
Definition toyParse (s : string) : option Json.value :=
  if String.eqb s "{}" then Some (Json.Obj [])
  else if String.eqb s "null" then Some Json.Null
  else None.

Definition proseAnswer : SdkResponse :=
  {| status := "COMPLETED"; content := Some "Sure! I have added a kick drum for you." |}.

(** A client whose calls all succeed and whose model answers in prose. *)
Definition chattySdk : Sdk :=
  {| createAssistant := fun _ _ _ => inr "asst_1";
     createThread := fun _ _ => inr "thread_1";
     addMessage := fun _ _ _ => inr proseAnswer |}.


Definition fencedProse : string :=
  "```json" ++ nl ++ "I cannot do that" ++ nl ++ "```".

(** A client whose model wraps prose in a code fence. *)
Definition fencedSdk : Sdk :=
  {| createAssistant := fun _ _ _ => inr "asst_1";
     createThread := fun _ _ => inr "thread_1";
     addMessage := fun _ _ _ =>
       inr {| status := "COMPLETED"; content := Some fencedProse |} |}.

(** A client whose answers arrive marked FAILED. *)
Definition refusingSdk : Sdk :=
  {| createAssistant := fun _ _ _ => inr "asst_1";
     createThread := fun _ _ => inr "thread_1";
     addMessage := fun _ _ _ =>
       inr {| status := "FAILED"; content := Some "quota exhausted (429)" |} |}.

(** A client whose message endpoint is down. *)
Definition downSdk : Sdk :=
  {| createAssistant := fun _ _ _ => inr "asst_1";
     createThread := fun _ _ => inr "thread_1";
     addMessage := fun _ _ _ => inl (JsError "503 Service Unavailable") |}.

(** A service that answers the creation of an assistant with an empty id. *)
Definition blankIdSdk : Sdk :=
  {| createAssistant := fun _ _ _ => inr "";
     createThread := fun _ _ => inr "thread_1";
     addMessage := fun _ _ _ => inr proseAnswer |}.

Definition envWith (client : Sdk) : Env :=
  {| BACKBOARD_API_KEY := Some "bb-key"; sdk := client; JSON_parse := toyParse |}.

(** A cache left by an earlier request made under another prompt. *)
Definition staleWorld : World :=
  {| cache := {| client := true;
                 cachedAssistantId := Some "asst_0";
                 cachedThreadId := Some "thread_0";
                 cachedContextHash := Some (hashContext "an earlier prompt") |};
     calls := 2;
     trace := [] |}.

(** A panel whose collaborators all succeed: the API delivers the mock's
    answer to the text sent, the batch executor reports [batchOutcome], and a
    single command reports [commandOutcome]. *)
Definition panelExternals (batchOutcome : ChatPanel.BatchResult)
    (commandOutcome : ChatPanel.CommandResult)
  : ChatPanel.Externals unit unit unit :=
  {| ChatPanel.loadSampleLibrary := inr tt;
     ChatPanel.fetch := fun request =>
       inr {| ChatPanel.ok := true;
              ChatPanel.http_status := 200;
              ChatPanel.json :=
                inr {| ChatPanel.api_success := true;
                       ChatPanel.api_error := None;
                       ChatPanel.data :=
                         Some {| ChatPanel.commandResult :=
                                   Some (mockBackboardResponse
                                           (ChatPanel.req_text request)
                                           (ChatPanel.req_model request)
                                           (Some (ChatPanel.systemPrompt request)));
                                 ChatPanel.data_message := None |} |} |};
     ChatPanel.executeBatch := fun _ _ => inr batchOutcome;
     ChatPanel.parseAIResponse := fun _ => inr tt;
     ChatPanel.executeCommand := fun _ => inr commandOutcome |}.

Definition partialBatch : ChatPanel.BatchResult :=
  {| ChatPanel.success := false;
     ChatPanel.message := "2 of 3 actions applied";
     ChatPanel.undoGroupId := Some "ai_batch_7";
     ChatPanel.successCount := 2 |}.

Definition fullBatch : ChatPanel.BatchResult :=
  {| ChatPanel.success := true;
     ChatPanel.message := "3 actions applied";
     ChatPanel.undoGroupId := Some "ai_batch_8";
     ChatPanel.successCount := 3 |}.

Definition playResult : ChatPanel.CommandResult :=
  {| ChatPanel.cmd_success := true;
     ChatPanel.cmd_message := "Playing";
     ChatPanel.commandId := None |}.

Definition typing (text : string) : ChatPanel.PanelState unit :=
  {| ChatPanel.inputText := text;
     ChatPanel.messages := [];
     ChatPanel.isPending := false;
     ChatPanel.selectedModel := "gemini" |}.

(** A stand-in for the context builder: the prompt names the project. *)
Definition promptFor (project : string) : string := "Project: " ++ project.

End Scenarios.

(* ===================================================================== *)
(** ** lib/ai/backboard.ts, SDK revision: the remaining entry points *)
(* ===================================================================== *)

Module BackboardApi.

Import Backboard.
Local Open Scope string_scope.
Local Open Scope js_scope.

Section WithEnv.

Variable env : Env.

(** [initializeBackboard]: the key is demanded, then the client is built
    unless there is one. *)
Definition initializeBackboard : M unit :=
  if negb (given (BACKBOARD_API_KEY env)) then
    throw (JsError "BACKBOARD_API_KEY environment variable is not set")
  else
    c <- getCache ;;
    if negb (client c) then
      setCache {| client := true; cachedAssistantId := cachedAssistantId c;
                  cachedThreadId := cachedThreadId c;
                  cachedContextHash := cachedContextHash c |}
    else ret tt.

(** [testConnection]: [await sendToModel('test', 'fallback'); return true]. *)
Definition testConnection : M bool :=
  sendToModel env "test" "fallback" None None ;;
  ret true.

End WithEnv.

End BackboardApi.

(* ===================================================================== *)
(** ** components/panels/ChatPanel.tsx: the small handlers *)
(* ===================================================================== *)

Module ChatPanelView.

Import ChatPanel.
Local Open Scope string_scope.
Local Open Scope Z_scope.

(** [formatRelativeTime(timestamp)], with [now] for [Date.now()]; both are
    whole milliseconds, and [Math.floor] of a quotient is [Z.div]. *)
Definition formatRelativeTime (now timestamp : Z) : string :=
  let diff := now - timestamp in
  let seconds := diff / 1000 in
  let minutes := seconds / 60 in
  let hours := minutes / 60 in
  let days := hours / 24 in
  if seconds <? 60 then "just now"
  else if minutes <? 60 then (JsString.string_of_Z minutes ++ "m ago")%string
  else if hours <? 24 then (JsString.string_of_Z hours ++ "h ago")%string
  else (JsString.string_of_Z days ++ "d ago")%string.

(** [handleTextareaChange]: the text is stored and the textarea gets one
    row per line, five at most. *)
Definition handleTextareaChange (ChatMessage : Type) (value : string)
  : list (Effect ChatMessage) :=
  let lineCount := List.length (JsString.split_on "010"%char value) in
  let newRows := Nat.min lineCount 5 in
  [SetInputText value; SetTextareaRows newRows].

End ChatPanelView.

(* ===================================================================== *)
(** ** Vocabulary for further statements *)
(* ===================================================================== *)

Module Measures.

Import Regex Backboard ChatPanel.
Local Open Scope string_scope.

(** The polynomial hash in base 31, unwrapped. *)
Fixpoint poly31 (acc : Z) (s : string) : Z :=
  match s with
  | EmptyString => acc
  | String c t => poly31 (31 * acc + Z.of_N (JsString.code c))%Z t
  end.

(** How often a character occurs. *)
Fixpoint occurrences (c : ascii) (s : string) : nat :=
  match s with
  | EmptyString => O
  | String a t => (if Ascii.eqb a c then 1 else 0) + occurrences c t
  end.

(** No character of the string is a backtick. *)
Fixpoint no_backtick (s : string) : bool :=
  match s with
  | EmptyString => true
  | String c t => negb (Ascii.eqb c "`"%char) && no_backtick t
  end.

(** The analytical patterns that are one plain word. *)
Definition analyticalKeywords : list string :=
  ["explain"; "analyze"; "analyse"; "feedback"; "review"; "critique"; "improve";
   "better"; "theory"; "teach"; "learn"; "understand"; "compare"].

(** The technical patterns that demand a number:
    [bpm\s+(to|=)\s*\d+], [tempo\s+(to|=)\s*\d+], [\d+\s*bpm],
    [by\s+\d+\s*(bpm)?], [\d+\s*bars?\s*(longer|shorter)] and
    [(longer|shorter)\s*by\s*\d+], by their places in the list. *)
Definition numericTechnicalPatterns : list pattern :=
  map (fun i => nth i technicalPatterns (re Void)) [1; 2; 3; 6; 25; 26]%nat.

(** The request [sendToModel] builds for a text: the provider and the model
    are those of the task the text is classified as. *)
Definition routedRequest (text : string) : MessageRequest :=
  {| req_content := text;
     llm_provider := provider (getModelForTask (classifyTask text));
     model_name := modelName (getModelForTask (classifyTask text));
     stream := false |}.

(** A response is a batch whose [actions] is an array. *)
Definition batch_of_array (r : BackboardResponse) : Prop :=
  action r = Json.Str "__batch__" /\
  exists items, Json.get (parameters r) "actions" = Some (Json.Arr items).

(** The cache holds an assistant recorded under the hash of [prompt], and a
    thread. *)
Definition warm_for (prompt : string) (c : Cache) : Prop :=
  given (cachedAssistantId c) = true /\
  cachedContextHash c = Some (hashContext prompt) /\
  given (cachedThreadId c) = true.

(** Every error the client throws is one after which the loop goes on, and
    no message gets through. *)
Definition out_of_service (client : Sdk) : Prop :=
  (forall n name description e,
     createAssistant client n name description = inl e -> Runs.fatal e = None) /\
  (forall n assistantId e,
     createThread client n assistantId = inl e -> Runs.fatal e = None) /\
  (forall n threadId request,
     exists e, addMessage client n threadId request = inl e /\ Runs.fatal e = None).

(** The calls that create something on the service. *)
Definition is_creation (e : Event) : bool :=
  match e with
  | EvCreateAssistant _ _ _ | EvCreateThread _ _ => true
  | _ => false
  end.

(** What a run under a fitting cache may log: nothing created, and messages
    to the thread [threadId] only. *)
Definition to_thread (threadId : string) (e : Event) : Prop :=
  is_creation e = false /\
  forall n t request, e = EvAddMessage n t request -> t = threadId.

(** Every character of the string is a decimal digit. *)
Fixpoint all_digits (s : string) : bool :=
  match s with
  | EmptyString => true
  | String c t => JsString.is_digit c && all_digits t
  end.

Section Effects.

Variable ChatMessage : Type.

Definition is_agent_message (e : Effect ChatMessage) : bool :=
  match e with
  | AddMessage agent _ _ => true
  | _ => false
  end.

Definition is_user_message (e : Effect ChatMessage) : bool :=
  match e with
  | AddMessage user _ _ => true
  | _ => false
  end.

Definition is_pending_change (e : Effect ChatMessage) : bool :=
  match e with
  | SetPending _ => true
  | _ => false
  end.

Definition is_post (e : Effect ChatMessage) : bool :=
  match e with
  | PostChat _ => true
  | _ => false
  end.

Definition is_last_command (e : Effect ChatMessage) : bool :=
  match e with
  | SetLastCommand _ => true
  | _ => false
  end.

Definition is_toast (e : Effect ChatMessage) : bool :=
  match e with
  | ShowErrorToast _ => true
  | _ => false
  end.

Definition how_many (f : Effect ChatMessage -> bool) (l : list (Effect ChatMessage))
  : nat :=
  List.length (filter f l).

(** The two effects of the outer [catch]: the agent's error message and the
    toast, which repeats the reason unless it speaks of the network. *)
Definition failure_report (l : list (Effect ChatMessage)) : Prop :=
  exists reason toast,
    l = [ AddMessage agent ("Failed to process your request: " ++ reason) error;
          ShowErrorToast toast ] /\
    (toast = reason \/ toast = "Network error - please check your connection").

(** The agent's one message, followed at most by the recording of a command
    that can be undone. *)
Definition reply (l : list (Effect ChatMessage)) : Prop :=
  (exists text status, l = [AddMessage agent text status]) \/
  (exists text id, l = [AddMessage agent text sent; SetLastCommand id]).

End Effects.

Section Panel.

Variables Project SampleLibrary DAWContext Command ChatMessage : Type.
Variable buildDAWContext : Project -> SampleLibrary -> DAWContext.
Variable generateSystemPrompt : DAWContext -> string.
Variable ext : Externals SampleLibrary Command ChatMessage.

(** The sample library loaded, the request went out, and the API answered
    with HTTP success, a readable body and [success: true]. *)
Definition api_answered (st : PanelState ChatMessage) (project : Project) : Prop :=
  exists sampleLibrary response apiResponse,
    loadSampleLibrary ext = inr sampleLibrary /\
    fetch ext (requestBody st (JsString.trim (inputText st))
                 (generateSystemPrompt (buildDAWContext project sampleLibrary)))
      = inr response /\
    ok response = true /\
    json response = inr apiResponse /\
    api_success apiResponse = true.

End Panel.

End Measures.

(* ===================================================================== *)
(** ** lib/ai/backboard.ts, SDK revision: calls that overlap *)
(* ===================================================================== *)

Module BackboardAsync.

Import Backboard.
Local Open Scope string_scope.

(** The functions of the module are [async]: a call is suspended at each
    [await], and until it is resumed other calls run and may write the
    module-level cache.  A call in progress is settled with its result, or
    suspended at an [await].  When a suspended call is resumed in world [w], it runs on
    without interruption to its next suspension or to its end: the world it
    leaves is [resume w], and what is left of the call is [rest w]. *)
Inductive Task (A : Type) : Type :=
| Settled (r : Result A)
| Pending (resume : World -> World) (rest : World -> Task A).

Arguments Settled {A} r.
Arguments Pending {A} resume rest.

(** The body of an [async] function: started in a world, it runs to its
    first suspension or to its end. *)
Definition Async (A : Type) : Type := World -> Task A * World.

(** Code that runs without suspension. *)
Definition now (A : Type) (m : M A) : Async A :=
  fun w => (Settled (fst (m w)), snd (m w)).

(** One more suspension before the task settles: the continuation of an
    [await] runs in a later turn, also when the promise awaited is already
    settled. *)
Fixpoint suspended (A : Type) (t : Task A) : Task A :=
  match t with
  | Settled r => Pending (fun w => w) (fun _ => Settled r)
  | Pending resume rest => Pending resume (fun w => suspended (rest w))
  end.

(** [await p] *)
Definition await (A : Type) (p : Async A) : Async A :=
  fun w => (suspended (fst (p w)), snd (p w)).

(** The code after a task, run in the turn in which the task settles. *)
Fixpoint andThen (A B : Type) (t : Task A) (k : A -> Async B) (w : World)
  : Task B * World :=
  match t with
  | Settled (Ok a) => k a w
  | Settled (Thrown e) => (Settled (Thrown e), w)
  | Pending resume rest =>
      (Pending (fun w1 => snd (andThen (rest w1) k (resume w1)))
               (fun w1 => fst (andThen (rest w1) k (resume w1))),
       w)
  end.

Definition bind (A B : Type) (p : Async A) (k : A -> Async B) : Async B :=
  fun w => andThen (fst (p w)) k (snd (p w)).

(** [try { ... } catch (error) { ... }] around a task. *)
Fixpoint orElse (A : Type) (t : Task A) (handler : JsThrown -> Async A) (w : World)
  : Task A * World :=
  match t with
  | Settled (Ok a) => (Settled (Ok a), w)
  | Settled (Thrown e) => handler e w
  | Pending resume rest =>
      (Pending (fun w1 => snd (orElse (rest w1) handler (resume w1)))
               (fun w1 => fst (orElse (rest w1) handler (resume w1))),
       w)
  end.

Definition try_catch (A : Type) (p : Async A) (handler : JsThrown -> Async A)
  : Async A :=
  fun w => orElse (fst (p w)) handler (snd (p w)).

(** A task resumed again and again, with nothing else running in between. *)
Fixpoint settle (A : Type) (t : Task A) (w : World) : Result A * World :=
  match t with
  | Settled r => (r, w)
  | Pending resume rest => settle (rest w) (resume w)
  end.

(** A call that no other call overlaps. *)
Definition alone (A : Type) (p : Async A) : M A :=
  fun w => settle (fst (p w)) (snd (p w)).

Arguments now {A} m.
Arguments await {A} p.
Arguments bind {A B} p k.
Arguments try_catch {A} p handler.

Declare Scope async_scope.
Delimit Scope async_scope with async.
Notation "x <- p ;; k" := (bind p (fun x => k))
  (at level 61, p at next level, right associativity) : async_scope.
Notation "p ;; k" := (bind p (fun _ => k))
  (at level 61, right associativity) : async_scope.

(** Two calls in flight.  Each turn resumes one of them; a call that has
    settled stays as it is. *)
Inductive Turn : Type := first | second.

Fixpoint interleave (A B : Type) (turns : list Turn) (a : Task A) (b : Task B)
    (w : World) : Task A * Task B * World :=
  match turns with
  | [] => (a, b, w)
  | first :: later =>
      match a with
      | Pending resume rest => interleave later (rest w) b (resume w)
      | Settled _ => interleave later a b w
      end
  | second :: later =>
      match b with
      | Pending resume rest => interleave later a (rest w) (resume w)
      | Settled _ => interleave later a b w
      end
  end.

(** A call not yet begun: its first turn starts the body. *)
Definition call (A : Type) (p : Async A) : Task A :=
  Pending (fun w => snd (p w)) (fun w => fst (p w)).

Section WithEnv.

Variable env : Env.

Local Open Scope async_scope.

Definition getAssistant (systemPrompt : string) : Async string :=
  let contextHash := hashContext systemPrompt in
  c <- now getCache ;;
  (if given (cachedAssistantId c) && negb (same_hash (cachedContextHash c) contextHash)
   then now (setCache {| client := client c; cachedAssistantId := None;
                         cachedThreadId := None;
                         cachedContextHash := cachedContextHash c |})
   else now (ret tt)) ;;
  c <- now getCache ;;
  if given (cachedAssistantId c) then now (ret (unwrap (cachedAssistantId c)))
  else
    now (getClient env) ;;
    id <- await (now (sdkCall (fun n => EvCreateAssistant n ASSISTANT_NAME systemPrompt)
                        (fun n => createAssistant (sdk env) n ASSISTANT_NAME systemPrompt))) ;;
    c <- now getCache ;;
    now (setCache {| client := client c; cachedAssistantId := Some id;
                     cachedThreadId := cachedThreadId c;
                     cachedContextHash := Some contextHash |}) ;;
    now (ret id).

Definition getThread (assistantId : string) : Async string :=
  c <- now getCache ;;
  if given (cachedThreadId c) then now (ret (unwrap (cachedThreadId c)))
  else
    now (getClient env) ;;
    id <- await (now (sdkCall (fun n => EvCreateThread n assistantId)
                        (fun n => createThread (sdk env) n assistantId))) ;;
    c <- now getCache ;;
    now (setCache {| client := client c; cachedAssistantId := cachedAssistantId c;
                     cachedThreadId := Some id;
                     cachedContextHash := cachedContextHash c |}) ;;
    now (ret id).

Definition attemptRequest (text effectiveSystemPrompt : string)
  : Async BackboardResponse :=
  assistantId <- await (getAssistant effectiveSystemPrompt) ;;
  threadId <- await (getThread assistantId) ;;
  let taskType := classifyTask text in
  let modelConfig := getModelForTask taskType in
  let llmProvider := provider modelConfig in
  let modelName := modelName modelConfig in
  now (getClient env) ;;
  let request := {| req_content := text; llm_provider := llmProvider;
                    model_name := modelName; stream := false |} in
  response <- await (now (sdkCall (fun n => EvAddMessage n threadId request)
                            (fun n => addMessage (sdk env) n threadId request))) ;;
  if String.eqb (status response) "FAILED" then
    now (throw (JsError ("Backboard response failed: " ++ template (content response))))
  else
    now (ret (parseResponse (JSON_parse env) text (unwrap (content response)))).

Definition onAttemptError (attempt : nat) (error : JsThrown) : Async unit :=
  now (emit (EvAttemptFailed (attempt + 1) error)) ;;
  match error with
  | JsError message =>
      if JsString.includes "401" message || JsString.includes "403" message
      then now (throw (JsError INVALID_KEY))
      else if JsString.includes "429" message
      then now (throw (JsError RATE_LIMIT))
      else now (ret tt)
  | JsOther => now (ret tt)
  end ;;
  if (attempt <? MAX_RETRIES)%nat
  then await (now (sleep (RETRY_DELAY_MS * (Z.of_nat attempt + 1))))
  else now (ret tt).

Fixpoint retryLoop (text model effectiveSystemPrompt : string)
    (remaining attempt : nat) : Async BackboardResponse :=
  match remaining with
  | O => now (ret (mockBackboardResponse text model (Some effectiveSystemPrompt)))
  | S remaining' =>
      now (emit (EvAttempt attempt)) ;;
      returned <- try_catch
                    (response <- attemptRequest text effectiveSystemPrompt ;;
                     now (ret (Some response)))
                    (fun error => onAttemptError attempt error ;; now (ret None)) ;;
      match returned with
      | Some response => now (ret response)
      | None => retryLoop text model effectiveSystemPrompt remaining' (S attempt)
      end
  end.

Definition sendToModel (text model : string)
    (_conversationHistory : option (list (string * string)))
    (systemPrompt : option string) : Async BackboardResponse :=
  let effective := effectiveSystemPrompt systemPrompt in
  if USE_MOCK then
    await (now (sleep 300)) ;;
    now (ret (mockBackboardResponse text model (Some effective)))
  else if negb (given (BACKBOARD_API_KEY env)) then
    now (throw (JsError "Backboard API key not configured"))
  else
    retryLoop text model effective (S MAX_RETRIES) O.

End WithEnv.

End BackboardAsync.

(** Two requests under different prompts, and the turns in which the
    second begins while the first awaits createThread, and the first goes on
    while the second awaits createAssistant. *)
Module Overlap.

Import Backboard BackboardAsync.
Local Open Scope string_scope.

Definition firstCall : Task BackboardResponse :=
  call (sendToModel (Scenarios.envWith Scenarios.chattySdk) "play" "gemini" None
          (Some "the first prompt")).

Definition secondCall : Task BackboardResponse :=
  call (sendToModel (Scenarios.envWith Scenarios.chattySdk) "stop" "gemini" None
          (Some "another prompt")).

Definition turns : list Turn := [first; first; first; second; first].

End Overlap.

(* ===================================================================== *)
(** * Properties *)
(* ===================================================================== *)

(** ** The matcher agrees with the declarative meaning of patterns *)

Module RegexFacts.

Import Regex.

#[local] Hint Constructors Matches : core.

Lemma nullable_sound r : nullable r = true -> Matches r [].
Proof.
  induction r; simpl; intro H; try discriminate; auto.
  - apply andb_true_iff in H as [H1 H2].
    change (@nil ascii) with (@nil ascii ++ []). auto.
  - apply orb_true_iff in H as [H1 | H2]; auto.
Qed.

Lemma nullable_complete r w : Matches r w -> w = [] -> nullable r = true.
Proof.
  induction 1; intro E; simpl; auto; try discriminate.
  - apply app_eq_nil in E as [-> ->]. rewrite IHMatches1, IHMatches2; auto.
  - rewrite IHMatches; auto.
  - rewrite IHMatches; auto using orb_true_r.
Qed.

Lemma nullable_iff r : nullable r = true <-> Matches r [].
Proof. split; [apply nullable_sound | intro H; eapply nullable_complete; eauto]. Qed.

Lemma Matches_Void w : ~ Matches Void w.
Proof. intro H; inversion H. Qed.

Lemma Matches_Eps w : Matches Eps w -> w = [].
Proof. intro H; inversion H; reflexivity. Qed.

Lemma Matches_Seq_inv r s w :
  Matches (Seq r s) w -> exists u v, w = u ++ v /\ Matches r u /\ Matches s v.
Proof. intro H; inversion H; subst; eauto. Qed.

Lemma Matches_Alt_inv r s w : Matches (Alt r s) w -> Matches r w \/ Matches s w.
Proof. intro H; inversion H; subst; auto. Qed.

Lemma Seq_Void_r r w : ~ Matches (Seq r Void) w.
Proof. intro H. apply Matches_Seq_inv in H as (u & v & _ & _ & Hv). inversion Hv. Qed.

Lemma Seq_Void_l s w : ~ Matches (Seq Void s) w.
Proof. intro H. apply Matches_Seq_inv in H as (u & v & _ & Hu & _). inversion Hu. Qed.

Lemma Seq_Eps_l s w : Matches (Seq Eps s) w <-> Matches s w.
Proof.
  split; intro H.
  - apply Matches_Seq_inv in H as (u & v & -> & Hu & Hv).
    apply Matches_Eps in Hu. subst. exact Hv.
  - change w with ([] ++ w). auto.
Qed.

Lemma mkSeq_iff r s w : Matches (mkSeq r s) w <-> Matches (Seq r s) w.
Proof.
  destruct r; simpl;
    try (destruct s; try reflexivity;
         split; intro H; exfalso;
         [ revert H; apply Matches_Void | revert H; apply Seq_Void_r ]).
  - split; intro H; exfalso; revert H; [apply Matches_Void | apply Seq_Void_l].
  - symmetry. apply Seq_Eps_l.
Qed.

Lemma Alt_Void_l s w : Matches (Alt Void s) w <-> Matches s w.
Proof.
  split; intro H; auto.
  apply Matches_Alt_inv in H as [H | H]; auto. inversion H.
Qed.

Lemma Alt_Void_r r w : Matches (Alt r Void) w <-> Matches r w.
Proof.
  split; intro H; auto.
  apply Matches_Alt_inv in H as [H | H]; auto. inversion H.
Qed.

Lemma mkAlt_iff r s w : Matches (mkAlt r s) w <-> Matches (Alt r s) w.
Proof.
  destruct r; simpl;
    try (destruct s; try reflexivity; symmetry; apply Alt_Void_r).
  symmetry. apply Alt_Void_l.
Qed.

(** A non-empty word of [r*] starts with a non-empty word of [r]. *)
Lemma star_cons_inv r0 w0 :
  Matches r0 w0 ->
  forall r c w, r0 = Star r -> w0 = c :: w ->
  exists u v, w = u ++ v /\ Matches r (c :: u) /\ Matches (Star r) v.
Proof.
  induction 1 as [| | | | | | r1 u v Hu _ Hv IH];
    intros r' c' w' Er Ew; try discriminate.
  injection Er as ->.
  destruct u as [| a u'].
  - simpl in Ew. eapply IH; eauto.
  - simpl in Ew. injection Ew as -> <-. eauto.
Qed.

Lemma deriv_iff c r : forall w, Matches (deriv c r) w <-> Matches r (c :: w).
Proof.
  induction r; intro w; simpl.
  - split; intro H; exfalso; revert H; apply Matches_Void.
  - split; intro H; inversion H.
  - destruct (p c) eqn:Hp; split; intro H.
    + apply Matches_Eps in H; subst; auto.
    + inversion H; subst; auto.
    + exfalso; revert H; apply Matches_Void.
    + inversion H; subst; congruence.
  - assert (Hseq : Matches (mkSeq (deriv c r1) r2) w <->
                   exists u v, w = u ++ v /\ Matches r1 (c :: u) /\ Matches r2 v).
    { rewrite mkSeq_iff. split.
      - intro H. apply Matches_Seq_inv in H as (u & v & -> & Hu & Hv).
        exists u, v. rewrite <- IHr1. auto.
      - intros (u & v & -> & Hu & Hv). apply IHr1 in Hu. auto. }
    destruct (nullable r1) eqn:Hn.
    + rewrite mkAlt_iff. split.
      * intro H. apply Matches_Alt_inv in H as [H | H].
        -- apply Hseq in H as (u & v & -> & Hu & Hv).
           change (c :: u ++ v) with ((c :: u) ++ v). auto.
        -- apply IHr2 in H. apply nullable_sound in Hn.
           change (c :: w) with ([] ++ c :: w). auto.
      * intro H. apply Matches_Seq_inv in H as (u & v & E & Hu & Hv).
        destruct u as [| a u'].
        -- simpl in E; subst v. apply MAltR. apply IHr2. exact Hv.
        -- simpl in E. injection E as <- ->. apply MAltL. apply Hseq. eauto.
    + rewrite Hseq. split.
      * intros (u & v & -> & Hu & Hv).
        change (c :: u ++ v) with ((c :: u) ++ v). auto.
      * intro H. apply Matches_Seq_inv in H as (u & v & E & Hu & Hv).
        destruct u as [| a u'].
        -- apply nullable_iff in Hu. congruence.
        -- simpl in E. injection E as <- ->. eauto.
  - rewrite mkAlt_iff. split; intro H.
    + apply Matches_Alt_inv in H as [H | H]; [apply IHr1 in H | apply IHr2 in H]; auto.
    + apply Matches_Alt_inv in H as [H | H]; [apply MAltL, IHr1 | apply MAltR, IHr2]; auto.
  - rewrite mkSeq_iff. split; intro H.
    + apply Matches_Seq_inv in H as (u & v & -> & Hu & Hv).
      apply IHr in Hu. change (c :: u ++ v) with ((c :: u) ++ v). auto.
    + eapply star_cons_inv in H as (u & v & -> & Hu & Hv); eauto.
      apply IHr in Hu. auto.
Qed.

(** The derivative matcher decides the declarative meaning. *)
Theorem accepts_iff : forall w r, accepts r w = true <-> Matches r w.
Proof.
  induction w as [| c w IH]; intro r; simpl.
  - apply nullable_iff.
  - rewrite IH. apply deriv_iff.
Qed.

Lemma star_any w : Matches (Star any) w.
Proof.
  induction w as [| c w IH]; auto.
  change (c :: w) with ([c] ++ w). apply MStarApp; auto.
  apply MClass. reflexivity.
Qed.

(** [test]: some part of the input, placed as the anchors demand, matches
    the body of the pattern. *)
Theorem test_iff p s :
  test p s = true <->
  exists pre mid post,
    list_ascii_of_string s = pre ++ mid ++ post /\
    Matches (body p) mid /\
    (anchored_start p = true -> pre = []) /\
    (anchored_end p = true -> post = []).
Proof.
  unfold test, search_regex. rewrite accepts_iff. split.
  - intro H. apply Matches_Seq_inv in H as (pre & rest & E & Hpre & H).
    apply Matches_Seq_inv in H as (mid & post & -> & Hmid & Hpost).
    exists pre, mid, post. repeat split; auto.
    + intro Ha. rewrite Ha in Hpre. now apply Matches_Eps in Hpre.
    + intro Ha. rewrite Ha in Hpost. now apply Matches_Eps in Hpost.
  - intros (pre & mid & post & E & Hmid & Hs & He). rewrite E.
    apply MSeq; [| apply MSeq; auto].
    + destruct (anchored_start p); [rewrite Hs; auto | apply star_any].
    + destruct (anchored_end p); [rewrite He; auto | apply star_any].
Qed.

End RegexFacts.

(** ** Task classification and model routing *)

Module ClassifyFacts.

Import Regex RegexFacts Backboard.
Local Open Scope string_scope.

(** Case analysis on the guard of the first conditional in the goal. *)
Ltac split_if :=
  match goal with
  | |- context [if ?b then _ else _] => destruct b eqn:?
  end.

Lemma lower_char_keeps_digits c :
  JsString.is_digit (JsString.lower_char c) = JsString.is_digit c.
Proof. destruct c as [[] [] [] [] [] [] [] []]; reflexivity. Qed.

Lemma has_digit_toLowerCase s :
  JsString.has_digit (JsString.toLowerCase s) = JsString.has_digit s.
Proof.
  induction s as [| c t IH]; simpl; [reflexivity |].
  rewrite lower_char_keeps_digits. unfold JsString.toLowerCase in IH.
  now rewrite IH.
Qed.

Lemma has_digit_append pre c post :
  JsString.is_digit c = true -> JsString.has_digit (pre ++ String c post) = true.
Proof.
  intro Hc. induction pre as [| a pre IH]; simpl.
  - now rewrite Hc.
  - rewrite IH. apply orb_true_r.
Qed.

Lemma has_digit_split s :
  JsString.has_digit s = true ->
  exists pre c post,
    list_ascii_of_string s = (pre ++ [c] ++ post)%list /\ JsString.is_digit c = true.
Proof.
  induction s as [| a t IH]; simpl; [discriminate |].
  destruct (JsString.is_digit a) eqn:Ha; simpl; intro H.
  - exists [], a, (list_ascii_of_string t). auto.
  - destruct (IH H) as (pre & c & post & E & Hc).
    exists (a :: pre), c, post. rewrite E. auto.
Qed.

Lemma has_digit_of_list s pre c post :
  list_ascii_of_string s = (pre ++ c :: post)%list ->
  JsString.is_digit c = true -> JsString.has_digit s = true.
Proof.
  revert s. induction pre as [| a pre IH]; intros s E Hc;
    destruct s as [| b t]; simpl in E; try discriminate;
    injection E as -> E; simpl.
  - now rewrite Hc.
  - rewrite (IH _ E Hc). apply orb_true_r.
Qed.

(** [/\d+/.test(s)] says exactly that [s] holds a digit. *)
Lemma test_anyNumber_iff s : test anyNumber s = true <-> JsString.has_digit s = true.
Proof.
  rewrite test_iff. simpl. split.
  - intros (pre & mid & post & E & Hmid & _ & _).
    apply Matches_Seq_inv in Hmid as (u & v & -> & Hu & _).
    inversion Hu; subst. simpl in E.
    eapply has_digit_of_list; eauto.
  - intro H. apply has_digit_split in H as (pre & c & post & E & Hc).
    exists pre, [c], post. repeat split; auto; try discriminate.
    change [c] with ([c] ++ [])%list. apply MSeq; constructor. exact Hc.
Qed.

(** [getModelForTask] on the three buckets. *)
Lemma getModelForTask_table :
  getModelForTask creative =
    {| provider := google; modelName := "gemini-2.5-flash";
       description := "Google Gemini 2.5 Flash - Creative & musical tasks" |} /\
  getModelForTask technical =
    {| provider := openai; modelName := "gpt-4o";
       description := "OpenAI GPT-4o - Technical & precise tasks" |} /\
  getModelForTask analytical =
    {| provider := anthropic; modelName := "claude-sonnet-4-20250514";
       description := "Anthropic Claude Sonnet 4 - Analysis & explanations" |}.
Proof. repeat split. Qed.

(** C1.  For every input, [classifyTask] returns (the function is total) one
    of the buckets creative, technical, analytical and never fallback, and
    [getModelForTask] sends creative to google / gemini-2.5-flash, technical
    to openai / gpt-4o and analytical to anthropic / claude-sonnet-4-20250514. *)
Theorem classifyTask_bucket_and_route : forall userInput : string,
  (classifyTask userInput = creative \/
   classifyTask userInput = technical \/
   classifyTask userInput = analytical) /\
  classifyTask userInput <> fallback /\
  (provider (getModelForTask creative) = google /\
   modelName (getModelForTask creative) = "gemini-2.5-flash") /\
  (provider (getModelForTask technical) = openai /\
   modelName (getModelForTask technical) = "gpt-4o") /\
  (provider (getModelForTask analytical) = anthropic /\
   modelName (getModelForTask analytical) = "claude-sonnet-4-20250514").
Proof.
  intro userInput.
  assert (H : classifyTask userInput = creative \/
              classifyTask userInput = technical \/
              classifyTask userInput = analytical).
  { unfold classifyTask. cbv zeta. repeat split_if; auto. }
  split; [exact H |]. split.
  - destruct H as [H | [H | H]]; rewrite H; discriminate.
  - repeat split.
Qed.

(** C9.  An input that holds a decimal digit anywhere is classified
    technical, whatever else it says. *)
Theorem classifyTask_digit_technical : forall (userInput pre post : string) (c : ascii),
  userInput = pre ++ String c post ->
  JsString.is_digit c = true ->
  classifyTask userInput = technical.
Proof.
  intros userInput pre post c -> Hc.
  unfold classifyTask. cbv zeta.
  assert (H : test anyNumber (JsString.toLowerCase (pre ++ String c post)) = true).
  { apply test_anyNumber_iff. rewrite has_digit_toLowerCase.
    now apply has_digit_append. }
  now rewrite H.
Qed.

Lemma classifyTask_digit_technical_witness :
  classifyTask "make a trap beat at 140 bpm" = technical.
Proof.
  apply (@classifyTask_digit_technical
           "make a trap beat at 140 bpm" "make a trap beat at " "40 bpm" "1"%char);
    reflexivity.
Defined.

(** The same request without its number matches a creative pattern and no
    analytical one: only the digit check makes it technical. *)
Example trap_beat_without_number :
  classifyTask "make a trap beat" = creative /\
  some_pattern_matches analyticalPatterns "make a trap beat at 140 bpm" = false /\
  some_pattern_matches creativePatterns "make a trap beat at 140 bpm" = true.
Proof. vm_compute. auto. Qed.

End ClassifyFacts.

(** ** The two revisions of the mock *)

Module MockFacts.

Import Regex Backboard.
Import ClassifyFacts.
Local Open Scope string_scope.

(** C10.  Away from the two added branches, the SDK revision's mock answers
    with a batch of exactly one action; its name is the action of the
    mock-only revision's answer, and outside the clarificationNeeded default
    its parameters are that answer's parameters. *)
Theorem mock_batch_wraps_legacy : forall (text model : string) (systemPrompt : option string),
  ghostPreviewBranch (JsString.toLowerCase text) = false ->
  makeBeatBranch (JsString.toLowerCase text) = false ->
  exists (name : string) (params : Json.value),
    action (mockBackboardResponse text model systemPrompt) = Json.Str "__batch__" /\
    parameters (mockBackboardResponse text model systemPrompt) =
      Json.Obj [("actions", Json.Arr [action_object (Json.Str name) params])] /\
    action (BackboardLegacy.mockBackboardResponse text model) = Json.Str name /\
    (name <> "clarificationNeeded" ->
     parameters (BackboardLegacy.mockBackboardResponse text model) = params).
Proof.
  intros text model systemPrompt Hghost Hbeat.
  unfold mockBackboardResponse, BackboardLegacy.mockBackboardResponse.
  cbv zeta beta. rewrite Hghost, Hbeat.
  unfold startsWithPlay, startsWithStop, instruments.
  repeat split_if;
    (eexists; eexists;
     split; [reflexivity | split; [reflexivity | split; [reflexivity |]]]);
    try (intros _; reflexivity).
  intro H. exfalso. apply H. reflexivity.
Qed.

Lemma mock_batch_wraps_legacy_witness :
  exists (name : string) (params : Json.value),
    action (mockBackboardResponse "Add a kick pattern" "gemini" None)
      = Json.Str "__batch__" /\
    parameters (mockBackboardResponse "Add a kick pattern" "gemini" None) =
      Json.Obj [("actions", Json.Arr [action_object (Json.Str name) params])] /\
    action (BackboardLegacy.mockBackboardResponse "Add a kick pattern" "gemini")
      = Json.Str name /\
    (name <> "clarificationNeeded" ->
     parameters (BackboardLegacy.mockBackboardResponse "Add a kick pattern" "gemini")
       = params).
Proof.
  apply (@mock_batch_wraps_legacy "Add a kick pattern" "gemini" None); reflexivity.
Defined.

(** On the default branch the two revisions word their help differently. *)
Example clarification_parameters_differ :
  parameters (mockBackboardResponse "hello" "gemini" None) =
    Json.Obj [("actions", Json.Arr
      [action_object (Json.Str "clarificationNeeded") (clarificationParameters "hello")])] /\
  action (BackboardLegacy.mockBackboardResponse "hello" "gemini")
    = Json.Str "clarificationNeeded" /\
  parameters (BackboardLegacy.mockBackboardResponse "hello" "gemini")
    <> clarificationParameters "hello".
Proof. repeat split. vm_compute. discriminate. Qed.

(** In the mock-only revision every request is answered by the mock after
    the simulated delay; and the loop behind the mock switch, were it
    reached, would return in its first round: nothing in its [try] throws. *)
Lemma legacy_sendToModel_is_mock key text model history w :
  BackboardLegacy.sendToModel key text model history w
  = (Ok (BackboardLegacy.mockBackboardResponse text model), Runs.log (EvSleep 300) w).
Proof. reflexivity. Qed.

Lemma legacy_loop_first_round text model lastError remaining w :
  exists w',
    BackboardLegacy.retryLoop text model lastError (S remaining) 0 w
    = (Ok (BackboardLegacy.mockBackboardResponse text model), w') /\
    trace w' = (trace w ++ [EvAttempt 0])%list.
Proof.
  simpl. unfold bind, try_catch, emit, ret.
  unfold BackboardLegacy.getAssistant, BackboardLegacy.getThread,
    bind, getCache, setCache, ret. simpl.
  destruct (given (cachedAssistantId (cache w))); simpl;
    destruct (given (cachedThreadId (cache w))); simpl;
    eexists; split; reflexivity.
Qed.

End MockFacts.

(** ** Runs of [sendToModel]: what they log *)

Module TraceFacts.

Import Backboard Runs.
Local Open Scope string_scope.

Section Emits.

Variable E : Event -> Prop.

Lemma emits_ret A (a : A) : emits E (ret a).
Proof. intro w. exists []. simpl. rewrite app_nil_r. auto. Qed.

Lemma emits_throw A e : emits E (@throw A e).
Proof. intro w. exists []. simpl. rewrite app_nil_r. auto. Qed.

Lemma emits_getCache : emits E getCache.
Proof. intro w. exists []. simpl. rewrite app_nil_r. auto. Qed.

Lemma emits_setCache c : emits E (setCache c).
Proof. intro w. exists []. simpl. rewrite app_nil_r. auto. Qed.

Lemma emits_emit e : E e -> emits E (emit e).
Proof. intros He w. exists [e]. simpl. auto. Qed.

Lemma emits_sdkCall A ev (answer : nat -> JsThrown + A) :
  (forall n, E (ev n)) -> emits E (sdkCall ev answer).
Proof.
  intros He w. exists [ev (calls w)]. unfold sdkCall.
  destruct (answer (calls w)); simpl; auto.
Qed.

Lemma emits_bind A B (m : M A) (k : A -> M B) :
  emits E m -> (forall a, emits E (k a)) -> emits E (bind m k).
Proof.
  intros Hm Hk w. unfold bind.
  destruct (Hm w) as (l1 & E1 & F1).
  destruct (m w) as [[a | e] w1]; simpl in *.
  - destruct (Hk a w1) as (l2 & E2 & F2).
    exists (l1 ++ l2)%list. rewrite E2, E1, app_assoc.
    split; [reflexivity | apply Forall_app; auto].
  - exists l1. auto.
Qed.

Lemma emits_try A (m : M A) (h : JsThrown -> M A) :
  emits E m -> (forall e, emits E (h e)) -> emits E (try_catch m h).
Proof.
  intros Hm Hh w. unfold try_catch.
  destruct (Hm w) as (l1 & E1 & F1).
  destruct (m w) as [[a | e] w1]; simpl in *.
  - exists l1. auto.
  - destruct (Hh e w1) as (l2 & E2 & F2).
    exists (l1 ++ l2)%list. rewrite E2, E1, app_assoc.
    split; [reflexivity | apply Forall_app; auto].
Qed.

End Emits.

(** Structural descent through a computation built from the primitives. *)
Ltac emits_step :=
  first
    [ apply emits_ret | apply emits_throw | apply emits_getCache
    | apply emits_setCache | apply emits_bind; [| intro]
    | apply emits_try; [| intro]
    | match goal with
      | |- emits _ (if ?b then _ else _) => destruct b
      | |- emits _ (match ?x with _ => _ end) => destruct x
      end ].

Section WithEnv.

Variable env : Env.
Variable E : Event -> Prop.

Lemma emits_getClient : emits E (getClient env).
Proof. unfold getClient. repeat emits_step. Qed.

Lemma emits_getAssistant systemPrompt :
  (forall n, E (EvCreateAssistant n ASSISTANT_NAME systemPrompt)) ->
  emits E (getAssistant env systemPrompt).
Proof.
  intro H. unfold getAssistant.
  repeat first [ apply emits_getClient | apply emits_sdkCall; exact H | emits_step ].
Qed.

Lemma emits_getThread assistantId :
  (forall n, E (EvCreateThread n assistantId)) ->
  emits E (getThread env assistantId).
Proof.
  intro H. unfold getThread.
  repeat first [ apply emits_getClient | apply emits_sdkCall; exact H | emits_step ].
Qed.

Lemma emits_attemptRequest text effective :
  (forall n, E (EvCreateAssistant n ASSISTANT_NAME effective)) ->
  (forall n assistantId, E (EvCreateThread n assistantId)) ->
  (forall n threadId request, E (EvAddMessage n threadId request)) ->
  emits E (attemptRequest env text effective).
Proof.
  intros Ha Ht Hm. unfold attemptRequest.
  apply emits_bind; [apply emits_getAssistant; exact Ha | intro assistantId].
  apply emits_bind; [apply emits_getThread; intro; apply Ht | intro threadId].
  cbv zeta.
  apply emits_bind; [apply emits_getClient | intros _].
  apply emits_bind; [apply emits_sdkCall; intro; apply Hm | intro response].
  repeat emits_step.
Qed.

End WithEnv.

End TraceFacts.

(** ** The retry loop *)

Module RetryFacts.

Import Backboard Runs TraceFacts.
Local Open Scope string_scope.

Section WithEnv.

Variable env : Env.
Variables text model effective : string.

(** One round of the loop, spelled out on worlds. *)
Lemma retryLoop_round remaining attempt w :
  retryLoop env text model effective (S remaining) attempt w =
  match attemptRequest env text effective (log (EvAttempt attempt) w) with
  | (Ok response, w2) => (Ok response, w2)
  | (Thrown error, w2) =>
      let w3 := log (EvAttemptFailed (attempt + 1) error) w2 in
      match fatal error with
      | Some message => (Thrown (JsError message), w3)
      | None =>
          retryLoop env text model effective remaining (S attempt)
            (if (attempt <? MAX_RETRIES)%nat
             then log (EvSleep (RETRY_DELAY_MS * (Z.of_nat attempt + 1))) w3
             else w3)
      end
  end.
Proof.
  unfold retryLoop; fold retryLoop.
  unfold bind at 1. unfold emit at 1. fold (log (EvAttempt attempt) w).
  unfold bind at 1. unfold try_catch. unfold bind at 1.
  destruct (attemptRequest env text effective (log (EvAttempt attempt) w))
    as [[response | error] w2]; [reflexivity |].
  unfold onAttemptError, fatal, bind, emit, ret, throw, sleep, emit, log.
  destruct error as [message |]; simpl.
  - destruct (JsString.includes "401" message || JsString.includes "403" message);
      [reflexivity |].
    destruct (JsString.includes "429" message); [reflexivity |].
    destruct (attempt <? MAX_RETRIES)%nat; reflexivity.
  - destruct (attempt <? MAX_RETRIES)%nat; reflexivity.
Qed.





End WithEnv.

End RetryFacts.

(** ** The retry policy *)

Module RetryPolicy.

Import Backboard Runs TraceFacts RetryFacts.
Local Open Scope string_scope.

(** Membership in an explicit prefix followed by a tail: decide each head
    by its constructor, and hand the tail to the induction hypothesis. *)
Ltac by_position :=
  simpl; intros;
  repeat match goal with H : _ \/ _ |- _ => destruct H end;
  try contradiction; try discriminate;
  try (match goal with H : _ = _ |- _ => injection H; intros; subst; lia end);
  try (match goal with
       | IH : forall _, _ -> _, H : In _ _ |- _ => apply IH in H; lia
       | IH : forall _ _, _ -> _, H : In _ _ |- _ => apply IH in H; lia
       end).


Lemma Rounds_attempt_index attempt remaining result L :
  Rounds attempt remaining result L ->
  forall j, In (EvAttempt j) L -> (attempt <= j)%nat.
Proof. induction 1; by_position. Qed.





Lemma sendToModel_with_key env text model history systemPrompt w :
  given (BACKBOARD_API_KEY env) = true ->
  sendToModel env text model history systemPrompt w =
  retryLoop env text model (effectiveSystemPrompt systemPrompt) (S MAX_RETRIES) 0 w.
Proof.
  intro Hkey. unfold sendToModel, USE_MOCK. rewrite Hkey. reflexivity.
Qed.

Lemma sendToModel_without_key env text model history systemPrompt w :
  given (BACKBOARD_API_KEY env) = false ->
  sendToModel env text model history systemPrompt w =
  (Thrown (JsError "Backboard API key not configured"), w).
Proof.
  intro Hkey. unfold sendToModel, USE_MOCK. rewrite Hkey. reflexivity.
Qed.







(** A client that is down is tried three times, with pauses of one and two
    seconds, before the mock answers in its place. *)
Example three_attempts_then_mock :
  schedule (trace (snd (sendToModel (Scenarios.envWith Scenarios.downSdk)
                          "set bpm to 120" "gemini" None None initialWorld)))
    = [EvAttempt 0; EvSleep 1000; EvAttempt 1; EvSleep 2000; EvAttempt 2] /\
  fst (sendToModel (Scenarios.envWith Scenarios.downSdk)
         "set bpm to 120" "gemini" None None initialWorld)
    = Ok (mockBackboardResponse "set bpm to 120" "gemini" (Some DEFAULT_SYSTEM_PROMPT)).
Proof. vm_compute. split; reflexivity. Qed.

End RetryPolicy.

(** ** Answers that are not JSON *)

Module ParseFacts.

Import Backboard Runs TraceFacts RetryFacts.
Local Open Scope string_scope.

Lemma not_add_message l n threadId request :
  Forall (fun e => is_add_message e = false) l ->
  ~ In (EvAddMessage n threadId request) l.
Proof.
  intros F Hin. rewrite Forall_forall in F. apply F in Hin. discriminate.
Qed.

Section WithEnv.

Variable env : Env.
Variables text model effective : string.

(** The answer to [addMessage] decides the result of the request. *)
Lemma attemptRequest_answer w result w' :
  attemptRequest env text effective w = (result, w') ->
  exists l,
    trace w' = (trace w ++ l)%list /\
    forall n threadId request response,
      In (EvAddMessage n threadId request) l ->
      addMessage (sdk env) n threadId request = inr response ->
      String.eqb (status response) "FAILED" = false ->
      result = Ok (parseResponse (JSON_parse env) text (unwrap (content response))).
Proof.
  unfold attemptRequest, bind. intro H.
  destruct (@emits_getAssistant env (fun e => is_add_message e = false) effective)
    with (w := w) as (l1 & E1 & F1); [reflexivity |].
  destruct (getAssistant env effective w) as [[assistantId | e] w1]; simpl in E1.
  2:{ injection H as <- <-. exists l1. split; [exact E1 |].
      intros n t r a Hin. now apply not_add_message in Hin. }
  destruct (@emits_getThread env (fun e => is_add_message e = false) assistantId)
    with (w := w1) as (l2 & E2 & F2); [reflexivity |].
  destruct (getThread env assistantId w1) as [[threadId | e] w2]; simpl in E2.
  2:{ injection H as <- <-. exists (l1 ++ l2)%list. rewrite E2, E1, app_assoc.
      split; [reflexivity |].
      intros n t r a Hin. apply in_app_or in Hin as [Hin | Hin];
        now apply not_add_message in Hin. }
  cbv zeta in H.
  destruct (@emits_getClient env (fun e => is_add_message e = false))
    with (w := w2) as (l3 & E3 & F3).
  destruct (getClient env w2) as [[[] | e] w3]; simpl in E3.
  2:{ injection H as <- <-. exists (l1 ++ l2 ++ l3)%list.
      rewrite E3, E2, E1, <- !app_assoc. split; [reflexivity |].
      intros n t r a Hin.
      apply in_app_or in Hin as [Hin | Hin]; [| apply in_app_or in Hin as [Hin | Hin]];
        now apply not_add_message in Hin. }
  set (request := {| req_content := text;
                     llm_provider := provider (getModelForTask (classifyTask text));
                     model_name := modelName (getModelForTask (classifyTask text));
                     stream := false |}) in H.
  exists (l1 ++ l2 ++ l3 ++ [EvAddMessage (calls w3) threadId request])%list.
  assert (Htrace :
    (trace w3 ++ [EvAddMessage (calls w3) threadId request]
     = trace w ++ l1 ++ l2 ++ l3 ++ [EvAddMessage (calls w3) threadId request])%list).
  { rewrite E3, E2, E1, <- !app_assoc. reflexivity. }
  assert (Hlast : forall n t r,
    In (EvAddMessage n t r) (l1 ++ l2 ++ l3 ++ [EvAddMessage (calls w3) threadId request])%list ->
    n = calls w3 /\ t = threadId /\ r = request).
  { intros n t r Hin.
    apply in_app_or in Hin as [Hin | Hin]; [now apply not_add_message in Hin |].
    apply in_app_or in Hin as [Hin | Hin]; [now apply not_add_message in Hin |].
    apply in_app_or in Hin as [Hin | Hin]; [now apply not_add_message in Hin |].
    destruct Hin as [Hin | []]. injection Hin as <- <- <-. auto. }
  unfold sdkCall in H.
  destruct (addMessage (sdk env) (calls w3) threadId request) as [err | response] eqn:Hans.
  - injection H as <- <-. split; [exact Htrace |].
    intros n t r a Hin Ha. apply Hlast in Hin as (-> & -> & ->). congruence.
  - destruct (String.eqb (status response) "FAILED") eqn:Hst;
      injection H as <- <-; (split; [exact Htrace |]);
      intros n t r a Hin Ha Hs; apply Hlast in Hin as (-> & -> & ->);
      rewrite Hans in Ha; injection Ha as <-; congruence.
Qed.

(** So does it decide the result of the whole loop. *)
Lemma retryLoop_answer : forall remaining attempt w,
  exists l,
    trace (snd (retryLoop env text model effective remaining attempt w))
      = (trace w ++ l)%list /\
    forall n threadId request response,
      In (EvAddMessage n threadId request) l ->
      addMessage (sdk env) n threadId request = inr response ->
      String.eqb (status response) "FAILED" = false ->
      fst (retryLoop env text model effective remaining attempt w)
        = Ok (parseResponse (JSON_parse env) text (unwrap (content response))).
Proof.
  induction remaining as [| remaining IH]; intros attempt w.
  - exists []. simpl. rewrite app_nil_r. split; [reflexivity |]. intros ? ? ? ? [].
  - rewrite retryLoop_round.
    destruct (attemptRequest env text effective (log (EvAttempt attempt) w))
      as [result w2] eqn:Hrun.
    destruct (attemptRequest_answer _ Hrun) as (la & Ela & Hla). simpl in Ela.
    destruct result as [response | error].
    + exists (EvAttempt attempt :: la). split.
      * simpl. rewrite Ela. now rewrite <- app_assoc.
      * intros n t r a [Hin | Hin]; [discriminate | eauto].
    + assert (Hnone : forall n t r, In (EvAddMessage n t r) la ->
                forall a, addMessage (sdk env) n t r = inr a ->
                String.eqb (status a) "FAILED" = false -> False).
      { intros n t r Hin a Ha Hs. specialize (Hla _ _ _ _ Hin Ha Hs). discriminate. }
      cbv zeta. destruct (fatal error) as [message |].
      * exists (EvAttempt attempt :: la ++ [EvAttemptFailed (attempt + 1) error])%list.
        split.
        -- simpl. rewrite Ela. now rewrite <- !app_assoc.
        -- intros n t r a [Hin | Hin]; [discriminate |].
           apply in_app_or in Hin as [Hin | [Hin | []]]; [| discriminate].
           intros Ha Hs. exfalso. eauto.
      * destruct (attempt <? MAX_RETRIES)%nat.
        -- match goal with
           | |- context [retryLoop _ _ _ _ _ _ ?w3] =>
               destruct (IH (S attempt) w3) as (lr & Elr & Hlr)
           end.
           exists (EvAttempt attempt :: la
                   ++ EvAttemptFailed (attempt + 1) error
                   :: EvSleep (RETRY_DELAY_MS * (Z.of_nat attempt + 1)) :: lr)%list.
           split.
           ++ rewrite Elr. simpl. rewrite Ela. simpl.
              rewrite <- !app_assoc. reflexivity.
           ++ intros n t r a [Hin | Hin]; [discriminate |].
              apply in_app_or in Hin as [Hin | [Hin | [Hin | Hin]]];
                try discriminate; [| eauto].
              intros Ha Hs. exfalso. eauto.
        -- match goal with
           | |- context [retryLoop _ _ _ _ _ _ ?w3] =>
               destruct (IH (S attempt) w3) as (lr & Elr & Hlr)
           end.
           exists (EvAttempt attempt :: la
                   ++ EvAttemptFailed (attempt + 1) error :: lr)%list.
           split.
           ++ rewrite Elr. simpl. rewrite Ela. simpl.
              rewrite <- !app_assoc. reflexivity.
           ++ intros n t r a [Hin | Hin]; [discriminate |].
              apply in_app_or in Hin as [Hin | [Hin | Hin]];
                try discriminate; [| eauto].
              intros Ha Hs. exfalso. eauto.
Qed.

End WithEnv.

Lemma parseResponse_unparsable JSON_parse text content :
  JSON_parse (stripCodeFences content) = None ->
  parseResponse JSON_parse text content = unknownResponse text (stripCodeFences content).
Proof. intro H. unfold parseResponse. now rewrite H. Qed.

(** C3, as amended.  When the SDK answers a message with a response that is
    not FAILED and whose content, once code fences are stripped and the text
    is trimmed, is not valid JSON, [sendToModel] does not throw: it returns a
    '__batch__' response whose actions array holds exactly one action, named
    'unknown', whose parameters carry the user's text and the response text
    as it was handed to the parser, that is after stripping and trimming. *)
Theorem sendToModel_unparsable_answer :
  forall env text model history systemPrompt w,
    exists l,
      trace (snd (sendToModel env text model history systemPrompt w))
        = (trace w ++ l)%list /\
      forall n threadId request response,
        In (EvAddMessage n threadId request) l ->
        addMessage (sdk env) n threadId request = inr response ->
        status response <> "FAILED" ->
        JSON_parse env (stripCodeFences (unwrap (content response))) = None ->
        fst (sendToModel env text model history systemPrompt w) =
        Ok {| action := Json.Str "__batch__";
              parameters :=
                Json.Obj [("actions", Json.Arr
                  [ Json.Obj
                      [("action", Json.Str "unknown");
                       ("parameters",
                        Json.Obj
                          [("originalText", Json.Str text);
                           ("reason", Json.Str "Failed to parse AI response");
                           ("rawResponse",
                            Json.Str (stripCodeFences (unwrap (content response))))])] ])];
              confidence := Json.Undefined;
              reasoning := Json.Undefined |}.
Proof.
  intros env text model history systemPrompt w.
  destruct (given (BACKBOARD_API_KEY env)) eqn:Hkey.
  2:{ rewrite (RetryPolicy.sendToModel_without_key _ _ _ _ _ _ Hkey).
      exists []. simpl. rewrite app_nil_r. split; [reflexivity |].
      intros ? ? ? ? []. }
  rewrite (RetryPolicy.sendToModel_with_key _ _ _ _ _ _ Hkey).
  destruct (retryLoop_answer env text model (effectiveSystemPrompt systemPrompt)
              (S MAX_RETRIES) 0 w) as (l & El & Hl).
  exists l. split; [exact El |].
  intros n threadId request response Hin Hanswer Hstatus Hparse.
  rewrite (Hl _ _ _ _ Hin Hanswer).
  - rewrite (parseResponse_unparsable _ _ _ Hparse). reflexivity.
  - now apply String.eqb_neq.
Qed.

Lemma sendToModel_unparsable_answer_witness :
  fst (sendToModel (Scenarios.envWith Scenarios.chattySdk)
         "add a kick" "gemini" None None initialWorld) =
  Ok (unknownResponse "add a kick" "Sure! I have added a kick drum for you.").
Proof.
  destruct (@sendToModel_unparsable_answer (Scenarios.envWith Scenarios.chattySdk)
              "add a kick" "gemini" None None initialWorld)
    as (l & El & Hl).
  assert (Hin : In (EvAddMessage 2 "thread_1"
                     {| req_content := "add a kick"; llm_provider := openai;
                        model_name := "gpt-4o"; stream := false |}) l).
  { change (trace initialWorld ++ l)%list with l in El.
    rewrite <- El. vm_compute. auto 6. }
  apply (Hl _ _ _ Scenarios.proseAnswer Hin); [reflexivity | discriminate | reflexivity].
Defined.

(** C3, as stated, fails on the last point: what the 'unknown' action
    carries as rawResponse is not the response the model gave but what is
    left of it after the fences are gone. *)
Lemma rawResponse_is_not_the_raw_response :
  content {| status := "COMPLETED"; content := Some Scenarios.fencedProse |}
    = Some Scenarios.fencedProse /\
  fst (sendToModel (Scenarios.envWith Scenarios.fencedSdk)
         "add a kick" "gemini" None None initialWorld)
    = Ok (unknownResponse "add a kick" "I cannot do that") /\
  fst (sendToModel (Scenarios.envWith Scenarios.fencedSdk)
         "add a kick" "gemini" None None initialWorld)
    <> Ok (unknownResponse "add a kick" Scenarios.fencedProse).
Proof. vm_compute. repeat split. discriminate. Qed.

(** A FAILED response is not parsed at all: its content only feeds the
    message of the error thrown inside the round, and that error is treated
    like any other. *)
Example failed_response_is_retried_or_fatal :
  fst (sendToModel (Scenarios.envWith Scenarios.refusingSdk)
         "add a kick" "gemini" None None initialWorld)
    = Thrown (JsError "Rate limit exceeded. Please try again later.") /\
  Scenarios.toyParse (stripCodeFences "quota exhausted (429)") = None.
Proof. vm_compute. split; reflexivity. Qed.

End ParseFacts.

(** ** A call that nothing overlaps *)

Module AsyncFacts.

Import Backboard BackboardAsync.
Local Open Scope string_scope.

Lemma settle_suspended A (t : Task A) : forall w, settle (suspended t) w = settle t w.
Proof. induction t as [r | resume rest IH]; intro w; simpl; [reflexivity | apply IH]. Qed.

Lemma alone_now A (m : M A) w : alone (now m) w = m w.
Proof. unfold alone, now. simpl. now destruct (m w). Qed.

Lemma alone_await A (p : Async A) w : alone (await p) w = alone p w.
Proof. unfold alone, await. simpl. apply settle_suspended. Qed.

Lemma settle_andThen A B (k : A -> Async B) (t : Task A) : forall w,
  settle (fst (andThen t k w)) (snd (andThen t k w))
  = match settle t w with
    | (Ok a, w1) => alone (k a) w1
    | (Thrown e, w1) => (Thrown e, w1)
    end.
Proof.
  induction t as [[a | e] | resume rest IH]; intro w; simpl; try reflexivity.
  apply IH.
Qed.

Lemma alone_bind A B (p : Async A) (k : A -> Async B) (m : M A) (k' : A -> M B) :
  (forall w, alone p w = m w) ->
  (forall a w, alone (k a) w = k' a w) ->
  forall w, alone (BackboardAsync.bind p k) w = Backboard.bind m k' w.
Proof.
  intros Hp Hk w. unfold alone at 1, BackboardAsync.bind. cbn [fst snd].
  rewrite settle_andThen. fold (alone p w). rewrite Hp. unfold Backboard.bind.
  destruct (m w) as [[a | e] w1]; [apply Hk | reflexivity].
Qed.

Lemma settle_orElse A (h : JsThrown -> Async A) (t : Task A) : forall w,
  settle (fst (orElse t h w)) (snd (orElse t h w))
  = match settle t w with
    | (Ok a, w1) => (Ok a, w1)
    | (Thrown e, w1) => alone (h e) w1
    end.
Proof.
  induction t as [[a | e] | resume rest IH]; intro w; simpl; try reflexivity.
  apply IH.
Qed.

Lemma alone_try A (p : Async A) (h : JsThrown -> Async A) (m : M A) (h' : JsThrown -> M A) :
  (forall w, alone p w = m w) ->
  (forall e w, alone (h e) w = h' e w) ->
  forall w, alone (BackboardAsync.try_catch p h) w = Backboard.try_catch m h' w.
Proof.
  intros Hp Hh w. unfold alone at 1, BackboardAsync.try_catch. cbn [fst snd].
  rewrite settle_orElse. fold (alone p w). rewrite Hp. unfold Backboard.try_catch.
  destruct (m w) as [[a | e] w1]; [reflexivity | apply Hh].
Qed.

Lemma alone_awaited A (p : Async A) (m : M A) :
  (forall w, alone p w = m w) -> forall w, alone (await p) w = m w.
Proof. intros H w. rewrite alone_await. apply H. Qed.

(** Structural descent through a body built from the combinators. *)
Ltac alone_step :=
  first
    [ apply alone_now
    | apply alone_awaited
    | apply alone_bind; [| intro]
    | apply alone_try; [| intro]
    | match goal with
      | |- forall w, alone (if ?b then _ else _) w = _ => destruct b
      | |- forall w, alone (match ?x with JsError _ => _ | JsOther => _ end) w = _ =>
          destruct x
      end ].

Section WithEnv.

Variable env : Env.

(** Resumed with nothing in between, each function of the module does what
    its sequential reading does. *)
Lemma alone_getAssistant systemPrompt : forall w,
  alone (BackboardAsync.getAssistant env systemPrompt) w
  = Backboard.getAssistant env systemPrompt w.
Proof.
  unfold BackboardAsync.getAssistant, Backboard.getAssistant.
  repeat alone_step.
Qed.

Lemma alone_getThread assistantId : forall w,
  alone (BackboardAsync.getThread env assistantId) w
  = Backboard.getThread env assistantId w.
Proof.
  unfold BackboardAsync.getThread, Backboard.getThread.
  repeat alone_step.
Qed.

Lemma alone_attemptRequest text effective : forall w,
  alone (BackboardAsync.attemptRequest env text effective) w
  = Backboard.attemptRequest env text effective w.
Proof.
  unfold BackboardAsync.attemptRequest, Backboard.attemptRequest.
  apply alone_bind; [apply alone_awaited, alone_getAssistant | intro assistantId].
  apply alone_bind; [apply alone_awaited, alone_getThread | intro threadId].
  cbv zeta.
  repeat alone_step.
Qed.

Lemma alone_onAttemptError attempt error : forall w,
  alone (BackboardAsync.onAttemptError attempt error) w
  = Backboard.onAttemptError attempt error w.
Proof.
  unfold BackboardAsync.onAttemptError, Backboard.onAttemptError, sleep.
  repeat alone_step.
Qed.

Lemma alone_retryLoop text model effective : forall remaining attempt w,
  alone (BackboardAsync.retryLoop env text model effective remaining attempt) w
  = Backboard.retryLoop env text model effective remaining attempt w.
Proof.
  induction remaining as [| remaining IH]; intros attempt; simpl.
  - apply alone_now.
  - apply alone_bind; [apply alone_now | intros _].
    apply alone_bind.
    + apply alone_try.
      * apply alone_bind; [apply alone_attemptRequest | intro; apply alone_now].
      * intro e. apply alone_bind; [apply alone_onAttemptError | intro; apply alone_now].
    + intros [response |]; [apply alone_now | apply IH].
Qed.

Lemma alone_sendToModel text model history systemPrompt : forall w,
  alone (BackboardAsync.sendToModel env text model history systemPrompt) w
  = Backboard.sendToModel env text model history systemPrompt w.
Proof.
  unfold BackboardAsync.sendToModel, Backboard.sendToModel, USE_MOCK.
  destruct (negb (given (BACKBOARD_API_KEY env))); [apply alone_now |].
  apply alone_retryLoop.
Qed.

End WithEnv.

End AsyncFacts.

(** ** The assistant and thread cache *)

Module CacheFacts.

Import Backboard Runs TraceFacts RetryFacts.
Local Open Scope string_scope.

Lemma same_hash_iff cached hash :
  same_hash cached hash = true <-> cached = Some hash.
Proof.
  destruct cached as [v |]; simpl.
  - rewrite String.eqb_eq. split; congruence.
  - split; discriminate.
Qed.

Lemma same_hash_false cached hash :
  cached <> Some hash -> same_hash cached hash = false.
Proof.
  intro H. destruct (same_hash cached hash) eqn:E; [| reflexivity].
  apply same_hash_iff in E. contradiction.
Qed.

(** Case analysis on every conditional and every SDK answer in the goal. *)
Ltac branches :=
  repeat (match goal with
          | |- context [if ?b then _ else _] => destruct b eqn:?
          | |- context [match ?x with inl _ => _ | inr _ => _ end] => destruct x eqn:?
          end; simpl).

Section WithEnv.

Variable env : Env.

(** [getClient] touches nothing but the client itself. *)
Lemma getClient_frame w :
  cachedAssistantId (cache (snd (getClient env w))) = cachedAssistantId (cache w) /\
  cachedThreadId (cache (snd (getClient env w))) = cachedThreadId (cache w) /\
  cachedContextHash (cache (snd (getClient env w))) = cachedContextHash (cache w).
Proof.
  unfold getClient, bind, getCache, setCache, ret, throw.
  branches; auto.
Qed.

(** The fast path: the cached id, and the world as it was. *)
Lemma getAssistant_cached systemPrompt w :
  given (cachedAssistantId (cache w)) = true ->
  cachedContextHash (cache w) = Some (hashContext systemPrompt) ->
  getAssistant env systemPrompt w = (Ok (unwrap (cachedAssistantId (cache w))), w).
Proof.
  intros Hid Hhash. apply same_hash_iff in Hhash.
  unfold getAssistant, bind, getCache, ret.
  rewrite Hid, Hhash. simpl. now rewrite Hid.
Qed.

(** Invalidation: both ids are dropped first, whatever creation then does. *)
Lemma getAssistant_invalidates systemPrompt w :
  given (cachedAssistantId (cache w)) = true ->
  cachedContextHash (cache w) <> Some (hashContext systemPrompt) ->
  cachedThreadId (cache (snd (getAssistant env systemPrompt w))) = None /\
  match fst (getAssistant env systemPrompt w) with
  | Ok id =>
      cachedAssistantId (cache (snd (getAssistant env systemPrompt w))) = Some id /\
      cachedContextHash (cache (snd (getAssistant env systemPrompt w)))
        = Some (hashContext systemPrompt) /\
      createAssistant (sdk env) (calls w) ASSISTANT_NAME systemPrompt = inr id /\
      trace (snd (getAssistant env systemPrompt w))
        = (trace w ++ [EvCreateAssistant (calls w) ASSISTANT_NAME systemPrompt])%list
  | Thrown _ =>
      cachedAssistantId (cache (snd (getAssistant env systemPrompt w))) = None
  end.
Proof.
  intros Hid Hhash. apply same_hash_false in Hhash.
  unfold getAssistant, getClient, bind, getCache, setCache, sdkCall, ret, throw.
  rewrite Hid, Hhash. simpl.
  branches; auto.
Qed.

Lemma recorded_paired systemPrompt c :
  recorded_under systemPrompt c -> paired_with systemPrompt c.
Proof. intros H _. exact H. Qed.

Lemma paired_consistent systemPrompt c :
  paired_with systemPrompt c -> cache_consistent c.
Proof. intros H Ht. exact (proj1 (H Ht)). Qed.

Lemma given_nonempty service n name description id :
  nonempty_ids service ->
  createAssistant service n name description = inr id ->
  given (Some id) = true.
Proof.
  intros Hne Hanswer. simpl. destruct (String.eqb id "") eqn:E; [| reflexivity].
  apply String.eqb_eq in E. subst id. now apply Hne in Hanswer.
Qed.

(** [getAssistant] keeps a thread from being cached without an assistant. *)
Lemma getAssistant_consistent systemPrompt w :
  cache_consistent (cache w) ->
  cache_consistent (cache (snd (getAssistant env systemPrompt w))).
Proof.
  unfold cache_consistent.
  unfold getAssistant, getClient, bind, getCache, setCache, sdkCall, ret, throw.
  simpl.
  destruct (given (cachedAssistantId (cache w))) eqn:Hid;
    destruct (same_hash (cachedContextHash (cache w)) (hashContext systemPrompt));
    simpl; rewrite ?Hid; simpl; branches;
    intros H0 Ht; first [assumption | discriminate | apply H0 in Ht; discriminate].
Qed.

(** After a [getAssistant] that returned, an assistant is cached under the
    hash of the prompt just given. *)
Lemma getAssistant_returned systemPrompt w id w1 :
  nonempty_ids (sdk env) ->
  getAssistant env systemPrompt w = (Ok id, w1) ->
  recorded_under systemPrompt (cache w1).
Proof.
  intro Hne. unfold recorded_under.
  unfold getAssistant, getClient, bind, getCache, setCache, sdkCall, ret, throw.
  simpl.
  destruct (given (cachedAssistantId (cache w))) eqn:Hid;
    destruct (same_hash (cachedContextHash (cache w)) (hashContext systemPrompt)) eqn:Hh;
    simpl; rewrite ?Hid; simpl; branches;
    intro Hrun; try discriminate; injection Hrun as <- <-;
    cbn [cache cachedAssistantId cachedThreadId cachedContextHash];
    try (split; [eapply given_nonempty; eassumption | reflexivity]).
  split; [exact Hid | now apply same_hash_iff].
Qed.

(** After a [getAssistant] that threw, no thread is cached. *)
Lemma getAssistant_thrown systemPrompt w e w1 :
  cache_consistent (cache w) ->
  getAssistant env systemPrompt w = (Thrown e, w1) ->
  given (cachedThreadId (cache w1)) = false.
Proof.
  intro H. unfold cache_consistent in H.
  assert (Hcold : given (cachedAssistantId (cache w)) = false ->
                  given (cachedThreadId (cache w)) = false).
  { intro Hid. destruct (given (cachedThreadId (cache w))); [| reflexivity].
    rewrite Hid in H. symmetry. now apply H. }
  clear H.
  unfold getAssistant, getClient, bind, getCache, setCache, sdkCall, ret, throw.
  simpl.
  destruct (given (cachedAssistantId (cache w))) eqn:Hid;
    destruct (same_hash (cachedContextHash (cache w)) (hashContext systemPrompt)) eqn:Hh;
    simpl; rewrite ?Hid; simpl; branches;
    intro Hrun; try discriminate; injection Hrun as <- <-;
    cbn [cache cachedAssistantId cachedThreadId cachedContextHash];
    try reflexivity; now apply Hcold.
Qed.

(** [getThread] leaves the assistant and its hash alone. *)
Lemma getThread_frame assistantId w :
  cachedAssistantId (cache (snd (getThread env assistantId w)))
    = cachedAssistantId (cache w) /\
  cachedContextHash (cache (snd (getThread env assistantId w)))
    = cachedContextHash (cache w).
Proof.
  unfold getThread, getClient, bind, getCache, setCache, sdkCall, ret, throw.
  simpl. branches; auto.
Qed.

(** One request: whatever its outcome, a thread cached afterwards sits
    beside an assistant recorded under the hash of the prompt. *)
Lemma attemptRequest_paired text effective w :
  nonempty_ids (sdk env) ->
  cache_consistent (cache w) ->
  paired_with effective (cache (snd (attemptRequest env text effective w))).
Proof.
  intros Hne Hw. unfold attemptRequest, bind.
  destruct (getAssistant env effective w) as [[assistantId | e] w1] eqn:Hrun.
  2:{ intro Ht. simpl in Ht.
      rewrite (getAssistant_thrown _ _ Hw Hrun) in Ht. discriminate. }
  pose proof (getAssistant_returned _ _ Hne Hrun) as Hout.
  destruct (getThread_frame assistantId w1) as [Tid Thash].
  destruct (getThread env assistantId w1) as [[threadId | e] w2]; simpl in Tid, Thash.
  2:{ apply recorded_paired. unfold recorded_under in *. simpl.
      now rewrite Tid, Thash. }
  cbv zeta.
  destruct (getClient_frame w2) as (Cid & _ & Chash).
  destruct (getClient env w2) as [[[] | e] w3]; simpl in Cid, Chash.
  2:{ apply recorded_paired. unfold recorded_under in *. simpl.
      now rewrite Cid, Chash, Tid, Thash. }
  assert (Hfinal : recorded_under effective (cache w3)).
  { unfold recorded_under in *. now rewrite Cid, Chash, Tid, Thash. }
  unfold sdkCall, throw, ret.
  branches; apply recorded_paired; exact Hfinal.
Qed.

Lemma retryLoop_paired text model effective :
  nonempty_ids (sdk env) ->
  forall remaining attempt w,
    paired_with effective (cache w) ->
    paired_with effective
      (cache (snd (retryLoop env text model effective remaining attempt w))).
Proof.
  intro Hne.
  induction remaining as [| remaining IH]; intros attempt w Hw; [exact Hw |].
  rewrite retryLoop_round.
  pose proof (@attemptRequest_paired text effective (log (EvAttempt attempt) w) Hne
                (paired_consistent Hw)) as Hkeep.
  destruct (attemptRequest env text effective (log (EvAttempt attempt) w))
    as [[response | error] w2]; simpl in *; [exact Hkeep |].
  destruct (fatal error); [exact Hkeep |].
  apply IH. destruct (attempt <? MAX_RETRIES)%nat; exact Hkeep.
Qed.

(** A loop that makes at least one round. *)
Lemma retryLoop_pairs text model effective remaining attempt w :
  nonempty_ids (sdk env) ->
  cache_consistent (cache w) ->
  paired_with effective
    (cache (snd (retryLoop env text model effective (S remaining) attempt w))).
Proof.
  intros Hne Hw. rewrite retryLoop_round.
  pose proof (@attemptRequest_paired text effective (log (EvAttempt attempt) w) Hne Hw)
    as Hkeep.
  destruct (attemptRequest env text effective (log (EvAttempt attempt) w))
    as [[response | error] w2]; simpl in *; [exact Hkeep |].
  destruct (fatal error); [exact Hkeep |].
  apply retryLoop_paired; [exact Hne |].
  destruct (attempt <? MAX_RETRIES)%nat; exact Hkeep.
Qed.

Lemma sendToModel_cache text model history systemPrompt w :
  nonempty_ids (sdk env) ->
  cache_consistent (cache w) ->
  cache_consistent (cache (snd (sendToModel env text model history systemPrompt w))) /\
  (given (BACKBOARD_API_KEY env) = true ->
   paired_with (effectiveSystemPrompt systemPrompt)
     (cache (snd (sendToModel env text model history systemPrompt w)))).
Proof.
  intros Hne Hw. unfold sendToModel, USE_MOCK.
  destruct (given (BACKBOARD_API_KEY env)); simpl negb; cbv iota.
  - pose proof (@retryLoop_pairs text model (effectiveSystemPrompt systemPrompt)
                  MAX_RETRIES 0 w Hne Hw) as H.
    split; [eapply paired_consistent; exact H | intros _; exact H].
  - split; [exact Hw | discriminate].
Qed.

(** The first turn of [getAssistant] under a prompt whose hash is not the
    one recorded: both ids are cleared and the creation is requested; the
    turn that follows records the answer. *)
Lemma getAssistant_first_turn systemPrompt w :
  given (cachedAssistantId (cache w)) = true ->
  cachedContextHash (cache w) <> Some (hashContext systemPrompt) ->
  client (cache w) = true \/ given (BACKBOARD_API_KEY env) = true ->
  exists resume rest w1,
    BackboardAsync.getAssistant env systemPrompt w
      = (BackboardAsync.Pending resume rest, w1) /\
    cachedAssistantId (cache w1) = None /\
    cachedThreadId (cache w1) = None /\
    trace w1 = (trace w ++ [EvCreateAssistant (calls w) ASSISTANT_NAME systemPrompt])%list /\
    forall w2,
      match createAssistant (sdk env) (calls w) ASSISTANT_NAME systemPrompt with
      | inr id =>
          rest w2 = BackboardAsync.Settled (Ok id) /\
          cachedAssistantId (cache (resume w2)) = Some id /\
          cachedContextHash (cache (resume w2)) = Some (hashContext systemPrompt) /\
          cachedThreadId (cache (resume w2)) = cachedThreadId (cache w2)
      | inl e => rest w2 = BackboardAsync.Settled (Thrown e) /\ resume w2 = w2
      end.
Proof.
  intros Hid Hhash Hclient. apply same_hash_false in Hhash.
  unfold BackboardAsync.getAssistant, BackboardAsync.bind, BackboardAsync.now,
    BackboardAsync.await, getClient, bind, getCache, setCache, sdkCall, ret, throw.
  cbn [fst snd BackboardAsync.andThen]. rewrite Hid, Hhash.
  cbn [andb negb fst snd BackboardAsync.andThen cache cachedAssistantId given client].
  destruct (client (cache w)) eqn:Hc.
  - cbn.
    destruct (createAssistant (sdk env) (calls w) ASSISTANT_NAME systemPrompt);
      cbn; eexists _, _, _; (split; [reflexivity |]);
      (split; [reflexivity |]); (split; [reflexivity |]); (split; [reflexivity |]);
      intro w2; cbn; repeat split.
  - destruct Hclient as [Hclient | Hkey]; [discriminate |]. rewrite Hkey.
    cbn.
    destruct (createAssistant (sdk env) (calls w) ASSISTANT_NAME systemPrompt);
      cbn; eexists _, _, _; (split; [reflexivity |]);
      (split; [reflexivity |]); (split; [reflexivity |]); (split; [reflexivity |]);
      intro w2; cbn; repeat split.
Qed.

(** The fast path of the [async] function: settled at once, nothing changed. *)
Lemma getAssistant_settled systemPrompt w :
  given (cachedAssistantId (cache w)) = true ->
  cachedContextHash (cache w) = Some (hashContext systemPrompt) ->
  BackboardAsync.getAssistant env systemPrompt w
    = (BackboardAsync.Settled (Ok (unwrap (cachedAssistantId (cache w)))), w).
Proof.
  intros Hid Hhash. apply same_hash_iff in Hhash.
  unfold BackboardAsync.getAssistant, BackboardAsync.bind, BackboardAsync.now,
    getCache, setCache, ret.
  cbn [fst snd BackboardAsync.andThen]. rewrite Hid, Hhash.
  cbn [andb negb fst snd BackboardAsync.andThen]. rewrite Hid. reflexivity.
Qed.

End WithEnv.

(** C6, as amended.  [getAssistant] settles at once with the cached id,
    with no SDK call and nothing changed, when an assistant is cached under
    the hash of the prompt.  When one is cached under another hash, its first
    turn clears both ids and requests the creation of a new assistant, and
    is then suspended; the turn that resumes it records the new id under the
    new hash, or throws if the creation failed.  For calls that no other call
    overlaps, against a service that returns no empty assistant id: a thread
    is never cached without an assistant, neither after [getAssistant] nor
    after a whole run of [sendToModel]; after a [getAssistant] that returned,
    also when a [getThread] follows, and after any run of [sendToModel] with
    an API key, a cached thread sits beside a cached assistant recorded under
    the hash of the prompt in force. *)
Theorem assistant_cache_invariant :
  forall env systemPrompt w,
    (given (cachedAssistantId (cache w)) = true ->
     cachedContextHash (cache w) = Some (hashContext systemPrompt) ->
     BackboardAsync.getAssistant env systemPrompt w
       = (BackboardAsync.Settled (Ok (unwrap (cachedAssistantId (cache w)))), w)) /\
    (given (cachedAssistantId (cache w)) = true ->
     cachedContextHash (cache w) <> Some (hashContext systemPrompt) ->
     client (cache w) = true \/ given (BACKBOARD_API_KEY env) = true ->
     exists resume rest w1,
       BackboardAsync.getAssistant env systemPrompt w
         = (BackboardAsync.Pending resume rest, w1) /\
       cachedAssistantId (cache w1) = None /\
       cachedThreadId (cache w1) = None /\
       trace w1
         = (trace w ++ [EvCreateAssistant (calls w) ASSISTANT_NAME systemPrompt])%list /\
       forall w2,
         match createAssistant (sdk env) (calls w) ASSISTANT_NAME systemPrompt with
         | inr id =>
             rest w2 = BackboardAsync.Settled (Ok id) /\
             cachedAssistantId (cache (resume w2)) = Some id /\
             cachedContextHash (cache (resume w2)) = Some (hashContext systemPrompt) /\
             cachedThreadId (cache (resume w2)) = cachedThreadId (cache w2)
         | inl e => rest w2 = BackboardAsync.Settled (Thrown e) /\ resume w2 = w2
         end) /\
    (nonempty_ids (sdk env) ->
     cache_consistent (cache w) ->
     cache_consistent
       (cache (snd (BackboardAsync.alone
                      (BackboardAsync.getAssistant env systemPrompt) w))) /\
     (forall id w1,
        BackboardAsync.alone (BackboardAsync.getAssistant env systemPrompt) w
          = (Ok id, w1) ->
        paired_with systemPrompt (cache w1) /\
        forall assistantId,
          paired_with systemPrompt
            (cache (snd (BackboardAsync.alone
                           (BackboardAsync.getThread env assistantId) w1)))) /\
     (forall text model history prompt,
        cache_consistent
          (cache (snd (BackboardAsync.alone
                         (BackboardAsync.sendToModel env text model history prompt) w))) /\
        (given (BACKBOARD_API_KEY env) = true ->
         paired_with (effectiveSystemPrompt prompt)
           (cache (snd (BackboardAsync.alone
                          (BackboardAsync.sendToModel env text model history prompt)
                          w)))))).
Proof.
  intros env systemPrompt w.
  split; [apply getAssistant_settled |].
  split; [apply getAssistant_first_turn |].
  intros Hne Hw. split; [| split].
  - rewrite AsyncFacts.alone_getAssistant. now apply getAssistant_consistent.
  - intros id w1 Hrun. rewrite AsyncFacts.alone_getAssistant in Hrun.
    pose proof (getAssistant_returned env systemPrompt w Hne Hrun) as Hout.
    split; [now apply recorded_paired |].
    intro assistantId. rewrite AsyncFacts.alone_getThread.
    destruct (getThread_frame env assistantId w1) as [Tid Thash].
    apply recorded_paired. unfold recorded_under in *. now rewrite Tid, Thash.
  - intros text model history prompt. rewrite AsyncFacts.alone_sendToModel.
    now apply sendToModel_cache.
Qed.

Lemma assistant_cache_invariant_witness :
  BackboardAsync.getAssistant (Scenarios.envWith Scenarios.chattySdk)
    "an earlier prompt" Scenarios.staleWorld
  = (BackboardAsync.Settled (Ok "asst_0"), Scenarios.staleWorld) /\
  (exists resume rest w1,
     BackboardAsync.getAssistant (Scenarios.envWith Scenarios.chattySdk)
       "a new prompt" Scenarios.staleWorld
     = (BackboardAsync.Pending resume rest, w1) /\
     cachedAssistantId (cache w1) = None /\
     cachedThreadId (cache w1) = None /\
     trace w1 = [EvCreateAssistant 2 ASSISTANT_NAME "a new prompt"]) /\
  paired_with "a new prompt"
    (cache (snd (BackboardAsync.alone
                   (BackboardAsync.sendToModel (Scenarios.envWith Scenarios.chattySdk)
                      "play" "gemini" None (Some "a new prompt"))
                   Scenarios.staleWorld))).
Proof.
  destruct (@assistant_cache_invariant (Scenarios.envWith Scenarios.chattySdk)
              "an earlier prompt" Scenarios.staleWorld) as (Hfast & _ & _).
  destruct (@assistant_cache_invariant (Scenarios.envWith Scenarios.chattySdk)
              "a new prompt" Scenarios.staleWorld) as (_ & Hclear & Hkept).
  split; [apply Hfast; reflexivity |]. split.
  - destruct Hclear as (resume & rest & w1 & Erun & Ha & Ht & Etrace & _).
    + reflexivity.
    + vm_compute. discriminate.
    + left. reflexivity.
    + exists resume, rest, w1. repeat split; assumption.
  - assert (Hne : nonempty_ids (sdk (Scenarios.envWith Scenarios.chattySdk)))
      by (intros n name description; discriminate).
    assert (Hw : cache_consistent (cache Scenarios.staleWorld))
      by (intros _; reflexivity).
    destruct (Hkept Hne Hw) as (_ & _ & Hrun).
    destruct (Hrun "play" "gemini" None (Some "a new prompt")) as [_ Hpaired].
    apply Hpaired. reflexivity.
Defined.

(** C6, as stated, fails when calls overlap.  A second request under
    another prompt begins while the first awaits createThread: it finds the
    first's assistant under a hash that is not its own, clears both ids and
    awaits createAssistant; the first then goes on and caches its thread.
    The cache now holds a thread and no assistant. *)
Lemma overlapping_calls_break_invariant :
  cache_consistent (cache initialWorld) /\
  nonempty_ids Scenarios.chattySdk /\
  cachedThreadId
    (cache (snd (BackboardAsync.interleave Overlap.turns
                   Overlap.firstCall Overlap.secondCall initialWorld)))
    = Some "thread_1" /\
  cachedAssistantId
    (cache (snd (BackboardAsync.interleave Overlap.turns
                   Overlap.firstCall Overlap.secondCall initialWorld)))
    = None /\
  ~ cache_consistent
      (cache (snd (BackboardAsync.interleave Overlap.turns
                     Overlap.firstCall Overlap.secondCall initialWorld))).
Proof.
  assert (Hthread :
    cachedThreadId
      (cache (snd (BackboardAsync.interleave Overlap.turns
                     Overlap.firstCall Overlap.secondCall initialWorld)))
    = Some "thread_1") by (vm_compute; reflexivity).
  assert (Hassistant :
    cachedAssistantId
      (cache (snd (BackboardAsync.interleave Overlap.turns
                     Overlap.firstCall Overlap.secondCall initialWorld)))
    = None) by (vm_compute; reflexivity).
  split; [intro H; discriminate H |].
  split; [intros n name description; discriminate |].
  split; [exact Hthread |]. split; [exact Hassistant |].
  unfold cache_consistent. rewrite Hthread, Hassistant. intro H.
  specialize (H eq_refl). discriminate.
Qed.

(** An empty assistant id is no cached assistant to the code, and the thread
    created after it is cached beside none. *)
Example empty_assistant_id_is_not_cached :
  cache (snd (BackboardAsync.alone
                (BackboardAsync.sendToModel (Scenarios.envWith Scenarios.blankIdSdk)
                   "play" "gemini" None (Some "a new prompt"))
                initialWorld))
  = {| client := true;
       cachedAssistantId := Some "";
       cachedThreadId := Some "thread_1";
       cachedContextHash := Some (hashContext "a new prompt") |}.
Proof. vm_compute. reflexivity. Qed.

(** A change of prompt drops the thread along with the assistant. *)
Example prompt_change_drops_thread :
  cache (snd (getAssistant (Scenarios.envWith Scenarios.chattySdk)
                "a new prompt" Scenarios.staleWorld))
  = {| client := true;
       cachedAssistantId := Some "asst_1";
       cachedThreadId := None;
       cachedContextHash := Some (hashContext "a new prompt") |}.
Proof. vm_compute. reflexivity. Qed.

End CacheFacts.

(** ** The chat panel *)

Module ChatFacts.

Import Backboard ChatPanel.
Local Open Scope string_scope.

Section HandleSend.

Variables Project SampleLibrary DAWContext Command ChatMessage : Type.
Variable buildDAWContext : Project -> SampleLibrary -> DAWContext.
Variable generateSystemPrompt : DAWContext -> string.
Variable ext : Externals SampleLibrary Command ChatMessage.

(** On a delivered command result, [handleSend] is its preamble, the
    execution of the result, and the release of the pending flag. *)
Lemma handleSend_delivered st project sampleLibrary backboardResponse :
  delivered buildDAWContext generateSystemPrompt ext st project sampleLibrary
            backboardResponse ->
  handleSend buildDAWContext generateSystemPrompt ext st project =
  (preamble buildDAWContext generateSystemPrompt st project sampleLibrary
   ++ catching (runCommandResult ext sampleLibrary backboardResponse) onCommandError
   ++ [SetPending false])%list.
Proof.
  intros (Htext & Hpending & Hlib & response & apiResponse & d
          & Hfetch & Hok & Hjson & Hsuccess & Hdata & Hcommand).
  unfold handleSend, requestAndRun, preamble.
  rewrite Htext, Hpending, Hlib. cbv zeta. rewrite Hfetch, Hok.
  cbn [negb]. rewrite Hjson, Hsuccess. cbn [negb]. rewrite Hdata.
  cbn [option_map]. rewrite Hcommand.
  reflexivity.
Qed.

Lemma given_some (id : string) : id <> "" -> given (Some id) = true.
Proof. intro H. simpl. apply String.eqb_neq in H. now rewrite H. Qed.

(** C4.  When the batch executor reports [success = false], the agent's
    message is added with status error exactly when [successCount] is 0, and
    with status sent exactly when at least one action succeeded. *)
Theorem failed_batch_message_status :
  forall st project sampleLibrary backboardResponse batchResult,
    delivered buildDAWContext generateSystemPrompt ext st project sampleLibrary
              backboardResponse ->
    isBatch backboardResponse = true ->
    executeBatch ext (batchDataOf backboardResponse) sampleLibrary = inr batchResult ->
    success batchResult = false ->
    exists status,
      handleSend buildDAWContext generateSystemPrompt ext st project =
      (preamble buildDAWContext generateSystemPrompt st project sampleLibrary
       ++ [AddMessage agent (message batchResult) status; SetPending false])%list /\
      (status = error <-> successCount batchResult = 0%nat) /\
      (status = sent <-> (0 < successCount batchResult)%nat).
Proof.
  intros st project sampleLibrary backboardResponse batchResult
         Hdelivered Hbatch Hrun Hfailed.
  rewrite (handleSend_delivered Hdelivered).
  unfold runCommandResult. rewrite Hbatch. cbv zeta. rewrite Hrun, Hfailed.
  destruct (successCount batchResult) as [| k] eqn:Hcount.
  - exists error. split; [reflexivity |].
    split; split; intro H; try reflexivity; try discriminate; lia.
  - exists sent. split; [reflexivity |].
    split; split; intro H; try reflexivity; try discriminate; lia.
Qed.

(** C5.  On a successful batch the undo group id, when present, is recorded
    with [setLastCommand], and nothing is recorded when it is absent; on a
    successful single command [result.data.commandId] is recorded when
    present; on a failed single command nothing is recorded. *)
Theorem last_command_recorded :
  forall st project sampleLibrary backboardResponse,
    delivered buildDAWContext generateSystemPrompt ext st project sampleLibrary
              backboardResponse ->
    (forall batchResult,
       isBatch backboardResponse = true ->
       executeBatch ext (batchDataOf backboardResponse) sampleLibrary
         = inr batchResult ->
       success batchResult = true ->
       (forall id, undoGroupId batchResult = Some id -> id <> "" ->
          handleSend buildDAWContext generateSystemPrompt ext st project =
          (preamble buildDAWContext generateSystemPrompt st project sampleLibrary
           ++ [AddMessage agent (message batchResult) sent;
               SetLastCommand id; SetPending false])%list) /\
       (undoGroupId batchResult = None ->
          handleSend buildDAWContext generateSystemPrompt ext st project =
          (preamble buildDAWContext generateSystemPrompt st project sampleLibrary
           ++ [AddMessage agent (message batchResult) sent;
               SetPending false])%list)) /\
    (forall command result,
       isBatch backboardResponse = false ->
       parseAIResponse ext backboardResponse = inr command ->
       executeCommand ext command = inr result ->
       (cmd_success result = true ->
        forall id, commandId result = Some id -> id <> "" ->
          handleSend buildDAWContext generateSystemPrompt ext st project =
          (preamble buildDAWContext generateSystemPrompt st project sampleLibrary
           ++ [AddMessage agent (cmd_message result) sent;
               SetLastCommand id; SetPending false])%list) /\
       (cmd_success result = true -> commandId result = None ->
          handleSend buildDAWContext generateSystemPrompt ext st project =
          (preamble buildDAWContext generateSystemPrompt st project sampleLibrary
           ++ [AddMessage agent (cmd_message result) sent;
               SetPending false])%list) /\
       (cmd_success result = false ->
          handleSend buildDAWContext generateSystemPrompt ext st project =
          (preamble buildDAWContext generateSystemPrompt st project sampleLibrary
           ++ [AddMessage agent ("Error: " ++ cmd_message result) error;
               SetPending false])%list /\
          forall id,
            ~ In (SetLastCommand id)
                 (handleSend buildDAWContext generateSystemPrompt ext st project))).
Proof.
  intros st project sampleLibrary backboardResponse Hdelivered.
  rewrite (handleSend_delivered Hdelivered). split.
  - intros batchResult Hbatch Hrun Hok.
    unfold runCommandResult. rewrite Hbatch. cbv zeta. rewrite Hrun, Hok.
    split.
    + intros id Hid Hne. rewrite Hid, (given_some Hne). reflexivity.
    + intros Hid. rewrite Hid. reflexivity.
  - intros command result Hsingle Hparse Hrun.
    unfold runCommandResult. rewrite Hsingle, Hparse, Hrun.
    split; [| split].
    + intros Hok id Hid Hne. rewrite Hok, Hid, (given_some Hne). reflexivity.
    + intros Hok Hid. rewrite Hok, Hid. reflexivity.
    + intros Hfailed. rewrite Hfailed. split; [reflexivity |].
      intros id Hin. unfold preamble, catching in Hin. simpl in Hin.
      repeat (destruct Hin as [Hin | Hin]; [discriminate |]).
      exact Hin.
Qed.

End HandleSend.

(** Discharges [delivered] on a concrete panel by evaluation. *)
Ltac delivered_by_evaluation :=
  split; [reflexivity |]; split; [reflexivity |]; split; [reflexivity |];
  eexists; eexists; eexists;
  split; [reflexivity |]; split; [reflexivity |]; split; [reflexivity |];
  split; [reflexivity |]; split; reflexivity.

Lemma failed_batch_message_status_witness :
  exists status,
    handleSend (fun (p : string) (_ : unit) => p) Scenarios.promptFor
      (Scenarios.panelExternals Scenarios.partialBatch Scenarios.playResult)
      (Scenarios.typing "add a note") "Demo"
    = (preamble (fun (p : string) (_ : unit) => p) Scenarios.promptFor
         (Scenarios.typing "add a note") "Demo" tt
       ++ [AddMessage agent "2 of 3 actions applied" status; SetPending false])%list /\
    (status = error <-> 2%nat = 0%nat) /\
    (status = sent <-> (0 < 2)%nat).
Proof.
  apply (@failed_batch_message_status string unit string unit unit
           (fun p _ => p) Scenarios.promptFor
           (Scenarios.panelExternals Scenarios.partialBatch Scenarios.playResult)
           (Scenarios.typing "add a note") "Demo" tt
           (mockBackboardResponse "add a note" "gemini"
              (Some (Scenarios.promptFor "Demo")))
           Scenarios.partialBatch);
    [delivered_by_evaluation | reflexivity | reflexivity | reflexivity].
Defined.

Lemma last_command_recorded_witness :
  handleSend (fun (p : string) (_ : unit) => p) Scenarios.promptFor
    (Scenarios.panelExternals Scenarios.fullBatch Scenarios.playResult)
    (Scenarios.typing "add a note") "Demo"
  = (preamble (fun (p : string) (_ : unit) => p) Scenarios.promptFor
       (Scenarios.typing "add a note") "Demo" tt
     ++ [AddMessage agent "3 actions applied" sent;
         SetLastCommand "ai_batch_8"; SetPending false])%list.
Proof.
  assert (H : delivered (fun (p : string) (_ : unit) => p) Scenarios.promptFor
                (Scenarios.panelExternals Scenarios.fullBatch Scenarios.playResult)
                (Scenarios.typing "add a note") "Demo" tt
                (mockBackboardResponse "add a note" "gemini"
                   (Some (Scenarios.promptFor "Demo"))))
    by delivered_by_evaluation.
  destruct (@last_command_recorded string unit string unit unit
              (fun p _ => p) Scenarios.promptFor
              (Scenarios.panelExternals Scenarios.fullBatch Scenarios.playResult)
              (Scenarios.typing "add a note") "Demo" tt _ H) as [Hbatch _].
  destruct (Hbatch Scenarios.fullBatch eq_refl eq_refl eq_refl) as [Hrecorded _].
  apply (Hrecorded "ai_batch_8"); [reflexivity | discriminate].
Defined.

End ChatFacts.

(** ** The system prompt, from the panel to the SDK *)

Module PromptFacts.

Import Backboard Runs TraceFacts ChatPanel.
Local Open Scope string_scope.

Section Sending.

Variable env : Env.
Variable E : Event -> Prop.
Variables text model effective : string.

Hypothesis E_assistant : forall n, E (EvCreateAssistant n ASSISTANT_NAME effective).
Hypothesis E_thread : forall n assistantId, E (EvCreateThread n assistantId).
Hypothesis E_message : forall n threadId request, E (EvAddMessage n threadId request).
Hypothesis E_attempt : forall attempt, E (EvAttempt attempt).
Hypothesis E_failed : forall n error, E (EvAttemptFailed n error).
Hypothesis E_sleep : forall ms, E (EvSleep ms).

Lemma emits_onAttemptError attempt error : emits E (onAttemptError attempt error).
Proof.
  unfold onAttemptError, sleep.
  repeat first [ apply emits_emit; auto | emits_step ].
Qed.

Lemma emits_retryLoop : forall remaining attempt,
  emits E (retryLoop env text model effective remaining attempt).
Proof.
  induction remaining as [| remaining IH]; intro attempt; simpl.
  - apply emits_ret.
  - apply emits_bind; [apply emits_emit; auto | intros _].
    apply emits_bind.
    + apply emits_try.
      * apply emits_bind; [now apply emits_attemptRequest | intro; apply emits_ret].
      * intro error. apply emits_bind; [apply emits_onAttemptError | intro; apply emits_ret].
    + intros [response |]; [apply emits_ret | apply IH].
Qed.

End Sending.

(** Every assistant a run creates is described by the effective prompt. *)
Lemma sendToModel_description env text model history systemPrompt w :
  exists l,
    trace (snd (sendToModel env text model history systemPrompt w))
      = (trace w ++ l)%list /\
    forall n name description,
      In (EvCreateAssistant n name description) l ->
      description = effectiveSystemPrompt systemPrompt.
Proof.
  set (E := fun e => forall n name description,
                 e = EvCreateAssistant n name description ->
                 description = effectiveSystemPrompt systemPrompt).
  assert (H : emits E (sendToModel env text model history systemPrompt)).
  { unfold sendToModel, USE_MOCK.
    destruct (given (BACKBOARD_API_KEY env)); simpl negb; cbv iota.
    - apply emits_retryLoop; unfold E; intros; try discriminate.
      match goal with H : _ = _ |- _ => now injection H end.
    - apply emits_throw. }
  destruct (H w) as (l & El & Fl). exists l. split; [exact El |].
  intros n name description Hin. rewrite Forall_forall in Fl.
  exact (Fl _ Hin n name description eq_refl).
Qed.

Lemma effectiveSystemPrompt_given s :
  s <> "" -> effectiveSystemPrompt (Some s) = s.
Proof.
  intro H. unfold effectiveSystemPrompt. simpl.
  apply String.eqb_neq in H. now rewrite H.
Qed.

Section Posting.

Variables Project SampleLibrary DAWContext Command ChatMessage : Type.
Variable buildDAWContext : Project -> SampleLibrary -> DAWContext.
Variable generateSystemPrompt : DAWContext -> string.
Variable ext : Externals SampleLibrary Command ChatMessage.

(** Case analysis on every outcome the goal still depends on. *)
Ltac outcomes :=
  repeat (match goal with
          | |- context [if ?b then _ else _] => destruct b
          | |- context [match ?x with inl _ => _ | inr _ => _ end] => destruct x
          | |- context [match ?x with Some _ => _ | None => _ end] => destruct x
          | |- context [match ?x with ErrorObj _ _ => _ | OtherValue => _ end] =>
              destruct x
          end; simpl).

(** Membership of a request in an explicit list of effects. *)
Ltac no_post :=
  simpl;
  let H := fresh "Hin" in
  intro H;
  repeat (destruct H as [H | H]; [discriminate |]);
  try contradiction.

Lemma runCommandResult_no_post sampleLibrary backboardResponse request :
  ~ In (PostChat request)
       (catching (runCommandResult ext sampleLibrary backboardResponse)
                 onCommandError).
Proof.
  unfold runCommandResult, catching, onCommandError, done, raised.
  outcomes; no_post.
Qed.

(** The only request of a run is the one built from the project at hand. *)
Lemma handleSend_posts st project request :
  In (PostChat request)
     (handleSend buildDAWContext generateSystemPrompt ext st project) ->
  exists sampleLibrary,
    loadSampleLibrary ext = inr sampleLibrary /\
    request = requestBody st (JsString.trim (inputText st))
                (generateSystemPrompt (buildDAWContext project sampleLibrary)).
Proof.
  unfold handleSend.
  destruct (String.eqb (JsString.trim (inputText st)) "" || isPending st);
    [intros [] |].
  cbv zeta. intro Hin.
  apply in_app_or in Hin as [Hin | Hin].
  { exfalso. simpl in Hin.
    repeat (destruct Hin as [Hin | Hin]; [discriminate |]). exact Hin. }
  apply in_app_or in Hin as [Hin | Hin];
    [| destruct Hin as [Hin | []]; discriminate].
  unfold requestAndRun in Hin.
  destruct (loadSampleLibrary ext) as [e | sampleLibrary].
  { exfalso. revert Hin. unfold catching, raised, onRequestError.
    destruct e as [[] m |]; simpl; try destruct (JsString.includes "fetch" m);
      no_post. }
  exists sampleLibrary. split; [reflexivity |].
  cbv zeta in Hin.
  set (request0 := requestBody st (JsString.trim (inputText st))
                     (generateSystemPrompt (buildDAWContext project sampleLibrary))) in *.
  assert (Hhead : forall inner : Run ChatMessage,
            In (PostChat request) (catching (after [PostChat request0] inner) onRequestError) ->
            request = request0 \/
            In (PostChat request) (catching inner onRequestError)).
  { intros [effects [e |]]; unfold catching, after; simpl;
      (intros [H | H]; [left; now injection H | right; exact H]). }
  apply Hhead in Hin as [-> | Hin]; [reflexivity |].
  exfalso. revert Hin.
  destruct (fetch ext request0) as [e | response].
  { unfold catching, raised, onRequestError.
    destruct e as [[] m |]; simpl; try destruct (JsString.includes "fetch" m);
      no_post. }
  destruct (ok response); cbn [negb].
  2:{ unfold catching, raised, onRequestError. no_post. }
  destruct (json response) as [e | apiResponse].
  { unfold catching, raised, onRequestError.
    destruct e as [[] m |]; simpl; try destruct (JsString.includes "fetch" m);
      no_post. }
  destruct (api_success apiResponse); cbn [negb].
  2:{ unfold catching, raised, onRequestError. no_post. }
  destruct (data apiResponse) as [d |]; cbn [option_map].
  - destruct (commandResult d) as [backboardResponse |].
    + unfold catching at 1, done. cbn [fst snd].
      apply runCommandResult_no_post.
    + unfold catching, done. destruct (given (data_message d)); no_post.
  - unfold catching, done. simpl. no_post.
Qed.

End Posting.

(** C7, as amended.  Every request [handleSend] posts carries the system
    prompt generated, when the message is sent, from the project in the
    store; [sendToModel] describes every assistant it creates by the prompt
    it was given, and puts the default prompt in its place only when the
    argument is missing or is the empty string. *)
Theorem system_prompt_is_sent_and_used :
  (forall (Project SampleLibrary DAWContext Command ChatMessage : Type)
          (buildDAWContext : Project -> SampleLibrary -> DAWContext)
          (generateSystemPrompt : DAWContext -> string)
          (ext : Externals SampleLibrary Command ChatMessage)
          (st : PanelState ChatMessage) (project : Project)
          (request : ChatRequest ChatMessage),
     In (PostChat request)
        (handleSend buildDAWContext generateSystemPrompt ext st project) ->
     exists sampleLibrary,
       loadSampleLibrary ext = inr sampleLibrary /\
       systemPrompt request
         = generateSystemPrompt (buildDAWContext project sampleLibrary)) /\
  (forall env text model history prompt w,
     exists l,
       trace (snd (sendToModel env text model history prompt w))
         = (trace w ++ l)%list /\
       forall n name description,
         In (EvCreateAssistant n name description) l ->
         description = effectiveSystemPrompt prompt) /\
  (forall s, s <> "" -> effectiveSystemPrompt (Some s) = s) /\
  effectiveSystemPrompt None = DEFAULT_SYSTEM_PROMPT /\
  effectiveSystemPrompt (Some "") = DEFAULT_SYSTEM_PROMPT.
Proof.
  split; [| split; [| split; [| split]]].
  - intros until request. intro Hin.
    apply handleSend_posts in Hin as (sampleLibrary & Hlib & ->).
    exists sampleLibrary. split; [exact Hlib | reflexivity].
  - intros. apply sendToModel_description.
  - apply effectiveSystemPrompt_given.
  - reflexivity.
  - reflexivity.
Qed.

Lemma system_prompt_is_sent_and_used_witness :
  exists sampleLibrary : unit,
    systemPrompt
      (requestBody (Scenarios.typing "add a note") "add a note"
         (Scenarios.promptFor "Demo"))
    = Scenarios.promptFor ((fun (p : string) (_ : unit) => p) "Demo" sampleLibrary).
Proof.
  destruct system_prompt_is_sent_and_used as [Hsent _].
  destruct (Hsent string unit string unit unit
              (fun p _ => p) Scenarios.promptFor
              (Scenarios.panelExternals Scenarios.fullBatch Scenarios.playResult)
              (Scenarios.typing "add a note") "Demo"
              (requestBody (Scenarios.typing "add a note") "add a note"
                 (Scenarios.promptFor "Demo")))
    as (sampleLibrary & _ & Hprompt).
  - vm_compute. auto 10.
  - exists sampleLibrary. exact Hprompt.
Defined.

(** C7, as stated, fails: an empty prompt is an argument given, and
    [sendToModel] still creates its assistant from the default prompt. *)
Lemma empty_prompt_is_replaced :
  hd_error (filter is_sdk_event
              (trace (snd (sendToModel (Scenarios.envWith Scenarios.chattySdk)
                             "play" "gemini" None (Some "") initialWorld))))
    = Some (EvCreateAssistant 0 ASSISTANT_NAME DEFAULT_SYSTEM_PROMPT) /\
  DEFAULT_SYSTEM_PROMPT <> "".
Proof. vm_compute. split; [reflexivity | discriminate]. Qed.

End PromptFacts.

(** ** Symbolic references *)

Module ReferenceFacts.

Import BatchExecutor.
Local Open Scope string_scope.











(** The note the mock asks for lands in the pattern created last. *)
Example mock_note_lands_in_latest_pattern :
  mutationsOf {| patternIds := ["pat-1"; "pat-2"]; clipIds := [] |}
    (Backboard.mockBackboardResponse "add a note" "gemini" None)
  = [ Some {| command := Json.Str "addNote";
              arguments := [("patternId", Json.Str "pat-2"); ("pitch", Json.int 60);
                            ("startTick", Json.int 0); ("durationTick", Json.int 96);
                            ("velocity", Json.int 100)] |} ].
Proof. reflexivity. Qed.

End ReferenceFacts.

(** ** The context hash *)

Module HashFacts.

Import Backboard Measures.
Local Open Scope string_scope.
Local Open Scope Z_scope.

Lemma to_int32_range z : - 2 ^ 31 <= to_int32 z < 2 ^ 31.
Proof.
  unfold to_int32.
  pose proof (Z.mod_pos_bound (z + 2 ^ 31) (2 ^ 32) ltac:(lia)). lia.
Qed.

(** [to_int32] sees its argument only modulo 2^32. *)
Lemma to_int32_absorbs a b k : to_int32 (k * to_int32 a + b) = to_int32 (k * a + b).
Proof.
  unfold to_int32. f_equal.
  replace (k * ((a + 2 ^ 31) mod 2 ^ 32 - 2 ^ 31) + b + 2 ^ 31)
    with (k * ((a + 2 ^ 31) mod 2 ^ 32) + (b + 2 ^ 31 - k * 2 ^ 31)) by ring.
  replace (k * a + b + 2 ^ 31)
    with (k * (a + 2 ^ 31) + (b + 2 ^ 31 - k * 2 ^ 31)) by ring.
  rewrite Z.add_mod by lia.
  rewrite Z.mul_mod_idemp_r by lia.
  rewrite <- Z.add_mod by lia. reflexivity.
Qed.

(** One round of the loop is [31 * hash + char], wrapped. *)
Lemma hash_step_31 hash c :
  hash_step hash c = to_int32 (31 * hash + Z.of_N (JsString.code c)).
Proof.
  unfold hash_step. cbv zeta. rewrite Z.land_diag, Z.shiftl_mul_pow2 by lia.
  replace (to_int32 (hash * 2 ^ 5) - hash + Z.of_N (JsString.code c))
    with (1 * to_int32 (hash * 2 ^ 5) + (Z.of_N (JsString.code c) - hash)) by ring.
  rewrite to_int32_absorbs. f_equal. ring.
Qed.

Lemma hash_loop_poly31 : forall s acc,
  hash_loop (to_int32 acc) s = to_int32 (poly31 acc s).
Proof.
  induction s as [| c t IH]; intro acc; simpl; [reflexivity |].
  rewrite hash_step_31, to_int32_absorbs. apply IH.
Qed.

Lemma hash_loop_app : forall a b hash,
  hash_loop hash (a ++ b) = hash_loop (hash_loop hash a) b.
Proof. induction a as [| c t IH]; intros b hash; simpl; auto. Qed.

(** X1.  The number [hashContext] prints is the base-31 polynomial of the
    code units, wrapped into the signed 32-bit range. *)
Theorem hashContext_is_wrapped_polynomial : forall context : string,
  hash_loop 0 context = to_int32 (poly31 0 context) /\
  - 2 ^ 31 <= hash_loop 0 context < 2 ^ 31 /\
  hashContext context = toString16 (to_int32 (poly31 0 context)).
Proof.
  intro context.
  assert (H : hash_loop 0 context = to_int32 (poly31 0 context)).
  { change 0 with (to_int32 0) at 1. apply hash_loop_poly31. }
  split; [exact H |]. split.
  - rewrite H. apply to_int32_range.
  - unfold hashContext. now rewrite H.
Qed.

Lemma Aa_BB_collide hash : hash_loop hash "Aa" = hash_loop hash "BB".
Proof.
  simpl. rewrite !hash_step_31, !to_int32_absorbs. f_equal.
  change (Z.of_N (JsString.code "A")) with 65.
  change (Z.of_N (JsString.code "a")) with 97.
  change (Z.of_N (JsString.code "B")) with 66.
  ring.
Qed.

(** X2.  Prompts that differ only by Aa against BB somewhere have the same
    hash, so an assistant cached for one is handed out for the other with no
    SDK call. *)
Theorem colliding_prompt_reuses_assistant :
  forall env (before after id : string) w,
    cachedAssistantId (cache w) = Some id ->
    id <> "" ->
    cachedContextHash (cache w)
      = Some (hashContext (before ++ "Aa" ++ after)%string) ->
    hashContext (before ++ "BB" ++ after)%string
      = hashContext (before ++ "Aa" ++ after)%string /\
    getAssistant env (before ++ "BB" ++ after)%string w = (Ok id, w).
Proof.
  intros env before after id w Hid Hne Hhash.
  assert (Hsame : hashContext (before ++ "BB" ++ after)%string
                  = hashContext (before ++ "Aa" ++ after)%string).
  { unfold hashContext. f_equal.
    rewrite !hash_loop_app. now rewrite Aa_BB_collide. }
  split; [exact Hsame |].
  rewrite (CacheFacts.getAssistant_cached env (before ++ "BB" ++ after)%string w).
  - now rewrite Hid.
  - rewrite Hid. now apply ChatFacts.given_some.
  - now rewrite Hsame.
Qed.

Lemma colliding_prompt_reuses_assistant_witness :
  getAssistant (Scenarios.envWith Scenarios.chattySdk) "Tempo BB"
    {| cache := {| client := true; cachedAssistantId := Some "asst_0";
                   cachedThreadId := None;
                   cachedContextHash := Some (hashContext "Tempo Aa") |};
       calls := 1; trace := [] |}
  = (Ok "asst_0",
     {| cache := {| client := true; cachedAssistantId := Some "asst_0";
                    cachedThreadId := None;
                    cachedContextHash := Some (hashContext "Tempo Aa") |};
        calls := 1; trace := [] |}).
Proof.
  apply (@colliding_prompt_reuses_assistant
           (Scenarios.envWith Scenarios.chattySdk) "Tempo " "" "asst_0");
    [reflexivity | discriminate | reflexivity].
Defined.

End HashFacts.

(** ** Searching strings: [includes] and literal patterns *)

Module SearchFacts.

Import Regex RegexFacts.
Local Open Scope string_scope.

Lemma prefix_iff : forall p s,
  String.prefix p s = true <-> exists post, s = p ++ post.
Proof.
  induction p as [| a p IH]; intro s.
  - destruct s; simpl; split; eauto.
  - destruct s as [| b s]; simpl;
      [split; [discriminate | intros (post & H); discriminate] |].
    destruct (ascii_dec a b) as [-> | Hne].
    + rewrite IH. split; intros (post & H); exists post; congruence.
    + split; [discriminate | intros (post & H); congruence].
Qed.

Lemma includes_iff : forall s w,
  JsString.includes w s = true <-> exists pre post, s = pre ++ w ++ post.
Proof.
  induction s as [| c t IH]; intro w.
  - change (JsString.includes w "") with (String.prefix w "" || false).
    rewrite orb_false_r, prefix_iff. split.
    + intros (post & H). exists "", post. exact H.
    + intros (pre & post & H). destruct pre; [eauto | discriminate].
  - change (JsString.includes w (String c t))
      with (String.prefix w (String c t) || JsString.includes w t).
    rewrite orb_true_iff, prefix_iff, IH. split.
    + intros [(post & H) | (pre & post & H)].
      * exists "", post. exact H.
      * exists (String c pre), post. simpl. now rewrite H.
    + intros (pre & post & H). destruct pre as [| a pre]; simpl in H.
      * left. eauto.
      * right. injection H as _ H. eauto.
Qed.

Lemma list_of_append : forall a b,
  list_ascii_of_string (a ++ b)
  = (list_ascii_of_string a ++ list_ascii_of_string b)%list.
Proof. induction a as [| c t IH]; intro b; simpl; [reflexivity | now rewrite IH]. Qed.

Lemma string_of_app : forall a b,
  string_of_list_ascii (a ++ b)%list
  = string_of_list_ascii a ++ string_of_list_ascii b.
Proof. induction a as [| c t IH]; intro b; simpl; [reflexivity | now rewrite IH]. Qed.

Lemma Matches_lit : forall w m,
  Matches (lit w) m <-> m = list_ascii_of_string w.
Proof.
  induction w as [| c t IH]; intro m; simpl.
  - split; [apply Matches_Eps | intros ->; constructor].
  - split.
    + intro H. apply Matches_Seq_inv in H as (u & v & -> & Hu & Hv).
      apply IH in Hv. subst v. inversion Hu; subst.
      match goal with H : Ascii.eqb _ _ = true |- _ => apply Ascii.eqb_eq in H; subst end.
      reflexivity.
    + intros ->. change (c :: list_ascii_of_string t)
        with ([c] ++ list_ascii_of_string t)%list.
      constructor; [constructor; apply Ascii.eqb_refl | now apply IH].
Qed.

(** A literal pattern without anchors finds what [includes] finds. *)
Lemma test_lit_includes w s : test (re (lit w)) s = JsString.includes w s.
Proof.
  apply Bool.eq_iff_eq_true. rewrite test_iff, includes_iff. simpl. split.
  - intros (pre & mid & post & E & Hmid & _ & _).
    apply Matches_lit in Hmid. subst mid.
    exists (string_of_list_ascii pre), (string_of_list_ascii post).
    rewrite <- (string_of_list_ascii_of_string s), E, !string_of_app.
    now rewrite string_of_list_ascii_of_string.
  - intros (pre & post & ->).
    exists (list_ascii_of_string pre), (list_ascii_of_string w),
      (list_ascii_of_string post).
    rewrite !list_of_append. repeat split; try discriminate.
    now apply Matches_lit.
Qed.

(** A sequence matches only words that hold a match of each member. *)
Lemma Matches_seqs_member : forall rs r w,
  In r rs -> Matches (seqs rs) w ->
  exists pre mid post, w = (pre ++ mid ++ post)%list /\ Matches r mid.
Proof.
  induction rs as [| r0 rs IH]; intros r w Hin Hm; [contradiction |].
  destruct rs as [| r1 rs].
  - destruct Hin as [-> | []]. exists [], w, []. simpl. now rewrite app_nil_r.
  - change (seqs (r0 :: r1 :: rs)) with (Seq r0 (seqs (r1 :: rs))) in Hm.
    apply Matches_Seq_inv in Hm as (u & v & -> & Hu & Hv).
    destruct Hin as [-> | Hin].
    + exists [], u, v. auto.
    + destruct (IH r v Hin Hv) as (pre & mid & post & -> & Hmid).
      exists (u ++ pre)%list, mid, post. now rewrite <- app_assoc.
Qed.

Lemma length_split_on sep : forall s,
  List.length (JsString.split_on sep s) = S (Measures.occurrences sep s).
Proof.
  induction s as [| c t IH]; simpl; [reflexivity |].
  destruct (Ascii.eqb c sep); simpl; [now rewrite IH |].
  destruct (JsString.split_on sep t); simpl in *; [discriminate | exact IH].
Qed.

End SearchFacts.

(** ** classifyTask: which rule decides *)

Module ClassifyOrder.

Import Regex RegexFacts Backboard ClassifyFacts SearchFacts Measures.
Local Open Scope string_scope.

Lemma no_digit_no_number userInput :
  JsString.has_digit userInput = false ->
  test anyNumber (JsString.toLowerCase userInput) = false.
Proof.
  intro H. apply not_true_is_false. intro Ht.
  apply test_anyNumber_iff in Ht. rewrite has_digit_toLowerCase in Ht. congruence.
Qed.

Lemma keyword_is_pattern keyword :
  In keyword analyticalKeywords -> In (re (lit keyword)) analyticalPatterns.
Proof.
  unfold analyticalKeywords, analyticalPatterns. intro H.
  repeat (destruct H as [<- | H];
          [repeat (first [left; reflexivity | right]) |]).
  contradiction.
Qed.

Lemma Matches_digits1_digit w :
  Matches digits1 w -> exists c, In c w /\ JsString.is_digit c = true.
Proof.
  unfold digits1, plus. intro H.
  apply Matches_Seq_inv in H as (u & v & -> & Hu & _).
  inversion Hu; subst. eexists. split; [left; reflexivity | assumption].
Qed.

Lemma number_pattern_needs_digit rs s :
  In digits1 rs -> test (re (seqs rs)) s = true -> JsString.has_digit s = true.
Proof.
  intros Hin Ht. apply test_iff in Ht as (pre & mid & post & E & Hmid & _).
  simpl in Hmid.
  destruct (Matches_seqs_member _ _ Hin Hmid) as (a & m & b & -> & Hm).
  destruct (Matches_digits1_digit Hm) as (c & Hc & Hd).
  apply in_split in Hc as (m1 & m2 & ->).
  apply has_digit_of_list with (pre := (pre ++ a ++ m1)%list) (c := c)
                               (post := (m2 ++ b ++ post)%list); [| exact Hd].
  rewrite E. repeat (rewrite <- ?app_assoc; simpl). reflexivity.
Qed.

Lemma lower_char_keeps_space c :
  Ascii.eqb (JsString.lower_char c) " " = Ascii.eqb c " ".
Proof. destruct c as [[] [] [] [] [] [] [] []]; reflexivity. Qed.

Lemma occurrences_toLowerCase s :
  occurrences " " (JsString.toLowerCase s) = occurrences " " s.
Proof.
  induction s as [| c t IH]; simpl; [reflexivity |].
  rewrite lower_char_keeps_space. unfold JsString.toLowerCase in IH.
  now rewrite IH.
Qed.

(** X3. The analytical rules are consulted before the creative and the
    technical ones: an input without a digit that contains, in any letter
    case, one of the plain analytical keywords (explain, analyze, analyse,
    feedback, review, critique, improve, better, theory, teach, learn,
    understand, compare) is classified analytical, whatever creative or
    technical phrases it contains besides. *)
Theorem analytical_keyword_wins : forall userInput keyword : string,
  In keyword analyticalKeywords ->
  JsString.has_digit userInput = false ->
  JsString.includes keyword (JsString.toLowerCase userInput) = true ->
  classifyTask userInput = analytical.
Proof.
  intros userInput keyword Hk Hd Hinc. unfold classifyTask.
  rewrite (no_digit_no_number _ Hd).
  replace (some_pattern_matches analyticalPatterns (JsString.toLowerCase userInput))
    with true; [reflexivity |].
  symmetry. apply existsb_exists. exists (re (lit keyword)). split.
  - now apply keyword_is_pattern.
  - now rewrite test_lit_includes.
Qed.

Lemma analytical_keyword_wins_witness :
  classifyTask "Explain how to make a trap beat and set the tempo" = analytical.
Proof.
  apply (@analytical_keyword_wins
           "Explain how to make a trap beat and set the tempo" "explain").
  - simpl. auto.
  - reflexivity.
  - vm_compute. reflexivity.
Defined.

(** X4. The six technical patterns that demand a number (bpm to N, tempo to
    N, N bpm, by N, N bars longer or shorter, longer or shorter by N) can
    never be the rule that decides: whenever one of them matches the
    lower-cased input, the input holds a digit, so the very first test of
    classifyTask has matched and has already returned technical. *)
Theorem numeric_patterns_never_decide : forall (userInput : string) (p : pattern),
  In p numericTechnicalPatterns ->
  test p (JsString.toLowerCase userInput) = true ->
  test anyNumber (JsString.toLowerCase userInput) = true /\
  classifyTask userInput = technical.
Proof.
  intros userInput p Hp Ht.
  assert (Hd : JsString.has_digit (JsString.toLowerCase userInput) = true).
  { cbv beta iota delta [numericTechnicalPatterns map nth technicalPatterns In] in Hp.
    repeat (destruct Hp as [<- | Hp];
            [eapply number_pattern_needs_digit; [| exact Ht];
             repeat (first [left; reflexivity | right]) |]).
    contradiction. }
  apply test_anyNumber_iff in Hd. split; [exact Hd |].
  unfold classifyTask. now rewrite Hd.
Qed.

Lemma numeric_patterns_never_decide_witness :
  test anyNumber (JsString.toLowerCase "Set Tempo to 128") = true /\
  classifyTask "Set Tempo to 128" = technical.
Proof.
  apply (@numeric_patterns_never_decide "Set Tempo to 128"
           (nth 2 technicalPatterns (re Void))).
  - unfold numericTechnicalPatterns. simpl. auto.
  - vm_compute. reflexivity.
Defined.

(** X5. When no rule matches (no digit, and none of the analytical, creative
    and technical patterns), the length rule decides, and what it counts is
    space characters: at most two spaces give technical, three or more give
    creative.  Runs of spaces and spaces at either end count like any
    other. *)
Theorem classifyTask_length_rule : forall userInput : string,
  JsString.has_digit userInput = false ->
  some_pattern_matches analyticalPatterns (JsString.toLowerCase userInput) = false ->
  some_pattern_matches creativePatterns (JsString.toLowerCase userInput) = false ->
  some_pattern_matches technicalPatterns (JsString.toLowerCase userInput) = false ->
  classifyTask userInput
  = if (occurrences " " userInput <=? 2)%nat then technical else creative.
Proof.
  intros userInput Hd Ha Hc Ht. unfold classifyTask.
  rewrite (no_digit_no_number _ Hd), Ha, Hc, Ht. simpl.
  rewrite length_split_on, occurrences_toLowerCase.
  destruct (occurrences " " userInput) as [| [| [| n]]]; reflexivity.
Qed.

Lemma classifyTask_length_rule_witness :
  classifyTask "  hi " = creative.
Proof.
  apply (@classifyTask_length_rule "  hi "); vm_compute; reflexivity.
Defined.

End ClassifyOrder.

(** ** sendToModel: how it ends, what it returns, what it sends *)

Module SendFacts.

Import Backboard BackboardApi Runs TraceFacts RetryFacts Measures.
Local Open Scope string_scope.

Lemma fatal_messages error message :
  fatal error = Some message -> message = INVALID_KEY \/ message = RATE_LIMIT.
Proof.
  destruct error as [m |]; simpl; [| discriminate].
  destruct (JsString.includes "401" m || JsString.includes "403" m).
  - intro H. injection H as <-. now left.
  - destruct (JsString.includes "429" m); [| discriminate].
    intro H. injection H as <-. now right.
Qed.

(** The mock never reads its [model] argument. *)
Lemma mock_ignores_model text model model' systemPrompt :
  mockBackboardResponse text model systemPrompt
  = mockBackboardResponse text model' systemPrompt.
Proof. reflexivity. Qed.

Lemma batch_of_array_isBatch r : batch_of_array r -> ChatPanel.isBatch r = true.
Proof.
  intros (Ha & items & Hi). unfold ChatPanel.isBatch. now rewrite Ha, Hi.
Qed.

Lemma parseResponse_batch JSON_parse text content :
  batch_of_array (parseResponse JSON_parse text content).
Proof.
  unfold parseResponse, unknownResponse, batch_of_array.
  destruct (JSON_parse (stripCodeFences content)) as [parsed |]; simpl; [| eauto].
  destruct (Json.get parsed "actions") as [actions |]; simpl; [| eauto].
  destruct actions as [| | b | q | s | items | fields]; simpl; eauto.
  - destruct b; simpl; eauto.
  - destruct (Qeq_bool q 0); simpl; eauto.
  - destruct (String.eqb s ""); simpl; eauto.
Qed.

Lemma mock_batch text model systemPrompt :
  batch_of_array (mockBackboardResponse text model systemPrompt).
Proof.
  unfold mockBackboardResponse, batch_of_array, suggestResponse, beatResponse,
    wrapInBatch.
  repeat match goal with
         | |- context [if ?b then _ else _] => destruct b
         end; simpl; eauto.
Qed.

Section WithEnv.

Variable env : Env.
Variables text effective : string.

(** A request that returns has returned what [parseResponse] made of the
    content of a response. *)
Lemma attemptRequest_returns w response w' :
  attemptRequest env text effective w = (Ok response, w') ->
  exists content, response = parseResponse (JSON_parse env) text content.
Proof.
  unfold attemptRequest, bind.
  destruct (getAssistant env effective w) as [[assistantId | e] w1]; [| discriminate].
  destruct (getThread env assistantId w1) as [[threadId | e] w2]; [| discriminate].
  cbv zeta.
  destruct (getClient env w2) as [[[] | e] w3]; [| discriminate].
  unfold sdkCall.
  match goal with
  | |- context [match ?a with inl _ => _ | inr _ => _ end] => destruct a as [err | answer]
  end; [discriminate |].
  destruct (String.eqb (status answer) "FAILED"); [discriminate |].
  unfold ret. intro H. injection H as <- _. eauto.
Qed.

(** How a run of the loop can end. *)
Lemma retryLoop_ends model : forall remaining attempt w,
  match fst (retryLoop env text model effective remaining attempt w) with
  | Ok response =>
      (exists content, response = parseResponse (JSON_parse env) text content) \/
      response = mockBackboardResponse text model (Some effective)
  | Thrown e => e = JsError INVALID_KEY \/ e = JsError RATE_LIMIT
  end.
Proof.
  induction remaining as [| remaining IH]; intros attempt w.
  - simpl. now right.
  - rewrite retryLoop_round.
    destruct (attemptRequest env text effective (log (EvAttempt attempt) w))
      as [[response | error] w2] eqn:Hrun.
    + simpl. left. eapply attemptRequest_returns. exact Hrun.
    + cbv zeta. destruct (fatal error) as [message |] eqn:Hfatal.
      * simpl. apply fatal_messages in Hfatal as [-> | ->]; auto.
      * apply IH.
Qed.

Lemma retryLoop_ignores_model model model' : forall remaining attempt w,
  retryLoop env text model effective remaining attempt w
  = retryLoop env text model' effective remaining attempt w.
Proof.
  induction remaining as [| remaining IH]; intros attempt w; [reflexivity |].
  rewrite !retryLoop_round.
  destruct (attemptRequest env text effective (log (EvAttempt attempt) w))
    as [[response | error] w2]; [reflexivity |].
  cbv zeta. destruct (fatal error); [reflexivity | apply IH].
Qed.

End WithEnv.

Lemma invalid_key_is_not_missing_key :
  JsError INVALID_KEY <> JsError "Backboard API key not configured" /\
  JsError RATE_LIMIT <> JsError "Backboard API key not configured".
Proof. split; discriminate. Qed.

(** X6. sendToModel fails in three ways only.  Without an API key (missing
    or empty) it throws 'Backboard API key not configured' at once, before
    any SDK call, leaving cache and log as they were.  With a key, whatever
    the SDK does, it either returns a response or throws one of 'Invalid
    Backboard API key' and 'Rate limit exceeded. Please try again later.';
    no other error of the SDK reaches the caller. *)
Theorem sendToModel_failure_modes :
  forall env text model history systemPrompt w,
    (given (BACKBOARD_API_KEY env) = false ->
     sendToModel env text model history systemPrompt w
     = (Thrown (JsError "Backboard API key not configured"), w)) /\
    (given (BACKBOARD_API_KEY env) = true ->
     forall e,
       fst (sendToModel env text model history systemPrompt w) = Thrown e ->
       e = JsError INVALID_KEY \/ e = JsError RATE_LIMIT) /\
    (forall e,
       fst (sendToModel env text model history systemPrompt w) = Thrown e ->
       e = JsError "Backboard API key not configured" \/
       e = JsError INVALID_KEY \/ e = JsError RATE_LIMIT).
Proof.
  intros env text model history systemPrompt w.
  assert (Hkeyed : given (BACKBOARD_API_KEY env) = true ->
            forall e,
              fst (sendToModel env text model history systemPrompt w) = Thrown e ->
              e = JsError INVALID_KEY \/ e = JsError RATE_LIMIT).
  { intros Hkey e. unfold sendToModel, USE_MOCK. rewrite Hkey. cbn [negb].
    pose proof (retryLoop_ends env text (effectiveSystemPrompt systemPrompt) model
                  (S MAX_RETRIES) 0 w) as H.
    intro He. rewrite He in H. exact H. }
  split; [| split; [exact Hkeyed |]].
  - intro Hkey. unfold sendToModel, USE_MOCK. now rewrite Hkey.
  - intros e He. destruct (given (BACKBOARD_API_KEY env)) eqn:Hkey.
    + right. now apply Hkeyed.
    + left. unfold sendToModel, USE_MOCK in He. rewrite Hkey in He.
      simpl in He. now injection He as <-.
Qed.

Lemma sendToModel_failure_modes_witness :
  sendToModel {| BACKBOARD_API_KEY := Some ""; sdk := Scenarios.chattySdk;
                 JSON_parse := Scenarios.toyParse |}
    "play" "gemini" None None Scenarios.staleWorld
  = (Thrown (JsError "Backboard API key not configured"), Scenarios.staleWorld).
Proof.
  apply (proj1 (sendToModel_failure_modes
                  {| BACKBOARD_API_KEY := Some ""; sdk := Scenarios.chattySdk;
                     JSON_parse := Scenarios.toyParse |}
                  "play" "gemini" None None Scenarios.staleWorld)).
  reflexivity.
Defined.

(** X7. Whatever the model answers, a response returned by sendToModel is a
    batch: its action is '__batch__' and its parameters hold an array under
    'actions' (the model's own array, or a single wrapped action).  So the
    test by which ChatPanel tells a batch from a single command succeeds on
    every response of sendToModel. *)
Theorem sendToModel_returns_batches :
  forall env text model history systemPrompt w response,
    fst (sendToModel env text model history systemPrompt w) = Ok response ->
    action response = Json.Str "__batch__" /\
    (exists items,
       Json.get (parameters response) "actions" = Some (Json.Arr items)) /\
    ChatPanel.isBatch response = true.
Proof.
  intros env text model history systemPrompt w response.
  unfold sendToModel, USE_MOCK.
  destruct (given (BACKBOARD_API_KEY env)); cbn [negb]; [| discriminate].
  pose proof (retryLoop_ends env text (effectiveSystemPrompt systemPrompt) model
                (S MAX_RETRIES) 0 w) as H.
  intro Hr. rewrite Hr in H.
  assert (Hb : batch_of_array response).
  { destruct H as [(content & ->) | ->];
      [apply parseResponse_batch | apply mock_batch]. }
  destruct Hb as (Ha & Hi). split; [exact Ha |]. split; [exact Hi |].
  apply batch_of_array_isBatch. now split.
Qed.

Lemma sendToModel_returns_batches_witness :
  exists response,
    fst (sendToModel (Scenarios.envWith Scenarios.chattySdk) "add a kick" "gemini"
           None None initialWorld) = Ok response /\
    ChatPanel.isBatch response = true.
Proof.
  eexists. split; [vm_compute; reflexivity |].
  eapply (@sendToModel_returns_batches
            (Scenarios.envWith Scenarios.chattySdk) "add a kick" "gemini"
            None None initialWorld).
  vm_compute. reflexivity.
Defined.

End SendFacts.

(** ** sendToModel: what goes to the service *)

Module RoutingFacts.

Import Backboard BackboardApi Runs TraceFacts RetryFacts Measures.
Local Open Scope string_scope.

Section Routed.

Variable env : Env.
Variable E : Event -> Prop.
Variables text model effective : string.

Hypothesis E_assistant : forall n name description, E (EvCreateAssistant n name description).
Hypothesis E_thread : forall n assistantId, E (EvCreateThread n assistantId).
Hypothesis E_message : forall n threadId, E (EvAddMessage n threadId (routedRequest text)).
Hypothesis E_attempt : forall attempt, E (EvAttempt attempt).
Hypothesis E_failed : forall n error, E (EvAttemptFailed n error).
Hypothesis E_sleep : forall ms, E (EvSleep ms).

Lemma emits_attemptRequest_routed : emits E (attemptRequest env text effective).
Proof.
  unfold attemptRequest.
  apply emits_bind; [apply emits_getAssistant; intro; apply E_assistant | intro assistantId].
  apply emits_bind; [apply emits_getThread; intro; apply E_thread | intro threadId].
  cbv zeta.
  apply emits_bind; [apply emits_getClient | intros _].
  apply emits_bind; [apply emits_sdkCall; intro; apply E_message | intro response].
  repeat emits_step.
Qed.

Lemma emits_retryLoop_routed : forall remaining attempt,
  emits E (retryLoop env text model effective remaining attempt).
Proof.
  induction remaining as [| remaining IH]; intro attempt; simpl.
  - apply emits_ret.
  - apply emits_bind; [apply emits_emit; auto | intros _].
    apply emits_bind.
    + apply emits_try.
      * apply emits_bind; [apply emits_attemptRequest_routed | intro; apply emits_ret].
      * intro error. apply emits_bind; [| intro; apply emits_ret].
        unfold onAttemptError, sleep.
        repeat first [ apply emits_emit; auto | emits_step ].
    + intros [response |]; [apply emits_ret | apply IH].
Qed.

End Routed.

(** X8. Every message a run of sendToModel sends to the SDK carries the
    user's text unchanged, with streaming off, and names the provider and
    the model that getModelForTask gives for the task classifyTask finds in
    that text.  The model argument and the conversation history have no
    part in it: changing them changes neither the result nor the cache nor
    the calls made. *)
Theorem sendToModel_routes_by_text :
  forall env text model history systemPrompt w,
    (exists l,
       trace (snd (sendToModel env text model history systemPrompt w))
         = (trace w ++ l)%list /\
       forall n threadId request,
         In (EvAddMessage n threadId request) l ->
         request = routedRequest text /\
         req_content request = text /\
         llm_provider request = provider (getModelForTask (classifyTask text)) /\
         model_name request = modelName (getModelForTask (classifyTask text)) /\
         stream request = false) /\
    (forall model' history',
       sendToModel env text model' history' systemPrompt w
       = sendToModel env text model history systemPrompt w).
Proof.
  intros env text model history systemPrompt w. split.
  - set (E := fun e => forall n threadId request,
                  e = EvAddMessage n threadId request -> request = routedRequest text).
    assert (H : emits E (sendToModel env text model history systemPrompt)).
    { unfold sendToModel, USE_MOCK.
      destruct (given (BACKBOARD_API_KEY env)); simpl negb; cbv iota.
      - apply emits_retryLoop_routed; unfold E; intros; try discriminate.
        match goal with H : _ = _ |- _ => now injection H end.
      - apply emits_throw. }
    destruct (H w) as (l & El & Fl). exists l. split; [exact El |].
    intros n threadId request Hin. rewrite Forall_forall in Fl.
    rewrite (Fl _ Hin n threadId request eq_refl). repeat split.
  - intros model' history'. unfold sendToModel, USE_MOCK.
    destruct (given (BACKBOARD_API_KEY env)); simpl negb; cbv iota;
      [apply SendFacts.retryLoop_ignores_model | reflexivity].
Qed.

Lemma sendToModel_routes_by_text_witness :
  sendToModel (Scenarios.envWith Scenarios.chattySdk) "add a kick" "fallback"
    (Some [("user", "hello")]) None initialWorld
  = sendToModel (Scenarios.envWith Scenarios.chattySdk) "add a kick" "gemini"
      None None initialWorld.
Proof.
  apply (proj2 (sendToModel_routes_by_text (Scenarios.envWith Scenarios.chattySdk)
                  "add a kick" "gemini" None None initialWorld)).
Defined.

End RoutingFacts.

(** ** sendToModel: when the service is out *)

Module OutageFacts.

Import Backboard BackboardApi Runs TraceFacts RetryFacts Measures.
Local Open Scope string_scope.

Section WithEnv.

Variable env : Env.
Hypothesis key_given : given (BACKBOARD_API_KEY env) = true.
Hypothesis out : out_of_service (sdk env).

Lemma getClient_returns w : exists w', getClient env w = (Ok tt, w').
Proof.
  unfold getClient, bind, getCache, setCache, ret. rewrite key_given.
  destruct (client (cache w)); eauto.
Qed.

Lemma getAssistant_recoverable prompt w e w' :
  getAssistant env prompt w = (Thrown e, w') -> fatal e = None.
Proof.
  destruct out as (Ha & _ & _).
  unfold getAssistant, bind, getCache, setCache, ret.
  match goal with
  | |- context [if ?b then _ else _] => destruct b
  end; simpl.
  - match goal with
    | |- context [getClient env ?w0] =>
        destruct (getClient_returns w0) as (w1 & ->)
    end.
    unfold sdkCall.
    match goal with
    | |- context [match ?a with inl _ => _ | inr _ => _ end] =>
        destruct a as [err | id] eqn:Hans
    end; [| discriminate].
    intro H. injection H as <- _. eapply Ha. exact Hans.
  - destruct (given (cachedAssistantId (cache w))); [discriminate |].
    match goal with
    | |- context [getClient env ?w0] =>
        destruct (getClient_returns w0) as (w1 & ->)
    end.
    unfold sdkCall.
    match goal with
    | |- context [match ?a with inl _ => _ | inr _ => _ end] =>
        destruct a as [err | id] eqn:Hans
    end; [| discriminate].
    intro H. injection H as <- _. eapply Ha. exact Hans.
Qed.

Lemma getThread_recoverable assistantId w e w' :
  getThread env assistantId w = (Thrown e, w') -> fatal e = None.
Proof.
  destruct out as (_ & Ht & _).
  unfold getThread, bind, getCache, setCache, ret.
  destruct (given (cachedThreadId (cache w))); [discriminate |].
  destruct (getClient_returns w) as (w1 & ->).
  unfold sdkCall.
  match goal with
  | |- context [match ?a with inl _ => _ | inr _ => _ end] =>
      destruct a as [err | id] eqn:Hans
  end; [| discriminate].
  intro H. injection H as <- _. eapply Ht. exact Hans.
Qed.

(** No request gets through, and none fails for good. *)
Lemma attemptRequest_fails text effective w :
  exists e w', attemptRequest env text effective w = (Thrown e, w') /\ fatal e = None.
Proof.
  destruct out as (_ & _ & Hm).
  unfold attemptRequest, bind.
  destruct (getAssistant env effective w) as [[assistantId | e] w1] eqn:Ha.
  2:{ exists e, w1. split; [reflexivity |]. eapply getAssistant_recoverable. exact Ha. }
  destruct (getThread env assistantId w1) as [[threadId | e] w2] eqn:Ht.
  2:{ exists e, w2. split; [reflexivity |]. eapply getThread_recoverable. exact Ht. }
  cbv zeta. destruct (getClient_returns w2) as (w3 & ->).
  unfold sdkCall.
  match goal with
  | |- context [addMessage (sdk env) ?n ?t ?r] =>
      destruct (Hm n t r) as (e & -> & Hf)
  end.
  eauto.
Qed.

Lemma retryLoop_falls_back text model effective : forall remaining attempt w,
  fst (retryLoop env text model effective remaining attempt w)
  = Ok (mockBackboardResponse text model (Some effective)).
Proof.
  induction remaining as [| remaining IH]; intros attempt w; [reflexivity |].
  rewrite retryLoop_round.
  destruct (attemptRequest_fails text effective (log (EvAttempt attempt) w))
    as (e & w2 & -> & Hf).
  cbv zeta. rewrite Hf. apply IH.
Qed.

End WithEnv.

(** X9. An outage is not reported.  With an API key set, when no message
    gets through and every error the SDK throws is one the loop retries
    after (its text has none of 401, 403, 429), sendToModel does not fail:
    it returns the answer of the local mock for the text.  testConnection
    then returns true although no request succeeded. *)
Theorem outage_is_answered_by_mock :
  forall env text model history systemPrompt w,
    given (BACKBOARD_API_KEY env) = true ->
    out_of_service (sdk env) ->
    fst (sendToModel env text model history systemPrompt w)
    = Ok (mockBackboardResponse text model (Some (effectiveSystemPrompt systemPrompt))) /\
    fst (testConnection env w) = Ok true.
Proof.
  intros env text model history systemPrompt w Hkey Hout.
  assert (Hsend : forall text model history systemPrompt,
            fst (sendToModel env text model history systemPrompt w)
            = Ok (mockBackboardResponse text model
                    (Some (effectiveSystemPrompt systemPrompt)))).
  { intros t m h sp. unfold sendToModel, USE_MOCK. rewrite Hkey. cbn [negb].
    now apply retryLoop_falls_back. }
  split; [apply Hsend |].
  unfold testConnection, bind. specialize (Hsend "test" "fallback" None None).
  destruct (sendToModel env "test" "fallback" None None w) as [[r | e] w'];
    [reflexivity | discriminate].
Qed.

Lemma outage_is_answered_by_mock_witness :
  fst (sendToModel (Scenarios.envWith Scenarios.downSdk) "set bpm to 120" "gemini"
         None None initialWorld)
  = Ok (mockBackboardResponse "set bpm to 120" "gemini"
          (Some (effectiveSystemPrompt None))) /\
  fst (testConnection (Scenarios.envWith Scenarios.downSdk) initialWorld) = Ok true.
Proof.
  apply (@outage_is_answered_by_mock (Scenarios.envWith Scenarios.downSdk)
           "set bpm to 120" "gemini" None None initialWorld).
  - reflexivity.
  - split; [| split]; simpl.
    + intros; discriminate.
    + intros; discriminate.
    + intros. eexists. split; reflexivity.
Defined.

End OutageFacts.

(** ** sendToModel: a cache that fits is used as it is *)

Module ReuseFacts.

Import Backboard Runs TraceFacts RetryFacts CacheFacts Measures.
Local Open Scope string_scope.

Lemma to_thread_loop threadId e :
  is_sdk_event e = false -> to_thread threadId e.
Proof.
  intro H. destruct e; try discriminate; (split; [reflexivity | intros; discriminate]).
Qed.

Lemma warm_for_transfer prompt c c' :
  cachedAssistantId c' = cachedAssistantId c ->
  cachedThreadId c' = cachedThreadId c ->
  cachedContextHash c' = cachedContextHash c ->
  warm_for prompt c -> warm_for prompt c'.
Proof. unfold warm_for. intros -> -> ->. auto. Qed.

Section WithEnv.

Variable env : Env.
Variables text model effective : string.

Lemma getThread_cached assistantId w :
  given (cachedThreadId (cache w)) = true ->
  getThread env assistantId w = (Ok (unwrap (cachedThreadId (cache w))), w).
Proof. intro H. unfold getThread, bind, getCache, ret. now rewrite H. Qed.

(** One request under a fitting cache. *)
Lemma attemptRequest_warm w :
  warm_for effective (cache w) ->
  exists l,
    trace (snd (attemptRequest env text effective w)) = (trace w ++ l)%list /\
    Forall (to_thread (unwrap (cachedThreadId (cache w)))) l /\
    cachedAssistantId (cache (snd (attemptRequest env text effective w)))
      = cachedAssistantId (cache w) /\
    cachedThreadId (cache (snd (attemptRequest env text effective w)))
      = cachedThreadId (cache w) /\
    cachedContextHash (cache (snd (attemptRequest env text effective w)))
      = cachedContextHash (cache w).
Proof.
  intros (Hid & Hhash & Hthread).
  unfold attemptRequest, bind.
  rewrite (getAssistant_cached env effective w Hid Hhash).
  rewrite (getThread_cached _ w Hthread). cbv zeta.
  unfold getClient, bind, getCache, setCache, sdkCall, ret, throw. simpl.
  branches;
    first [ exists []; rewrite app_nil_r; repeat split; constructor
          | eexists [_]; split; [reflexivity |]; split; [| repeat split];
            constructor; [| constructor];
            split; [reflexivity |];
            intros n t request H; now injection H as _ <- _ ].
Qed.

Lemma retryLoop_warm : forall remaining attempt w,
  warm_for effective (cache w) ->
  exists l,
    trace (snd (retryLoop env text model effective remaining attempt w))
      = (trace w ++ l)%list /\
    Forall (to_thread (unwrap (cachedThreadId (cache w)))) l /\
    cachedAssistantId (cache (snd (retryLoop env text model effective remaining attempt w)))
      = cachedAssistantId (cache w) /\
    cachedThreadId (cache (snd (retryLoop env text model effective remaining attempt w)))
      = cachedThreadId (cache w) /\
    cachedContextHash (cache (snd (retryLoop env text model effective remaining attempt w)))
      = cachedContextHash (cache w).
Proof.
  induction remaining as [| remaining IH]; intros attempt w Hwarm.
  - exists []. simpl. rewrite app_nil_r. repeat split. constructor.
  - rewrite retryLoop_round.
    destruct (attemptRequest_warm (log (EvAttempt attempt) w) Hwarm)
      as (la & Ela & Fla & Ea & Et & Eh).
    destruct (attemptRequest env text effective (log (EvAttempt attempt) w))
      as [[response | error] w2]; simpl in Ela, Fla, Ea, Et, Eh.
    + exists (EvAttempt attempt :: la). simpl. rewrite Ela, <- app_assoc.
      repeat split; auto. constructor; [now apply to_thread_loop | exact Fla].
    + cbv zeta.
      assert (Hfailed : Forall (to_thread (unwrap (cachedThreadId (cache w))))
                          (EvAttempt attempt :: la
                           ++ [EvAttemptFailed (attempt + 1) error])%list).
      { constructor; [now apply to_thread_loop |].
        apply Forall_app. split; [exact Fla |].
        constructor; [now apply to_thread_loop | constructor]. }
      destruct (fatal error) as [message |].
      * exists (EvAttempt attempt :: la ++ [EvAttemptFailed (attempt + 1) error])%list.
        simpl. rewrite Ela, <- !app_assoc. repeat split; auto.
      * match goal with
        | |- context [retryLoop _ _ _ _ _ _ ?w3] =>
            assert (Hc : cache w3 = cache w2)
              by (destruct (attempt <? MAX_RETRIES)%nat; reflexivity);
            assert (Ht3 : exists pause,
                      trace w3 = (trace w ++ (EvAttempt attempt :: la
                                   ++ [EvAttemptFailed (attempt + 1) error])
                                  ++ pause)%list /\
                      Forall (to_thread (unwrap (cachedThreadId (cache w)))) pause)
              by (destruct (attempt <? MAX_RETRIES)%nat;
                  [ exists [EvSleep (RETRY_DELAY_MS * (Z.of_nat attempt + 1))]
                  | exists [] ];
                  simpl; rewrite Ela, <- ?app_assoc; simpl; rewrite <- ?app_assoc;
                  simpl; rewrite ?app_nil_r;
                  (split; [reflexivity |]); repeat constructor;
                  intros; discriminate);
            destruct (IH (S attempt) w3) as (lr & Elr & Flr & Ar & Tr & Hr)
        end.
        { rewrite Hc. eapply warm_for_transfer; [exact Ea | exact Et | exact Eh |].
          exact Hwarm. }
        destruct Ht3 as (pause & Ew3 & Fpause).
        exists ((EvAttempt attempt :: la ++ [EvAttemptFailed (attempt + 1) error])
                ++ pause ++ lr)%list.
        rewrite Hc, Et in Flr.
        split; [| split].
        -- rewrite Elr, Ew3, <- !app_assoc. reflexivity.
        -- apply Forall_app. split; [exact Hfailed |].
           apply Forall_app. split; assumption.
        -- rewrite Ar, Tr, Hr, Hc, Ea, Et, Eh. auto.
Qed.

End WithEnv.

(** X10. A cache that fits is used as it is, by a call that no other call
    overlaps.  When an assistant is cached under the hash of the prompt in
    force and a thread is cached, a run of sendToModel during which no other
    call runs, however many attempts it takes and however it ends, creates
    neither assistant nor thread, sends every message to the cached thread,
    and leaves both ids and the recorded hash as they were.  (A call that
    runs at one of its suspensions may change the cached ids; nothing is
    said of such runs.) *)
Theorem fitting_cache_is_reused :
  forall env text model history systemPrompt w,
    warm_for (effectiveSystemPrompt systemPrompt) (cache w) ->
    exists l,
      trace (snd (BackboardAsync.alone
                    (BackboardAsync.sendToModel env text model history systemPrompt) w))
        = (trace w ++ l)%list /\
      (forall e, In e l -> is_creation e = false) /\
      (forall n threadId request,
         In (EvAddMessage n threadId request) l ->
         threadId = unwrap (cachedThreadId (cache w))) /\
      cachedAssistantId
        (cache (snd (BackboardAsync.alone
                       (BackboardAsync.sendToModel env text model history systemPrompt)
                       w)))
        = cachedAssistantId (cache w) /\
      cachedThreadId
        (cache (snd (BackboardAsync.alone
                       (BackboardAsync.sendToModel env text model history systemPrompt)
                       w)))
        = cachedThreadId (cache w) /\
      cachedContextHash
        (cache (snd (BackboardAsync.alone
                       (BackboardAsync.sendToModel env text model history systemPrompt)
                       w)))
        = cachedContextHash (cache w).
Proof.
  intros env text model history systemPrompt w Hwarm.
  rewrite AsyncFacts.alone_sendToModel.
  assert (H : exists l,
    trace (snd (sendToModel env text model history systemPrompt w))
      = (trace w ++ l)%list /\
    Forall (to_thread (unwrap (cachedThreadId (cache w)))) l /\
    cachedAssistantId (cache (snd (sendToModel env text model history systemPrompt w)))
      = cachedAssistantId (cache w) /\
    cachedThreadId (cache (snd (sendToModel env text model history systemPrompt w)))
      = cachedThreadId (cache w) /\
    cachedContextHash (cache (snd (sendToModel env text model history systemPrompt w)))
      = cachedContextHash (cache w)).
  { unfold sendToModel, USE_MOCK.
    destruct (given (BACKBOARD_API_KEY env)); simpl negb; cbv iota.
    - now apply retryLoop_warm.
    - exists []. simpl. rewrite app_nil_r. repeat split. constructor. }
  destruct H as (l & El & Fl & Ea & Et & Eh).
  exists l. rewrite Forall_forall in Fl. repeat split; auto.
  - intros e Hin. exact (proj1 (Fl e Hin)).
  - intros n threadId request Hin. exact (proj2 (Fl _ Hin) n threadId request eq_refl).
Qed.

Lemma fitting_cache_is_reused_witness :
  cachedThreadId
    (cache (snd (BackboardAsync.alone
                   (BackboardAsync.sendToModel (Scenarios.envWith Scenarios.downSdk)
                      "play" "gemini" None (Some "an earlier prompt"))
                   Scenarios.staleWorld)))
  = Some "thread_0".
Proof.
  destruct (@fitting_cache_is_reused (Scenarios.envWith Scenarios.downSdk)
              "play" "gemini" None (Some "an earlier prompt") Scenarios.staleWorld)
    as (l & _ & _ & _ & _ & Et & _).
  - split; [reflexivity | split; reflexivity].
  - exact Et.
Defined.

End ReuseFacts.

(** ** Code fences around the model's answer *)

Module FenceFacts.

Import Backboard Measures.
Local Open Scope string_scope.

Lemma prefix_backtick_head fence c t :
  c <> "`"%char -> String.prefix (String "`" fence) (String c t) = false.
Proof.
  intro Hc. cbn [String.prefix]. destruct (ascii_dec "`" c) as [E | _]; [| reflexivity].
  congruence.
Qed.

Lemma not_backtick c : negb (Ascii.eqb c "`") = true -> c <> "`"%char.
Proof.
  intros H E. subst c. discriminate.
Qed.

(** Text without a backtick passes through the removal of a fence. *)
Lemma remove_fence_plain fence rest : forall s,
  no_backtick s = true ->
  remove_fence (String "`" fence) 0 false (s ++ rest)
  = s ++ remove_fence (String "`" fence) 0 false rest.
Proof.
  induction s as [| c t IH]; intro H; [reflexivity |].
  simpl in H. apply andb_prop in H as [Hc Ht]. apply not_backtick in Hc.
  change ((String c t) ++ rest) with (String c (t ++ rest)).
  cbn [remove_fence andb].
  rewrite (prefix_backtick_head fence (t ++ rest) Hc).
  now rewrite (IH Ht).
Qed.

Lemma append_empty s : s ++ "" = s.
Proof. induction s as [| c t IH]; simpl; [reflexivity | now rewrite IH]. Qed.

Lemma remove_fence_plain_all fence s :
  no_backtick s = true -> remove_fence (String "`" fence) 0 false s = s.
Proof.
  intro H. rewrite <- (append_empty s) at 1.
  rewrite (remove_fence_plain fence "" s H). simpl. apply append_empty.
Qed.

Lemma trimEnd_space s c :
  JsString.is_space c = true ->
  JsString.trimEnd (s ++ String c "") = JsString.trimEnd s.
Proof.
  intro Hc. induction s as [| a t IH]; simpl.
  - now rewrite Hc.
  - now rewrite IH.
Qed.

Lemma trim_space s c :
  JsString.is_space c = true -> JsString.trim (s ++ String c "") = JsString.trim s.
Proof.
  intro Hc. unfold JsString.trim. induction s as [| a t IH]; simpl.
  - now rewrite Hc.
  - destruct (JsString.is_space a); [exact IH |].
    change (String a (t ++ String c "")) with (String a t ++ String c "").
    now apply trimEnd_space.
Qed.

Lemma strip_json_fence body :
  no_backtick body = true ->
  stripCodeFences (FENCE_JSON ++ nl ++ body ++ nl ++ FENCE) = JsString.trim body.
Proof.
  intro H. unfold stripCodeFences, FENCE_JSON, FENCE, nl. simpl.
  rewrite (remove_fence_plain "``json" _ body H). simpl.
  rewrite (remove_fence_plain "``" _ body H). simpl.
  now apply trim_space.
Qed.

Lemma strip_plain_fence body :
  no_backtick body = true ->
  stripCodeFences (FENCE ++ nl ++ body ++ nl ++ FENCE) = JsString.trim body.
Proof.
  intro H. unfold stripCodeFences, FENCE_JSON, FENCE, nl. simpl.
  rewrite (remove_fence_plain "``json" _ body H). simpl.
  rewrite (remove_fence_plain "``" _ body H). simpl.
  now apply trim_space.
Qed.

Lemma strip_no_fence body :
  no_backtick body = true -> stripCodeFences body = JsString.trim body.
Proof.
  intro H. unfold stripCodeFences, FENCE_JSON, FENCE.
  rewrite (remove_fence_plain_all "``json" body H).
  now rewrite (remove_fence_plain_all "``" body H).
Qed.

(** X11. A model answer wrapped in a code fence is read as the bare answer.
    For a body without a backtick, stripping the answer made of the opening
    fence (with or without the json tag), a line feed, the body, a line feed
    and the closing fence gives the trimmed body, the same as stripping the
    body alone; so sendToModel's parser returns for the fenced answer what it
    returns for the bare one. *)
Theorem fenced_answer_is_unwrapped : forall body : string,
  no_backtick body = true ->
  stripCodeFences (FENCE_JSON ++ nl ++ body ++ nl ++ FENCE) = JsString.trim body /\
  stripCodeFences (FENCE ++ nl ++ body ++ nl ++ FENCE) = JsString.trim body /\
  stripCodeFences body = JsString.trim body /\
  forall JSON_parse text,
    parseResponse JSON_parse text (FENCE_JSON ++ nl ++ body ++ nl ++ FENCE)
    = parseResponse JSON_parse text body /\
    parseResponse JSON_parse text (FENCE ++ nl ++ body ++ nl ++ FENCE)
    = parseResponse JSON_parse text body.
Proof.
  intros body H.
  pose proof (strip_json_fence body H) as Hj.
  pose proof (strip_plain_fence body H) as Hp.
  pose proof (strip_no_fence body H) as Hn.
  repeat split; auto; unfold parseResponse; cbv zeta.
  - now rewrite Hj, Hn.
  - now rewrite Hp, Hn.
Qed.

Lemma fenced_answer_is_unwrapped_witness :
  stripCodeFences (FENCE_JSON ++ nl ++ "  {}  " ++ nl ++ FENCE) = "{}".
Proof.
  apply (proj1 (fenced_answer_is_unwrapped "  {}  " eq_refl)).
Defined.

End FenceFacts.

(** ** Answers of the mock *)

Module MockAnswers.

Import Regex Backboard Measures.
Local Open Scope string_scope.

Lemma digit_char d :
  (d < 10)%N ->
  JsString.is_digit (ascii_of_N (48 + d)) = true /\
  JsString.digit_value (ascii_of_N (48 + d)) = Z.of_N d.
Proof.
  intro H. unfold JsString.is_digit, JsString.in_range, JsString.digit_value,
    JsString.code.
  rewrite N_ascii_embedding by lia. split.
  - apply andb_true_intro. split; apply N.leb_le; lia.
  - f_equal. lia.
Qed.

Lemma all_digits_app a b :
  all_digits (a ++ b) = all_digits a && all_digits b.
Proof.
  induction a as [| c t IH]; simpl; [reflexivity |].
  now rewrite IH, andb_assoc.
Qed.

Lemma parse_digits_app b : forall a acc,
  JsString.parse_digits acc (a ++ b)
  = JsString.parse_digits (JsString.parse_digits acc a) b.
Proof. induction a as [| c t IH]; intro acc; simpl; [reflexivity | apply IH]. Qed.

Lemma append_assoc (a b c : string) : (a ++ b) ++ c = a ++ b ++ c.
Proof. induction a as [| x t IH]; simpl; [reflexivity | now rewrite IH]. Qed.

Lemma length_append (a b : string) :
  String.length (a ++ b) = (String.length a + String.length b)%nat.
Proof. induction a as [| x t IH]; simpl; [reflexivity | now rewrite IH]. Qed.

(** With fuel enough, the digits are written most significant first, and
    reading them back gives the number. *)
Lemma pos_digits_spec : forall fuel n acc,
  (n < 2 ^ N.of_nat (S fuel))%N ->
  exists ds,
    JsString.pos_digits (S fuel) n acc = ds ++ acc /\
    all_digits ds = true /\
    ds <> "" /\
    forall a, JsString.parse_digits a ds
              = (a * 10 ^ Z.of_nat (String.length ds) + Z.of_N n)%Z.
Proof.
  assert (Hone : forall n,
            (n / 10 = 0)%N ->
            all_digits (String (ascii_of_N (48 + n mod 10)) "") = true /\
            String (ascii_of_N (48 + n mod 10)) "" <> "" /\
            forall a,
              JsString.parse_digits a (String (ascii_of_N (48 + n mod 10)) "")
              = (a * 10 ^ Z.of_nat 1 + Z.of_N n)%Z).
  { intros n Hq.
    assert (Hd : (n mod 10 < 10)%N) by (apply N.mod_lt; discriminate).
    destruct (digit_char Hd) as [Hdig Hval].
    split; [cbn [all_digits]; now rewrite Hdig |]. split; [discriminate |].
    intro a. cbn [JsString.parse_digits]. rewrite Hval.
    pose proof (N.div_mod n 10). lia. }
  induction fuel as [| fuel IH]; intros n acc Hn.
  - exists (String (ascii_of_N (48 + n mod 10)) "").
    assert (Hq : (n / 10 = 0)%N).
    { apply N.div_small. simpl in Hn. lia. }
    split; [| now apply Hone].
    cbn [JsString.pos_digits]. destruct (n / 10 =? 0)%N; reflexivity.
  - remember (S fuel) as fuel1 eqn:Efuel. cbn [JsString.pos_digits].
    destruct (n / 10 =? 0)%N eqn:Hq.
    + exists (String (ascii_of_N (48 + n mod 10)) "").
      apply N.eqb_eq in Hq. split; [reflexivity | now apply Hone].
    + assert (Hd : (n mod 10 < 10)%N) by (apply N.mod_lt; discriminate).
      destruct (digit_char Hd) as [Hdig Hval].
      assert (Hlt : (n / 10 < 2 ^ N.of_nat fuel1)%N).
      { apply N.Div0.div_lt_upper_bound.
        rewrite Nat2N.inj_succ, N.pow_succ_r' in Hn. lia. }
      subst fuel1.
      destruct (IH (n / 10)%N (String (ascii_of_N (48 + n mod 10)) acc) Hlt)
        as (ds & E & Hall & Hne & Hparse).
      exists (ds ++ String (ascii_of_N (48 + n mod 10)) "").
      split; [rewrite E, append_assoc; reflexivity |].
      split; [rewrite all_digits_app, Hall; cbn [all_digits andb]; now rewrite Hdig |].
      split; [destruct ds; [congruence | discriminate] |].
      intro a. rewrite parse_digits_app, Hparse.
      cbn [JsString.parse_digits]. rewrite Hval.
      rewrite length_append. cbn [String.length].
      rewrite Nat2Z.inj_add, Z.pow_add_r by lia.
      pose proof (N.div_mod n 10). lia.
Qed.

Lemma string_of_N_spec n :
  all_digits (JsString.string_of_N n) = true /\
  JsString.string_of_N n <> "" /\
  JsString.parseInt (JsString.string_of_N n) = Z.of_N n.
Proof.
  unfold JsString.string_of_N, JsString.parseInt.
  destruct (@pos_digits_spec (N.to_nat (N.log2 n)) n "")
    as (ds & E & Hall & Hne & Hparse).
  { rewrite Nat2N.inj_succ, N2Nat.id.
    destruct n as [| p]; [reflexivity |].
    apply N.log2_spec. reflexivity. }
  rewrite E, FenceFacts.append_empty.
  split; [exact Hall |]. split; [exact Hne |].
  rewrite Hparse. lia.
Qed.

Lemma span_digits_all : forall ds,
  all_digits ds = true -> JsString.span_digits ds = (ds, "").
Proof.
  induction ds as [| c t IH]; simpl; [reflexivity |].
  intro H. apply andb_prop in H as [Hc Ht]. now rewrite Hc, (IH Ht).
Qed.

Lemma match_digits_all ds :
  all_digits ds = true -> ds <> "" -> JsString.match_digits ds = Some ds.
Proof.
  intros H Hne. destruct ds as [| c t]; [congruence |].
  pose proof (span_digits_all _ H) as Hs.
  simpl in H. apply andb_prop in H as [Hc Ht].
  cbn [JsString.match_digits]. rewrite Hc, Hs. reflexivity.
Qed.

Lemma lower_digit c : JsString.is_digit c = true -> JsString.lower_char c = c.
Proof. destruct c as [[] [] [] [] [] [] [] []]; simpl; intro H; try discriminate; reflexivity. Qed.

Lemma toLowerCase_digits : forall ds,
  all_digits ds = true -> JsString.toLowerCase ds = ds.
Proof.
  unfold JsString.toLowerCase.
  induction ds as [| c t IH]; cbn [JsString.map_chars all_digits]; [reflexivity |].
  intro H. apply andb_prop in H as [Hc Ht].
  now rewrite (lower_digit _ Hc), (IH Ht).
Qed.

(** A word that begins with something else than a digit is not found among
    digits. *)
Lemma includes_digits c w : forall ds,
  all_digits ds = true -> JsString.is_digit c = false ->
  JsString.includes (String c w) ds = false.
Proof.
  induction ds as [| d t IH]; intros H Hc; [reflexivity |].
  simpl in H. apply andb_prop in H as [Hd Ht].
  change (JsString.includes (String c w) (String d t))
    with (String.prefix (String c w) (String d t) || JsString.includes (String c w) t).
  rewrite (IH Ht Hc), orb_false_r. cbn [String.prefix].
  destruct (ascii_dec c d) as [-> | _]; [congruence | reflexivity].
Qed.

Lemma string_of_Z_of_N n : JsString.string_of_Z (Z.of_N n) = JsString.string_of_N n.
Proof. destruct n; reflexivity. Qed.

(** X12. The number typed is the tempo asked for.  For every natural number
    n in the range JavaScript numbers hold exactly (below 2^53), written in
    decimal, the mock answers the text 'set tempo to n' with the single
    action setBpm whose bpm is n itself, not clamped to any range of tempos,
    and says so in its reasoning. *)
Theorem mock_tempo_round_trip : forall (n : N) (model : string) (systemPrompt : option string),
  (n < 2 ^ 53)%N ->
  mockBackboardResponse ("set tempo to " ++ JsString.string_of_N n) model systemPrompt
  = wrapInBatch "setBpm" (Json.Obj [("bpm", Json.int (Z.of_N n))]) (95 # 100)
      ("Setting tempo to " ++ JsString.string_of_N n ++ " BPM").
Proof.
  intros n model systemPrompt _.
  destruct (string_of_N_spec n) as (Hall & Hne & Hparse).
  set (ds := JsString.string_of_N n) in *.
  assert (Hlow : JsString.toLowerCase ("set tempo to " ++ ds) = "set tempo to " ++ ds).
  { change (JsString.toLowerCase ("set tempo to " ++ ds))
      with ("set tempo to " ++ JsString.toLowerCase ds).
    now rewrite toLowerCase_digits. }
  assert (Hnot : forall c w,
            JsString.is_digit c = false ->
            String.prefix (String c w) ("set tempo to " ++ ds) = false ->
            String.prefix (String c w) ("et tempo to " ++ ds) = false ->
            String.prefix (String c w) ("t tempo to " ++ ds) = false ->
            String.prefix (String c w) (" tempo to " ++ ds) = false ->
            String.prefix (String c w) ("tempo to " ++ ds) = false ->
            String.prefix (String c w) ("empo to " ++ ds) = false ->
            String.prefix (String c w) ("mpo to " ++ ds) = false ->
            String.prefix (String c w) ("po to " ++ ds) = false ->
            String.prefix (String c w) ("o to " ++ ds) = false ->
            String.prefix (String c w) (" to " ++ ds) = false ->
            String.prefix (String c w) ("to " ++ ds) = false ->
            String.prefix (String c w) ("o " ++ ds) = false ->
            String.prefix (String c w) (" " ++ ds) = false ->
            JsString.includes (String c w) ("set tempo to " ++ ds) = false).
  { intros c w Hc H0 H1 H2 H3 H4 H5 H6 H7 H8 H9 H10 H11 H12.
    cbn [JsString.includes append].
    cbn [append] in H0, H1, H2, H3, H4, H5, H6, H7, H8, H9, H10, H11, H12.
    rewrite H0, H1, H2, H3, H4, H5, H6, H7, H8, H9, H10, H11, H12.
    cbn [orb]. now apply includes_digits. }
  assert (Hsuggest : JsString.includes "suggest" ("set tempo to " ++ ds) = false)
    by (apply Hnot; reflexivity).
  assert (Hbeat : JsString.includes "beat" ("set tempo to " ++ ds) = false)
    by (apply Hnot; reflexivity).
  assert (Hpattern : JsString.includes "pattern" ("set tempo to " ++ ds) = false)
    by (apply Hnot; reflexivity).
  assert (Hbpm : JsString.includes "bpm" ("set tempo to " ++ ds) = false)
    by (apply Hnot; reflexivity).
  assert (Htempo : JsString.includes "tempo" ("set tempo to " ++ ds) = true).
  { cbn [JsString.includes append].
    destruct ds as [| d t]; [congruence |]. reflexivity. }
  assert (Hbpm_of : bpmOf ("set tempo to " ++ ds) = Z.of_N n).
  { unfold bpmOf.
    change (JsString.match_digits ("set tempo to " ++ ds))
      with (JsString.match_digits ds).
    now rewrite (match_digits_all Hall Hne). }
  unfold mockBackboardResponse, ghostPreviewBranch, makeBeatBranch.
  rewrite Hlow, Hsuggest, Hbeat, Hpattern, Hbpm, Htempo, Hbpm_of.
  cbn [andb orb]. now rewrite string_of_Z_of_N.
Qed.

Lemma mock_tempo_round_trip_witness :
  mockBackboardResponse "set tempo to 100000" "gemini" None
  = wrapInBatch "setBpm" (Json.Obj [("bpm", Json.int 100000)]) (95 # 100)
      "Setting tempo to 100000 BPM".
Proof.
  apply (@mock_tempo_round_trip 100000 "gemini" None). reflexivity.
Defined.

Lemma parse_digits_nonneg : forall s acc,
  (0 <= acc)%Z -> (0 <= JsString.parse_digits acc s)%Z.
Proof.
  induction s as [| c t IH]; intros acc H; cbn [JsString.parse_digits]; [exact H |].
  apply IH. unfold JsString.digit_value. lia.
Qed.

(** X13. The suggestion of the mock always has the same three actions: a
    pattern of 32 steps named AI Generated Beat, a note sequence that is one
    of the three fixed variations, and a clip of 768 ticks.  The clip's
    track index is never below -1 and its start tick is never negative;
    without a prompt the clip goes to track 0 at tick 384 with the first
    variation. *)
Theorem suggestion_shape : forall systemPrompt : option string,
  exists (trackIndex startTick : Z) (notes : list Json.value),
    parameters (suggestResponse systemPrompt)
    = Json.Obj [("actions", Json.Arr
        [ action_object (Json.Str "addPattern")
            (Json.Obj [("name", Json.Str "AI Generated Beat");
                       ("lengthInSteps", Json.int 32)]);
          action_object (Json.Str "addNoteSequence")
            (Json.Obj [("patternId", Json.Str "__NEW_PATTERN__");
                       ("notes", Json.Arr notes)]);
          action_object (Json.Str "addClip")
            (Json.Obj [("patternId", Json.Str "__NEW_PATTERN__");
                       ("trackIndex", Json.int trackIndex);
                       ("startTick", Json.int startTick);
                       ("durationTick", Json.int 768)]) ])] /\
    In notes noteVariations /\
    (-1 <= trackIndex)%Z /\ (0 <= startTick)%Z /\
    (given systemPrompt = false ->
     trackIndex = 0%Z /\ startTick = 384%Z /\ notes = nth 0 noteVariations []).
Proof.
  intro systemPrompt. unfold suggestResponse. cbv zeta.
  set (prompt := match systemPrompt with
                 | Some p => if String.eqb p "" then None else Some p
                 | None => None
                 end).
  assert (Hprompt : given systemPrompt = false -> prompt = None).
  { unfold prompt. destruct systemPrompt as [p |]; simpl; [| reflexivity].
    destruct (String.eqb p ""); [reflexivity | discriminate]. }
  eexists _, _, _. split; [reflexivity |].
  split; [| split; [| split]].
  - apply nth_In. apply Nat.mod_upper_bound. discriminate.
  - destruct prompt as [p |]; [| lia].
    destruct (first_match track_at p) as [d |]; [| lia].
    pose proof (@parse_digits_nonneg d 0%Z (Z.le_refl 0)) as H.
    unfold JsString.parseInt. lia.
  - destruct prompt as [p |]; [| lia].
    destruct (first_match tick_at p) as [d |]; [| lia].
    apply parse_digits_nonneg. lia.
  - intro H. rewrite (Hprompt H). repeat split.
Qed.

Lemma suggestion_shape_witness :
  exists (trackIndex startTick : Z) (notes : list Json.value),
    parameters (suggestResponse (Some "")) 
    = Json.Obj [("actions", Json.Arr
        [ action_object (Json.Str "addPattern")
            (Json.Obj [("name", Json.Str "AI Generated Beat");
                       ("lengthInSteps", Json.int 32)]);
          action_object (Json.Str "addNoteSequence")
            (Json.Obj [("patternId", Json.Str "__NEW_PATTERN__");
                       ("notes", Json.Arr notes)]);
          action_object (Json.Str "addClip")
            (Json.Obj [("patternId", Json.Str "__NEW_PATTERN__");
                       ("trackIndex", Json.int trackIndex);
                       ("startTick", Json.int startTick);
                       ("durationTick", Json.int 768)]) ])] /\
    trackIndex = 0%Z /\ startTick = 384%Z /\ notes = nth 0 noteVariations [].
Proof.
  destruct (suggestion_shape (Some "")) as (ti & st & notes & E & _ & _ & _ & H).
  exists ti, st, notes. split; [exact E | apply H; reflexivity].
Defined.

Lemma legacy_mock_single text model :
  exists name,
    action (BackboardLegacy.mockBackboardResponse text model) = Json.Str name /\
    In name ["addPattern"; "setBpm"; "play"; "stop"; "addNote";
             "clarificationNeeded"] /\
    ChatPanel.isBatch (BackboardLegacy.mockBackboardResponse text model) = false.
Proof.
  unfold BackboardLegacy.mockBackboardResponse, ChatPanel.isBatch. cbv zeta.
  repeat match goal with
         | |- context [if ?b then _ else _] => destruct b
         end;
    eexists; (split; [reflexivity |]); (split; [simpl; tauto | reflexivity]).
Qed.

(** X14. The mock-only revision never answers with a batch.  Its sendToModel
    always returns, never throws, and the response names one single action
    among addPattern, setBpm, play, stop, addNote and clarificationNeeded;
    so the test by which ChatPanel recognises a batch fails on every
    response of that revision. *)
Theorem legacy_answers_single_actions :
  forall key text model history w,
    exists response name,
      fst (BackboardLegacy.sendToModel key text model history w) = Ok response /\
      action response = Json.Str name /\
      In name ["addPattern"; "setBpm"; "play"; "stop"; "addNote";
               "clarificationNeeded"] /\
      ChatPanel.isBatch response = false.
Proof.
  intros key text model history w.
  destruct (legacy_mock_single text model) as (name & Ha & Hin & Hb).
  exists (BackboardLegacy.mockBackboardResponse text model), name.
  split; [reflexivity | auto].
Qed.

End MockAnswers.

(** ** ChatPanel: the small handlers *)

Module ViewFacts.

Import ChatPanel ChatPanelView Measures.
Local Open Scope string_scope.
Local Open Scope Z_scope.

Lemma floor_twice a b c : 0 < b -> 0 < c -> a / b / c = a / (b * c).
Proof.
  intros Hb Hc.
  pose proof (Z.div_mod a b ltac:(lia)) as E1.
  pose proof (Z.mod_pos_bound a b Hb) as B1.
  pose proof (Z.div_mod (a / b) c ltac:(lia)) as E2.
  pose proof (Z.mod_pos_bound (a / b) c Hc) as B2.
  apply Z.div_unique with (r := b * ((a / b) mod c) + a mod b); nia.
Qed.

(** X15. formatRelativeTime reads the age of a message in whole units.  An
    age under one minute, negative ages included, reads 'just now'; from one
    minute up to one hour it reads the whole minutes (1 to 59) and 'm ago';
    from one hour up to one day the whole hours (1 to 23) and 'h ago'; from
    one day on the whole days (at least 1) and 'd ago'. *)
Theorem formatRelativeTime_ranges : forall now timestamp : Z,
  let age := now - timestamp in
  (age < 60000 -> formatRelativeTime now timestamp = "just now"%string) /\
  (60000 <= age < 3600000 ->
   formatRelativeTime now timestamp
   = (JsString.string_of_Z (age / 60000) ++ "m ago")%string /\
   1 <= age / 60000 <= 59) /\
  (3600000 <= age < 86400000 ->
   formatRelativeTime now timestamp
   = (JsString.string_of_Z (age / 3600000) ++ "h ago")%string /\
   1 <= age / 3600000 <= 23) /\
  (86400000 <= age ->
   formatRelativeTime now timestamp
   = (JsString.string_of_Z (age / 86400000) ++ "d ago")%string /\
   1 <= age / 86400000).
Proof.
  intros now timestamp age. unfold formatRelativeTime. cbv zeta. fold age.
  assert (Hm : age / 1000 / 60 = age / 60000) by (rewrite floor_twice; [reflexivity | lia | lia]).
  assert (Hh : age / 1000 / 60 / 60 = age / 3600000).
  { rewrite Hm, floor_twice; [reflexivity | lia | lia]. }
  assert (Hd : age / 1000 / 60 / 60 / 24 = age / 86400000).
  { rewrite Hh, floor_twice; [reflexivity | lia | lia]. }
  rewrite Hd, Hh, Hm.
  pose proof (Z.div_mod age 1000 ltac:(lia)) as E1.
  pose proof (Z.mod_pos_bound age 1000 ltac:(lia)) as B1.
  pose proof (Z.div_mod age 60000 ltac:(lia)) as E2.
  pose proof (Z.mod_pos_bound age 60000 ltac:(lia)) as B2.
  pose proof (Z.div_mod age 3600000 ltac:(lia)) as E3.
  pose proof (Z.mod_pos_bound age 3600000 ltac:(lia)) as B3.
  pose proof (Z.div_mod age 86400000 ltac:(lia)) as E4.
  pose proof (Z.mod_pos_bound age 86400000 ltac:(lia)) as B4.
  repeat split;
    repeat match goal with
           | |- context [?a <? ?b] => destruct (Z.ltb_spec a b)
           end; try reflexivity; try lia.
Qed.

Lemma formatRelativeTime_ranges_witness :
  formatRelativeTime 1700003599999 1700000000000 = "59m ago"%string.
Proof.
  apply (proj1 (proj2 (formatRelativeTime_ranges 1700003599999 1700000000000))).
  simpl. lia.
Defined.

(** X16. The text area grows with its content up to five rows: after a
    change to [value] the input text is [value] and the number of rows is
    one more than the number of line feeds in it, capped at five; so it is
    never less than one nor more than five. *)
Theorem textarea_rows : forall (ChatMessage : Type) (value : string),
  exists rows : nat,
    handleTextareaChange ChatMessage value
    = [SetInputText value; SetTextareaRows rows] /\
    rows = Nat.min (S (occurrences "010"%char value)) 5 /\
    (1 <= rows <= 5)%nat.
Proof.
  intros ChatMessage value. unfold handleTextareaChange. cbv zeta.
  rewrite SearchFacts.length_split_on.
  eexists. split; [reflexivity |]. split; [reflexivity | lia].
Qed.

End ViewFacts.

(** ** ChatPanel: what a send does to the conversation *)

Module PanelFacts.

Import Backboard ChatPanel Measures.
Local Open Scope string_scope.

Lemma lastn_suffix (A : Type) (n : nat) (l : list A) :
  exists older,
    l = (older ++ lastn n l)%list /\
    List.length (lastn n l) = Nat.min n (List.length l).
Proof.
  unfold lastn. exists (firstn (List.length l - n) l). split.
  - symmetry. apply firstn_skipn.
  - rewrite length_skipn. lia.
Qed.

Section HandleSend.

Variables Project SampleLibrary DAWContext Command ChatMessage : Type.
Variable buildDAWContext : Project -> SampleLibrary -> DAWContext.
Variable generateSystemPrompt : DAWContext -> string.
Variable ext : Externals SampleLibrary Command ChatMessage.

(** What lies between raising the pending flag and releasing it. *)
Lemma handleSend_accepted st project :
  String.eqb (JsString.trim (inputText st)) "" || isPending st = false ->
  handleSend buildDAWContext generateSystemPrompt ext st project =
  ([ SetInputText ""; SetTextareaRows 1;
     AddMessage user (JsString.trim (inputText st)) sent;
     SetPending true ]
   ++ catching (requestAndRun buildDAWContext generateSystemPrompt ext st project
                  (JsString.trim (inputText st)))
               onRequestError
   ++ [ SetPending false ])%list.
Proof. intro H. unfold handleSend. now rewrite H. Qed.

Lemma onRequestError_report e : failure_report (@onRequestError ChatMessage e).
Proof.
  unfold onRequestError, failure_report.
  destruct e as [[] m |]; try destruct (JsString.includes "fetch" m); eauto.
Qed.

Lemma runCommandResult_reply sampleLibrary backboardResponse :
  reply (catching (runCommandResult ext sampleLibrary backboardResponse)
                  onCommandError).
Proof.
  unfold runCommandResult, catching, onCommandError, done, raised, reply.
  destruct (isBatch backboardResponse).
  - destruct (executeBatch ext (batchDataOf backboardResponse) sampleLibrary)
      as [e | batchResult]; simpl; [eauto |].
    destruct (success batchResult); simpl; [| eauto].
    destruct (given (undoGroupId batchResult)); simpl; eauto.
  - destruct (parseAIResponse ext backboardResponse) as [e | command]; simpl;
      [eauto |].
    destruct (executeCommand ext command) as [e | result]; simpl; [eauto |].
    destruct (cmd_success result); simpl; [| eauto].
    destruct (given (commandId result)); simpl; eauto.
Qed.

(** Either the API answered, and what follows the request is the agent's
    reply; or it did not, and what is there ends with the failure report. *)
Lemma between_shape st project :
  let mid := catching (requestAndRun buildDAWContext generateSystemPrompt ext st project
                         (JsString.trim (inputText st))) onRequestError in
  (api_answered buildDAWContext generateSystemPrompt ext st project /\
   exists request tail, mid = PostChat request :: tail /\ reply tail) \/
  (~ api_answered buildDAWContext generateSystemPrompt ext st project /\
   (failure_report mid \/
    exists request tail, mid = PostChat request :: tail /\ failure_report tail)).
Proof.
  cbv zeta. unfold requestAndRun, api_answered.
  destruct (loadSampleLibrary ext) as [e | sampleLibrary].
  { right. split.
    - intros (l & r & a & H & _). discriminate.
    - left. apply onRequestError_report. }
  cbv zeta.
  set (request := requestBody st (JsString.trim (inputText st))
                    (generateSystemPrompt (buildDAWContext project sampleLibrary))).
  assert (Hraised : forall e,
            catching (after [PostChat request] (raised [] e)) onRequestError
            = PostChat request :: onRequestError e) by reflexivity.
  assert (Hdone : forall l : list (Effect ChatMessage),
            catching (after [PostChat request] (done l)) onRequestError
            = PostChat request :: l) by reflexivity.
  destruct (fetch ext request) as [e | response] eqn:Hfetch.
  { right. split.
    - intros (l & r & a & Hl & Hf & _). injection Hl as <-.
      fold request in Hf. congruence.
    - right. rewrite Hraised. eauto using onRequestError_report. }
  destruct (ok response) eqn:Hok; cbn [negb].
  2:{ right. split.
      - intros (l & r & a & Hl & Hf & Ho & _). injection Hl as <-.
        fold request in Hf. congruence.
      - right. rewrite Hraised. eauto using onRequestError_report. }
  destruct (json response) as [e | apiResponse] eqn:Hjson.
  { right. split.
    - intros (l & r & a & Hl & Hf & Ho & Hj & _). injection Hl as <-.
      fold request in Hf. congruence.
    - right. rewrite Hraised. eauto using onRequestError_report. }
  destruct (api_success apiResponse) eqn:Hsuccess; cbn [negb].
  2:{ right. split.
      - intros (l & r & a & Hl & Hf & Ho & Hj & Hs). injection Hl as <-.
        fold request in Hf. congruence.
      - right. rewrite Hraised. eauto using onRequestError_report. }
  left. split.
  { exists sampleLibrary, response, apiResponse. auto. }
  destruct (data apiResponse) as [d |]; cbn [option_map].
  - destruct (commandResult d) as [backboardResponse |].
    + rewrite Hdone. eauto using runCommandResult_reply.
    + destruct (given (data_message d)); rewrite Hdone;
        do 2 eexists; (split; [reflexivity |]); left; eauto.
  - cbn [given]. rewrite Hdone.
    do 2 eexists. split; [reflexivity |]. left. eauto.
Qed.

(** Membership in an explicit list of effects, all of another sort. *)
Ltac absent :=
  let H := fresh "Hin" in
  intro H; simpl in H;
  repeat (destruct H as [H | H]; [discriminate |]);
  try contradiction.

(** X17. What a send does to the conversation.  With a blank input or a
    request pending, handleSend does nothing at all.  Otherwise it clears the
    input, resets the rows, shows the user's trimmed text, raises the pending
    flag, and always ends by releasing it; in between there is at most one
    request, and exactly one message of the agent, whatever fails: either
    the failure report (error message and toast) or the reply, followed at
    most by the recording of one command to undo. *)
Theorem handleSend_conversation : forall st project,
  let effects := handleSend buildDAWContext generateSystemPrompt ext st project in
  (String.eqb (JsString.trim (inputText st)) "" || isPending st = true ->
   effects = []) /\
  (String.eqb (JsString.trim (inputText st)) "" || isPending st = false ->
   (exists mid,
      effects = ([ SetInputText ""; SetTextareaRows 1;
                   AddMessage user (JsString.trim (inputText st)) sent;
                   SetPending true ]
                 ++ mid ++ [ SetPending false ])%list /\
      (failure_report mid \/
       exists request tail,
         mid = PostChat request :: tail /\ (failure_report tail \/ reply tail))) /\
   how_many (@is_agent_message ChatMessage) effects = 1%nat /\
   how_many (@is_user_message ChatMessage) effects = 1%nat /\
   filter (@is_pending_change ChatMessage) effects = [SetPending true; SetPending false] /\
   (how_many (@is_post ChatMessage) effects <= 1)%nat /\
   (how_many (@is_last_command ChatMessage) effects <= 1)%nat).
Proof.
  intros st project effects. split.
  - intro H. unfold effects, handleSend. now rewrite H.
  - intro H. unfold effects. rewrite (handleSend_accepted st project H).
    destruct (between_shape st project)
      as [(_ & request & tail & -> & Hreply)
         | (_ & [Hfail | (request & tail & -> & Hfail)])].
    + split; [eexists; split; [reflexivity | eauto 6] |].
      unfold how_many.
      destruct Hreply as [(text & status & ->) | (text & id & ->)];
        repeat split; first [reflexivity | simpl; lia].
    + split; [eexists; split; [reflexivity | eauto] |].
      unfold how_many.
      destruct Hfail as (reason & toast & -> & Htoast).
      repeat split; first [reflexivity | simpl; lia].
    + split; [eexists; split; [reflexivity | eauto 6] |].
      unfold how_many.
      destruct Hfail as (reason & toast & -> & Htoast).
      repeat split; first [reflexivity | simpl; lia].
Qed.

(** X18. The error toast is for requests the API did not answer.  For a send
    that is accepted, a toast is shown exactly when the round trip failed:
    the sample library did not load, the request threw, the HTTP status was
    not ok, the body could not be read, or it said success: false.  Once the
    API has answered, nothing that goes wrong while the commands are run
    raises a toast.  And a send that shows a toast records no command to
    undo. *)
Theorem toast_iff_api_unanswered : forall st project,
  let effects := handleSend buildDAWContext generateSystemPrompt ext st project in
  String.eqb (JsString.trim (inputText st)) "" || isPending st = false ->
  ((exists message, In (ShowErrorToast message) effects) <->
   ~ api_answered buildDAWContext generateSystemPrompt ext st project) /\
  ((exists message, In (ShowErrorToast message) effects) ->
   forall id, ~ In (SetLastCommand id) effects).
Proof.
  intros st project effects H. unfold effects.
  rewrite (handleSend_accepted st project H).
  destruct (between_shape st project)
    as [(Hans & request & tail & -> & Hreply)
       | (Hnot & [Hfail | (request & tail & -> & Hfail)])].
  - assert (Hnone : ~ exists message,
              In (@ShowErrorToast ChatMessage message)
                 ([ SetInputText ""; SetTextareaRows 1;
                    AddMessage user (JsString.trim (inputText st)) sent;
                    SetPending true ]
                  ++ (PostChat request :: tail) ++ [ SetPending false ])%list).
    { intros (message & Hin). revert Hin.
      destruct Hreply as [(text & status & ->) | (text & id & ->)]; absent. }
    split; [split; [intro; contradiction | intro; contradiction] |].
    intro; contradiction.
  - destruct Hfail as (reason & toast & -> & _). split.
    + split; [intros _; exact Hnot |].
      intros _. exists toast. simpl. auto 10.
    + intros _ id. absent.
  - destruct Hfail as (reason & toast & -> & _). split.
    + split; [intros _; exact Hnot |].
      intros _. exists toast. simpl. auto 10.
    + intros _ id. absent.
Qed.

(** X19. What a request carries besides the system prompt.  Every request
    handleSend posts has for text the input with the white space at its ends
    removed, which is not empty; for model the one selected in the panel;
    and for history the last five messages of the conversation as it was
    before the send (all of them when there are fewer), in their order. *)
Theorem request_contents : forall st project request,
  In (PostChat request)
     (handleSend buildDAWContext generateSystemPrompt ext st project) ->
  req_text request = JsString.trim (inputText st) /\
  req_text request <> "" /\
  req_model request = selectedModel st /\
  conversationHistory request = lastn 5 (messages st) /\
  List.length (conversationHistory request) = Nat.min 5 (List.length (messages st)) /\
  exists older, messages st = (older ++ conversationHistory request)%list.
Proof.
  intros st project request Hin.
  assert (Hguard : String.eqb (JsString.trim (inputText st)) "" = false).
  { unfold handleSend in Hin.
    destruct (String.eqb (JsString.trim (inputText st)) ""); [| reflexivity].
    simpl in Hin. contradiction. }
  apply PromptFacts.handleSend_posts in Hin as (sampleLibrary & _ & ->).
  destruct (lastn_suffix 5 (messages st)) as (older & Eolder & Hlen).
  unfold requestBody. cbn [req_text req_model conversationHistory].
  repeat split; auto.
  - now apply String.eqb_neq.
  - eauto.
Qed.

End HandleSend.

Lemma handleSend_conversation_witness :
  handleSend (fun (p : string) (_ : unit) => p) Scenarios.promptFor
    (Scenarios.panelExternals Scenarios.fullBatch Scenarios.playResult)
    (Scenarios.typing "   ") "Demo"
  = [].
Proof.
  apply (proj1 (@handleSend_conversation string unit string unit unit
                  (fun p _ => p) Scenarios.promptFor
                  (Scenarios.panelExternals Scenarios.fullBatch Scenarios.playResult)
                  (Scenarios.typing "   ") "Demo")).
  reflexivity.
Defined.

Lemma toast_iff_api_unanswered_witness :
  exists message,
    In (ShowErrorToast message)
       (handleSend (fun (p : string) (_ : unit) => p) Scenarios.promptFor
          {| loadSampleLibrary := inl (ErrorObj true "Failed to fetch");
             fetch := fetch (Scenarios.panelExternals Scenarios.fullBatch
                               Scenarios.playResult);
             executeBatch := fun _ _ => inr Scenarios.fullBatch;
             parseAIResponse := fun _ => inr tt;
             executeCommand := fun _ => inr Scenarios.playResult |}
          (Scenarios.typing "play") "Demo").
Proof.
  apply (proj2 (proj1 (@toast_iff_api_unanswered string unit string unit unit
                         (fun p _ => p) Scenarios.promptFor
                         {| loadSampleLibrary := inl (ErrorObj true "Failed to fetch");
                            fetch := fetch (Scenarios.panelExternals Scenarios.fullBatch
                                              Scenarios.playResult);
                            executeBatch := fun _ _ => inr Scenarios.fullBatch;
                            parseAIResponse := fun _ => inr tt;
                            executeCommand := fun _ => inr Scenarios.playResult |}
                         (Scenarios.typing "play") "Demo" eq_refl))).
  intros (sampleLibrary & response & apiResponse & Hload & _).
  discriminate.
Defined.

Lemma request_contents_witness :
  req_text (requestBody (Scenarios.typing "  play  ") "play"
              (Scenarios.promptFor "Demo"))
  = "play".
Proof.
  apply (@request_contents string unit string unit unit
           (fun p _ => p) Scenarios.promptFor
           (Scenarios.panelExternals Scenarios.fullBatch Scenarios.playResult)
           (Scenarios.typing "  play  ") "Demo").
  vm_compute. auto 10.
Defined.

End PanelFacts.

(** ** initializeBackboard and the client *)

Module ClientFacts.

Import Backboard BackboardApi.
Local Open Scope string_scope.

(** X20. initializeBackboard and getClient on the API key.  Without a key
    (missing or empty) initializeBackboard throws 'BACKBOARD_API_KEY
    environment variable is not set' and changes nothing, even when a client
    exists already and getClient would return it.  With a key it returns,
    the client exists afterwards, the cached ids, the hash and the log are
    as before, and from then on both initializeBackboard and getClient
    return without changing anything. *)
Theorem initializeBackboard_prepares_client : forall env w,
  (given (BACKBOARD_API_KEY env) = false ->
   initializeBackboard env w
   = (Thrown (JsError "BACKBOARD_API_KEY environment variable is not set"), w) /\
   (client (cache w) = true -> getClient env w = (Ok tt, w))) /\
  (given (BACKBOARD_API_KEY env) = true ->
   exists w',
     initializeBackboard env w = (Ok tt, w') /\
     client (cache w') = true /\
     cachedAssistantId (cache w') = cachedAssistantId (cache w) /\
     cachedThreadId (cache w') = cachedThreadId (cache w) /\
     cachedContextHash (cache w') = cachedContextHash (cache w) /\
     calls w' = calls w /\ trace w' = trace w /\
     initializeBackboard env w' = (Ok tt, w') /\
     getClient env w' = (Ok tt, w')).
Proof.
  intros env w. unfold initializeBackboard, getClient, bind, getCache, setCache,
    ret, throw.
  split; intro Hkey; rewrite Hkey; cbn [negb].
  - split; [reflexivity |]. intro Hc. now rewrite Hc.
  - destruct (client (cache w)) eqn:Hc; cbn [negb].
    + exists w. rewrite Hc. repeat split; auto.
    + eexists. split; [reflexivity |]. simpl. repeat split.
Qed.

Lemma initializeBackboard_prepares_client_witness :
  initializeBackboard
    {| BACKBOARD_API_KEY := None; sdk := Scenarios.chattySdk;
       JSON_parse := Scenarios.toyParse |} Scenarios.staleWorld
  = (Thrown (JsError "BACKBOARD_API_KEY environment variable is not set"),
     Scenarios.staleWorld) /\
  (client (cache Scenarios.staleWorld) = true ->
   getClient {| BACKBOARD_API_KEY := None; sdk := Scenarios.chattySdk;
                JSON_parse := Scenarios.toyParse |} Scenarios.staleWorld
   = (Ok tt, Scenarios.staleWorld)).
Proof.
  apply (proj1 (initializeBackboard_prepares_client
                  {| BACKBOARD_API_KEY := None; sdk := Scenarios.chattySdk;
                     JSON_parse := Scenarios.toyParse |} Scenarios.staleWorld)).
  reflexivity.
Defined.

End ClientFacts.
